(** * CartoGraph backend: tier gating, field masking, billing webhooks,
      webhook delivery and the domain lookup routes.

    Shallow embedding of
      - src/backend/app/tier_gating.py
      - src/backend/app/stripe_billing.py (checkout sessions, webhook processing)
      - src/backend/app/webhook_tasks.py (deliver_webhook and its Celery retries)
      - src/backend/app/api/routes/domains.py (list, lookup and import routes)
      - src/backend/app/api/routes/billing.py (start_checkout)
      - src/backend/app/api/routes/webhooks.py (the endpoint routes)
      - src/backend/app/celery_app.py (the [task_annotations] retry limit)
      - src/backend/app/models.py ([DomainPublic], the lookup routes' response model)

    Python values are JSON-like values ([jvalue]); a Python dict is an
    association list with unique keys, kept in insertion order; [dict_set]
    is [d[k] = v] and [dict_get] is [d.get(k)]. *)

From Stdlib Require Import String Ascii List ZArith Bool Lia.
From Stdlib Require Import Sorting.Sorted Permutation.
Import ListNotations.
Open Scope string_scope.
Open Scope Z_scope.
Set Warnings "-register-all".

(* ------------------------------------------------------------------------- *)
(** ** Python values and dicts *)

Inductive jvalue : Type :=
| JNull
| JBool (b : bool)
| JNum (n : Z)
| JStr (s : string)
| JList (l : list jvalue)
| JObj (o : list (string * jvalue)).

Definition pydict := list (string * jvalue).

(** [d.get(k)]: the value under [k], or [None]. *)
Fixpoint dict_get (d : pydict) (k : string) : jvalue :=
  match d with
  | [] => JNull
  | (k', v) :: r => if String.eqb k k' then v else dict_get r k
  end.

(** Optional lookup, distinguishing a missing key from a key bound to [None]. *)
Fixpoint dict_lookup (d : pydict) (k : string) : option jvalue :=
  match d with
  | [] => None
  | (k', v) :: r => if String.eqb k k' then Some v else dict_lookup r k
  end.

(** [d[k] = v]: overwrite in place when present, append otherwise. *)
Fixpoint dict_set (d : pydict) (k : string) (v : jvalue) : pydict :=
  match d with
  | [] => [(k, v)]
  | (k', v') :: r => if String.eqb k k' then (k, v) :: r else (k', v') :: dict_set r k v
  end.

Definition keys (d : pydict) : list string := map fst d.

Definition str_mem (k : string) (l : list string) : bool :=
  existsb (String.eqb k) l.

(** ASCII [str.lower()]. *)
Definition lower_ascii (c : ascii) : ascii :=
  let n := nat_of_ascii c in
  if andb (Nat.leb 65 n) (Nat.leb n 90) then ascii_of_nat (n + 32) else c.

Fixpoint lower (s : string) : string :=
  match s with
  | EmptyString => EmptyString
  | String c r => String (lower_ascii c) (lower r)
  end.

(** Decimal rendering of an integer, as in an f-string. *)
Fixpoint digits_aux (fuel : nat) (n : N) (acc : string) : string :=
  match fuel with
  | O => acc
  | S f =>
      let acc' := String (ascii_of_N (48 + N.modulo n 10)) acc in
      if (n <? 10)%N then acc' else digits_aux f (N.div n 10) acc'
  end.

Definition str_of_Z (z : Z) : string :=
  if z <? 0 then "-" ++ digits_aux (S (N.size_nat (Z.to_N (- z)))) (Z.to_N (- z)) ""
  else digits_aux (S (N.size_nat (Z.to_N z))) (Z.to_N z) "".

(* ------------------------------------------------------------------------- *)
(** ** tier_gating.py: tier limits *)

Record TierLimits := {
  tier : string;
  max_lookups_per_month : option Z;
  max_rows_per_view : option Z;
  max_export_credits_per_month : option Z;
  max_api_calls_per_month : option Z;
  max_saved_lists : option Z;
  max_alerts : option Z;
  max_team_seats : Z;
  api_rate_limit_per_min : option Z;
  historical_months : option Z;
  allowed_field_groups : list string;
  all_fields : bool;
  can_export_csv : bool;
  can_use_api : bool;
  can_use_webhooks : bool;
  can_white_label : bool;
  can_share_workspace : bool;
  daily_trending : bool
}.

Definition free_limits : TierLimits := {|
  tier := "free"; max_lookups_per_month := Some 25; max_rows_per_view := Some 100;
  max_export_credits_per_month := Some 0; max_api_calls_per_month := Some 0;
  max_saved_lists := Some 1; max_alerts := Some 0; max_team_seats := 1;
  api_rate_limit_per_min := None; historical_months := None;
  allowed_field_groups := ["discovery_basic"; "ecommerce_basic"; "seo_basic"; "meta_basic"];
  all_fields := false; can_export_csv := false; can_use_api := false;
  can_use_webhooks := false; can_white_label := false; can_share_workspace := false;
  daily_trending := false |}.

Definition starter_limits : TierLimits := {|
  tier := "starter"; max_lookups_per_month := Some 500; max_rows_per_view := Some 5000;
  max_export_credits_per_month := Some 50; max_api_calls_per_month := Some 0;
  max_saved_lists := Some 5; max_alerts := Some 5; max_team_seats := 1;
  api_rate_limit_per_min := None; historical_months := None;
  allowed_field_groups := ["discovery_basic"; "ecommerce_basic"; "seo_basic"; "meta_basic";
                           "ecommerce"; "seo_metrics"; "technical_layer"; "contact_social"];
  all_fields := false; can_export_csv := true; can_use_api := false;
  can_use_webhooks := false; can_white_label := false; can_share_workspace := false;
  daily_trending := false |}.

Definition professional_limits : TierLimits := {|
  tier := "professional"; max_lookups_per_month := None; max_rows_per_view := Some 50000;
  max_export_credits_per_month := Some 500; max_api_calls_per_month := Some 10000;
  max_saved_lists := Some 25; max_alerts := Some 50; max_team_seats := 3;
  api_rate_limit_per_min := Some 100; historical_months := Some 3;
  allowed_field_groups := []; all_fields := true; can_export_csv := true;
  can_use_api := true; can_use_webhooks := true; can_white_label := false;
  can_share_workspace := false; daily_trending := true |}.

Definition business_limits : TierLimits := {|
  tier := "business"; max_lookups_per_month := None; max_rows_per_view := Some 250000;
  max_export_credits_per_month := Some 2000; max_api_calls_per_month := Some 50000;
  max_saved_lists := None; max_alerts := None; max_team_seats := 10;
  api_rate_limit_per_min := Some 500; historical_months := Some 12;
  allowed_field_groups := []; all_fields := true; can_export_csv := true;
  can_use_api := true; can_use_webhooks := true; can_white_label := true;
  can_share_workspace := true; daily_trending := true |}.

Definition enterprise_limits : TierLimits := {|
  tier := "enterprise"; max_lookups_per_month := None; max_rows_per_view := None;
  max_export_credits_per_month := None; max_api_calls_per_month := None;
  max_saved_lists := None; max_alerts := None; max_team_seats := 999;
  api_rate_limit_per_min := None; historical_months := None;
  allowed_field_groups := []; all_fields := true; can_export_csv := true;
  can_use_api := true; can_use_webhooks := true; can_white_label := true;
  can_share_workspace := true; daily_trending := true |}.

Definition TIER_LIMITS : list (string * TierLimits) :=
  [("free", free_limits); ("starter", starter_limits);
   ("professional", professional_limits); ("business", business_limits);
   ("enterprise", enterprise_limits)].

Fixpoint assoc {A} (l : list (string * A)) (k : string) : option A :=
  match l with
  | [] => None
  | (k', v) :: r => if String.eqb k k' then Some v else assoc r k
  end.

(** [tier in TIER_LIMITS] *)
Definition tier_known (t : string) : bool :=
  match assoc TIER_LIMITS t with Some _ => true | None => false end.

(* ------------------------------------------------------------------------- *)
(** ** tier_gating.py: field groups and masking *)

(** [_ALWAYS_VISIBLE] (a Python set; its iteration order is immaterial to
    the claims, the source's listing order is used). *)
Definition ALWAYS_VISIBLE : list string :=
  ["domain_id"; "domain"; "country"; "tld"; "status";
   "first_seen_at"; "last_updated_at"; "schema_version"].

(** [_FIELD_GATING]: group -> tier -> allow-list, [None] = all sub-keys. *)
Definition all_none : list (string * option (list string)) :=
  [("free", None); ("starter", None); ("professional", None);
   ("business", None); ("enterprise", None)].

Definition FIELD_GATING : list (string * list (string * option (list string))) :=
  [("discovery",
     [("free", Some ["method"; "first_seen"; "last_verified"]);
      ("starter", Some ["method"; "first_seen"; "last_verified"; "intent_type"]);
      ("professional", None); ("business", None); ("enterprise", None)]);
   ("ecommerce",
     [("free", Some ["platform"]);
      ("starter", Some ["platform"; "platform_confidence"; "product_count_estimate";
                        "category_primary"; "currency"]);
      ("professional", None); ("business", None); ("enterprise", None)]);
   ("seo_metrics",
     [("free", Some ["domain_rating"]);
      ("starter", Some ["domain_rating"; "domain_authority"; "organic_traffic_estimate";
                        "referring_domains_count"; "organic_traffic_trend"]);
      ("professional", None); ("business", None); ("enterprise", None)]);
   ("intent_layer",
     [("free", None); ("starter", Some ["commercial_intent_score"]);
      ("professional", None); ("business", None); ("enterprise", None)]);
   ("serp_intelligence",
     [("free", None); ("starter", Some ["serp_features"]);
      ("professional", None); ("business", None); ("enterprise", None)]);
   ("technical_layer",
     [("free", None); ("starter", Some ["tech_stack"]);
      ("professional", None); ("business", None); ("enterprise", None)]);
   ("contact",
     [("free", None); ("starter", Some ["social_profiles"; "has_contact_form"]);
      ("professional", None); ("business", None); ("enterprise", None)]);
   ("meta",
     [("free", Some ["ssl_valid"; "mobile_friendly"; "page_speed_score"]);
      ("starter", Some ["ssl_valid"; "mobile_friendly"; "page_speed_score"; "language"; "title"]);
      ("professional", None); ("business", None); ("enterprise", None)]);
   ("change_tracking",
     [("free", None); ("starter", None);
      ("professional", Some ["mom_traffic_delta"; "trending_score"]);
      ("business", None); ("enterprise", None)]);
   ("marketplace_overlap", all_none);
   ("paid_ads_presence", all_none);
   ("confidence_score",
     [("free", Some ["value"]); ("starter", None); ("professional", None);
      ("business", None); ("enterprise", None)]);
   ("pipeline", all_none);
   ("ai_summary", all_none)].

Definition HIDDEN_FOR_FREE : list string :=
  ["intent_layer"; "serp_intelligence"; "technical_layer"; "contact";
   "change_tracking"; "marketplace_overlap"; "paid_ads_presence";
   "pipeline"; "ai_summary"].

Definition HIDDEN_FOR_STARTER : list string := ["change_tracking"].

Definition gated_key (group : string) : string := group ++ "_gated".

(** Python truthiness of a value. *)
Definition truthy (v : jvalue) : bool :=
  match v with
  | JNull => false
  | JBool b => b
  | JNum n => negb (n =? 0)
  | JStr s => negb (String.eqb s "")
  | JList l => negb (Nat.eqb (length l) 0)
  | JObj o => negb (Nat.eqb (length o) 0)
  end.

(** [{k: v for k, v in blob.items() if k in allowed_keys}] *)
Definition filter_items (o : pydict) (allowed : list string) : pydict :=
  fold_left (fun acc kv => if str_mem (fst kv) allowed then dict_set acc (fst kv) (snd kv) else acc)
            o [].

(** [_filter_jsonb]; [None] result = the call raises ([.items()] of a
    value that is not a dict: AttributeError). *)
Definition filter_jsonb (blob : jvalue) (allowed_keys : option (list string)) : option jvalue :=
  match blob with
  | JNull => Some JNull
  | _ =>
      match allowed_keys with
      | None => Some blob
      | Some ks =>
          match blob with
          | JObj o => Some (JObj (filter_items o ks))
          | _ => None
          end
      end
  end.

(** [set(blob.keys()) - set(allowed_keys)] is non-empty. *)
Definition has_extra_keys (blob : jvalue) (allowed : list string) : bool :=
  match blob with
  | JObj o => existsb (fun k => negb (str_mem k allowed)) (keys o)
  | _ => false
  end.

(** [tier_map.get(tier_lower)] (a missing tier and a [None] entry agree). *)
Definition allowed_for (tier_map : list (string * option (list string))) (t : string)
  : option (list string) :=
  match assoc tier_map t with Some a => a | None => None end.

(** One iteration of the per-group loop of [mask_domain_by_tier]. *)
Definition gate_group (tier_lower : string) (domain_data result : pydict)
           (group : string) (tier_map : list (string * option (list string)))
  : option pydict :=
  let allowed_keys := allowed_for tier_map tier_lower in
  let blob := dict_get domain_data group in
  if andb (String.eqb tier_lower "free") (str_mem group HIDDEN_FOR_FREE) then
    Some (dict_set (dict_set result group JNull) (gated_key group) (JBool true))
  else if andb (String.eqb tier_lower "starter") (str_mem group HIDDEN_FOR_STARTER) then
    Some (dict_set (dict_set result group JNull) (gated_key group) (JBool true))
  else
    match allowed_keys with
    | None => Some (dict_set result group blob)
    | Some ks =>
        match filter_jsonb blob (Some ks) with
        | None => None
        | Some fb =>
            let r1 := dict_set result group fb in
            if andb (truthy blob) (has_extra_keys blob ks)
            then Some (dict_set r1 (gated_key group) (JBool true))
            else Some r1
        end
    end.

Fixpoint gate_groups (tier_lower : string) (domain_data result : pydict)
         (groups : list (string * list (string * option (list string)))) : option pydict :=
  match groups with
  | [] => Some result
  | (g, tm) :: gs =>
      match gate_group tier_lower domain_data result g tm with
      | Some r => gate_groups tier_lower domain_data r gs
      | None => None
      end
  end.

Definition effective_tier (t : string) : string :=
  let tier_lower := lower t in
  if tier_known tier_lower then tier_lower else "free".

Definition copy_always_visible (domain_data : pydict) : pydict :=
  fold_left (fun r key => dict_set r key (dict_get domain_data key)) ALWAYS_VISIBLE [].

(** [mask_domain_by_tier]; [None] = the call raises. *)
Definition mask_domain_by_tier (domain_data : pydict) (t : string) : option pydict :=
  let tier_lower := effective_tier t in
  gate_groups tier_lower domain_data (copy_always_visible domain_data) FIELD_GATING.

Definition sample_domain : pydict :=
  [("domain", JStr "example.co.uk");
   ("ecommerce", JObj [("platform", JStr "Shopify"); ("checkout_url", JStr "/checkout")]);
   ("intent_layer", JObj [("commercial_intent_score", JNum 8)])].

Example mask_free_sample :
  option_map (fun r => (dict_lookup r "ecommerce", dict_lookup r "ecommerce_gated",
                        dict_lookup r "intent_layer_gated"))
             (mask_domain_by_tier sample_domain "free")
  = Some (Some (JObj [("platform", JStr "Shopify")]), Some (JBool true), Some (JBool true)).
Proof. reflexivity. Qed.

(* ------------------------------------------------------------------------- *)
(** ** tier_gating.py: TierGate *)

Record TierGate := { gate_tier : string; limits : TierLimits }.

(** [TierGate.__init__] *)
Definition make_gate (t : string) : TierGate :=
  let tl := lower t in
  {| gate_tier := tl;
     limits := match assoc TIER_LIMITS tl with Some l => l | None => free_limits end |}.

(** Outcome of a check: it passes, or raises [HTTPException(status, detail)]. *)
Inductive check_result : Type :=
| Pass
| HTTPError (status_code : Z) (detail : pydict).

Definition opt_truthy (o : option Z) : bool :=
  match o with Some n => negb (n =? 0) | None => false end.

(** [getattr(self.limits, feature, False)], as a truth value. *)
Definition feature_flag (l : TierLimits) (feature : string) : bool :=
  if String.eqb feature "tier" then negb (String.eqb (tier l) "")
  else if String.eqb feature "max_lookups_per_month" then opt_truthy (max_lookups_per_month l)
  else if String.eqb feature "max_rows_per_view" then opt_truthy (max_rows_per_view l)
  else if String.eqb feature "max_export_credits_per_month" then opt_truthy (max_export_credits_per_month l)
  else if String.eqb feature "max_api_calls_per_month" then opt_truthy (max_api_calls_per_month l)
  else if String.eqb feature "max_saved_lists" then opt_truthy (max_saved_lists l)
  else if String.eqb feature "max_alerts" then opt_truthy (max_alerts l)
  else if String.eqb feature "max_team_seats" then negb (max_team_seats l =? 0)
  else if String.eqb feature "api_rate_limit_per_min" then opt_truthy (api_rate_limit_per_min l)
  else if String.eqb feature "historical_months" then opt_truthy (historical_months l)
  else if String.eqb feature "allowed_field_groups" then negb (Nat.eqb (length (allowed_field_groups l)) 0)
  else if String.eqb feature "all_fields" then all_fields l
  else if String.eqb feature "can_export_csv" then can_export_csv l
  else if String.eqb feature "can_use_api" then can_use_api l
  else if String.eqb feature "can_use_webhooks" then can_use_webhooks l
  else if String.eqb feature "can_white_label" then can_white_label l
  else if String.eqb feature "can_share_workspace" then can_share_workspace l
  else if String.eqb feature "daily_trending" then daily_trending l
  else false.

(** [TierGate.require_feature] *)
Definition require_feature (g : TierGate) (feature : string) : check_result :=
  if negb (feature_flag (limits g) feature) then
    HTTPError 403
      [("code", JStr "feature_gated"); ("feature", JStr feature);
       ("current_tier", JStr (gate_tier g));
       ("message", JStr ("This feature is not available on the " ++ gate_tier g ++ " plan."))]
  else Pass.

(** [TierGate.check_lookup_quota] *)
Definition check_lookup_quota (g : TierGate) (used : Z) : check_result :=
  match max_lookups_per_month (limits g) with
  | Some limit =>
      if used >=? limit then
        HTTPError 429
          [("code", JStr "lookup_quota_exceeded"); ("limit", JNum limit);
           ("used", JNum used); ("current_tier", JStr (gate_tier g));
           ("upgrade_message", JStr ("You've used all " ++ str_of_Z limit ++
              " lookups this month. Upgrade your plan for more."))]
      else Pass
  | None => Pass
  end.

(** [TierGate.check_export_credits] *)
Definition check_export_credits (g : TierGate) (used requested : Z) : check_result :=
  match require_feature g "can_export_csv" with
  | HTTPError s d => HTTPError s d
  | Pass =>
      match max_export_credits_per_month (limits g) with
      | Some limit =>
          if used + requested >? limit then
            HTTPError 429
              [("code", JStr "export_credits_exhausted"); ("limit", JNum limit);
               ("used", JNum used); ("current_tier", JStr (gate_tier g))]
          else Pass
      | None => Pass
      end
  end.

Example lookup_quota_free_25 :
  check_lookup_quota (make_gate "free") 25 =
  HTTPError 429 [("code", JStr "lookup_quota_exceeded"); ("limit", JNum 25);
                 ("used", JNum 25); ("current_tier", JStr "free");
                 ("upgrade_message", JStr "You've used all 25 lookups this month. Upgrade your plan for more.")].
Proof. reflexivity. Qed.

(* ------------------------------------------------------------------------- *)
(** ** Python's [uuid.UUID(hex_string)]

    [hex = hex.replace('urn:', '').replace('uuid:', '')],
    [hex = hex.strip('{}').replace('-', '')], a length check (32), then
    [int(hex, 16)] (surrounding whitespace, an optional sign, an optional
    [0x] prefix, single underscores between digits), and [0 <= int < 2**128].
    A UUID is represented by its 128-bit integer. *)

Fixpoint str_replace_aux (fuel : nat) (pat rep s : string) : string :=
  match fuel with
  | O => s
  | S f =>
      match s with
      | EmptyString => EmptyString
      | String c r =>
          if andb (negb (String.eqb pat "")) (String.prefix pat s)
          then rep ++ str_replace_aux f pat rep (substring (String.length pat) (String.length s) s)
          else String c (str_replace_aux f pat rep r)
      end
  end.

(** [s.replace(pat, rep)] for a non-empty [pat]. *)
Definition str_replace (pat rep s : string) : string :=
  str_replace_aux (String.length s) pat rep s.

Fixpoint lstrip (p : ascii -> bool) (s : string) : string :=
  match s with
  | EmptyString => EmptyString
  | String c r => if p c then lstrip p r else s
  end.

Fixpoint rev_str (s : string) : string :=
  match s with
  | EmptyString => EmptyString
  | String c r => rev_str r ++ String c EmptyString
  end.

(** [s.strip(chars)] *)
Definition strip_by (p : ascii -> bool) (s : string) : string :=
  rev_str (lstrip p (rev_str (lstrip p s))).

Definition is_brace (c : ascii) : bool :=
  orb (Ascii.eqb c "{"%char) (Ascii.eqb c "}"%char).

(** ASCII characters that [int()] treats as whitespace. *)
Definition is_py_space (c : ascii) : bool :=
  let n := nat_of_ascii c in
  orb (andb (Nat.leb 9 n) (Nat.leb n 13)) (andb (Nat.leb 28 n) (Nat.leb n 32)).

Definition hex_val (c : ascii) : option N :=
  let n := N_of_ascii c in
  if andb (48 <=? n)%N (n <=? 57)%N then Some (n - 48)%N
  else if andb (97 <=? n)%N (n <=? 102)%N then Some (n - 87)%N
  else if andb (65 <=? n)%N (n <=? 70)%N then Some (n - 55)%N
  else None.

(** Digits of [int(s, 16)] after sign and prefix: [ok_us] = an underscore
    may come next, [seen] = a digit was read, [last_us] = last was [_]. *)
Fixpoint hex_digits (s : string) (acc : N) (ok_us seen last_us : bool) : option N :=
  match s with
  | EmptyString => if andb seen (negb last_us) then Some acc else None
  | String c r =>
      if Ascii.eqb c "_"%char then
        if ok_us then hex_digits r acc false seen true else None
      else match hex_val c with
           | Some d => hex_digits r (acc * 16 + d)%N true true false
           | None => None
           end
  end.

(** [int(s, 16)] *)
Definition py_int16 (s0 : string) : option Z :=
  let s := strip_by is_py_space s0 in
  let '(neg, s1) :=
    match s with
    | String c r =>
        if Ascii.eqb c "-"%char then (true, r)
        else if Ascii.eqb c "+"%char then (false, r) else (false, s)
    | EmptyString => (false, s)
    end in
  let '(pfx, s2) :=
    if orb (String.prefix "0x" s1) (String.prefix "0X" s1)
    then (true, substring 2 (String.length s1) s1) else (false, s1) in
  match hex_digits s2 0%N pfx false false with
  | Some n => Some (if neg then - Z.of_N n else Z.of_N n)
  | None => None
  end.

(** [uuid.UUID(hex)]; [None] = ValueError. *)
Definition uuid_parse (s : string) : option N :=
  let h0 := str_replace "uuid:" "" (str_replace "urn:" "" s) in
  let h := str_replace "-" "" (strip_by is_brace h0) in
  if negb (Nat.eqb (String.length h) 32) then None
  else match py_int16 h with
       | Some i => if andb (0 <=? i) (i <? 2 ^ 128) then Some (Z.to_N i) else None
       | None => None
       end.

Example uuid_parse_ok :
  uuid_parse "00000000-0000-0000-0000-000000000001" = Some 1%N.
Proof. reflexivity. Qed.

Example uuid_parse_bad : uuid_parse "not-a-uuid" = None.
Proof. reflexivity. Qed.

(* ------------------------------------------------------------------------- *)
(** ** models.Workspace and the billing database *)

(** A workspace row. Timestamps are integers (seconds); the Stripe columns
    hold a string or NULL and keep the value the handler assigned. *)
Record Workspace := {
  workspace_id : N;
  owner_id : N;
  ws_tier : string;
  domain_lookups_used : Z;
  export_credits_used : Z;
  api_calls_used : Z;
  billing_cycle_start : Z;
  stripe_customer_id : jvalue;
  stripe_subscription_id : jvalue;
  stripe_subscription_status : jvalue;
  stripe_price_id : jvalue;
  founding_member : bool
}.

(** Persisted state: the workspace table and the single-row
    [founding_member_count] table ([None] = the row is missing). *)
Record DB := { workspaces : list Workspace; founding_row : option Z }.

(** Result of a call: a returned dict, or a raised exception. *)
Inductive outcome : Type :=
| Returned (r : pydict)
| Raised (exc : string).

(** [session.add(ws); session.commit()]: the row with [ws]'s primary key is
    overwritten. *)
Definition write_ws (ws : Workspace) (ws_list : list Workspace) : list Workspace :=
  map (fun w => if N.eqb (workspace_id w) (workspace_id ws) then ws else w) ws_list.

Definition commit_ws (ws : Workspace) (db : DB) : DB :=
  {| workspaces := write_ws ws (workspaces db); founding_row := founding_row db |}.

(** [session.get(Workspace, id)] *)
Definition get_ws_by_id (db : DB) (id : N) : option Workspace :=
  find (fun w => N.eqb (workspace_id w) id) (workspaces db).

(** SQL [column == value] on a string column ([== None] is [IS NULL]). *)
Definition col_eq (col v : jvalue) : bool :=
  match col, v with
  | JNull, JNull => true
  | JStr a, JStr b => String.eqb a b
  | _, _ => false
  end.

(** [session.exec(select(Workspace).where(col == v)).first()] *)
Definition first_ws_where (db : DB) (col : Workspace -> jvalue) (v : jvalue) : option Workspace :=
  find (fun w => col_eq (col w) v) (workspaces db).

(** [get_founding_member_count] *)
Definition get_founding_member_count (db : DB) : Z :=
  match founding_row db with Some c => c | None => 0 end.

(** [increment_founding_member_count]: UPDATE then commit, which also
    flushes the pending workspace change [ws]. *)
Definition increment_founding_member_count (ws : Workspace) (db : DB) : DB :=
  {| workspaces := write_ws ws (workspaces db);
     founding_row := option_map (fun c => c + 1) (founding_row db) |}.

(** [x or y] *)
Definition py_or (x y : jvalue) : jvalue := if truthy x then x else y.

(** [(data.get(k0) or {}).get(k)]; [None] = AttributeError. *)
Definition get_or_empty (data : pydict) (k0 k : string) : option jvalue :=
  match py_or (dict_get data k0) (JObj []) with
  | JObj o => Some (dict_get o k)
  | _ => None
  end.

(** [v["k"]] on a dict value; [None] = KeyError or TypeError. *)
Definition index_key (v : jvalue) (k : string) : option jvalue :=
  match v with
  | JObj o => dict_lookup o k
  | _ => None
  end.

(** [v[0]] on a list value; [None] = IndexError or KeyError. *)
Definition index_first (v : jvalue) : option jvalue :=
  match v with
  | JList (x :: _) => Some x
  | _ => None
  end.

(** [obj["items"]["data"][0]["price"]["id"]] *)
Definition price_id_of (o : pydict) : option jvalue :=
  match dict_lookup o "items" with
  | None => None
  | Some it =>
      match index_key it "data" with
      | None => None
      | Some d =>
          match index_first d with
          | None => None
          | Some x => match index_key x "price" with
                      | None => None
                      | Some p => index_key p "id"
                      end
          end
      end
  end.

Definition skipped (reason : string) : outcome :=
  Returned [("action", JStr "skipped"); ("reason", JStr reason)].

(** A Stripe event: [event["type"]], its creation time and
    [event["data"]["object"]]. *)
Record StripeEvent := { ev_type : string; ev_created : Z; ev_object : pydict }.

(* ------------------------------------------------------------------------- *)
(** ** stripe_billing.py: webhook event processing *)

Section Billing.

(** [cg_settings.FOUNDING_MEMBER_CAP] *)
Variable FOUNDING_MEMBER_CAP : Z.
(** [get_stripe_price_to_tier_map()] *)
Variable price_to_tier : list (string * string).
(** [_stripe_client().subscriptions.retrieve(sub)["items"]["data"][0]["price"]["id"]];
    [None] = the call raises (no API key, network error, malformed object). *)
Variable stripe_retrieve_price : jvalue -> option jvalue.

(** [get_stripe_price_to_tier_map().get(price_id, "free")];
    [None] = TypeError (unhashable key). *)
Definition tier_of_price (price_id : jvalue) : option string :=
  match price_id with
  | JStr s => Some (match assoc price_to_tier s with Some t => t | None => "free" end)
  | JList _ | JObj _ => None
  | _ => Some "free"
  end.

Definition ws_checkout (ws : Workspace) (customer_id subscription_id : jvalue) : Workspace :=
  {| workspace_id := workspace_id ws; owner_id := owner_id ws; ws_tier := ws_tier ws;
     domain_lookups_used := domain_lookups_used ws; export_credits_used := export_credits_used ws;
     api_calls_used := api_calls_used ws; billing_cycle_start := billing_cycle_start ws;
     stripe_customer_id := customer_id; stripe_subscription_id := subscription_id;
     stripe_subscription_status := JStr "active"; stripe_price_id := stripe_price_id ws;
     founding_member := founding_member ws |}.

Definition ws_set_founding (ws : Workspace) : Workspace :=
  {| workspace_id := workspace_id ws; owner_id := owner_id ws; ws_tier := ws_tier ws;
     domain_lookups_used := domain_lookups_used ws; export_credits_used := export_credits_used ws;
     api_calls_used := api_calls_used ws; billing_cycle_start := billing_cycle_start ws;
     stripe_customer_id := stripe_customer_id ws; stripe_subscription_id := stripe_subscription_id ws;
     stripe_subscription_status := stripe_subscription_status ws; stripe_price_id := stripe_price_id ws;
     founding_member := true |}.

Definition ws_set_price (ws : Workspace) (price_id : jvalue) (t : string)
           (status : jvalue) : Workspace :=
  {| workspace_id := workspace_id ws; owner_id := owner_id ws; ws_tier := t;
     domain_lookups_used := domain_lookups_used ws; export_credits_used := export_credits_used ws;
     api_calls_used := api_calls_used ws; billing_cycle_start := billing_cycle_start ws;
     stripe_customer_id := stripe_customer_id ws; stripe_subscription_id := stripe_subscription_id ws;
     stripe_subscription_status := status; stripe_price_id := price_id;
     founding_member := founding_member ws |}.

Definition ws_downgrade (ws : Workspace) : Workspace :=
  {| workspace_id := workspace_id ws; owner_id := owner_id ws; ws_tier := "free";
     domain_lookups_used := domain_lookups_used ws; export_credits_used := export_credits_used ws;
     api_calls_used := api_calls_used ws; billing_cycle_start := billing_cycle_start ws;
     stripe_customer_id := stripe_customer_id ws; stripe_subscription_id := JNull;
     stripe_subscription_status := JStr "cancelled"; stripe_price_id := JNull;
     founding_member := founding_member ws |}.

Definition ws_reset_usage (ws : Workspace) (now : Z) : Workspace :=
  {| workspace_id := workspace_id ws; owner_id := owner_id ws; ws_tier := ws_tier ws;
     domain_lookups_used := 0; export_credits_used := 0; api_calls_used := 0;
     billing_cycle_start := now;
     stripe_customer_id := stripe_customer_id ws; stripe_subscription_id := stripe_subscription_id ws;
     stripe_subscription_status := stripe_subscription_status ws; stripe_price_id := stripe_price_id ws;
     founding_member := founding_member ws |}.

Definition ws_set_status (ws : Workspace) (status : jvalue) : Workspace :=
  {| workspace_id := workspace_id ws; owner_id := owner_id ws; ws_tier := ws_tier ws;
     domain_lookups_used := domain_lookups_used ws; export_credits_used := export_credits_used ws;
     api_calls_used := api_calls_used ws; billing_cycle_start := billing_cycle_start ws;
     stripe_customer_id := stripe_customer_id ws; stripe_subscription_id := stripe_subscription_id ws;
     stripe_subscription_status := status; stripe_price_id := stripe_price_id ws;
     founding_member := founding_member ws |}.

(** [_uuid.UUID(workspace_id)] on the resolved value (a non-string raises). *)
Definition uuid_of (v : jvalue) : option N :=
  match v with JStr s => uuid_parse s | _ => None end.

(** The tail of [_handle_checkout_completed] from the tier resolution on:
    [ws] holds the in-memory changes, [db] the committed state. *)
Definition checkout_finish (data : pydict) (ws_id : jvalue) (ws : Workspace) (db : DB)
  : outcome * DB :=
  let subscription_id := dict_get data "subscription" in
  if truthy subscription_id then
    match stripe_retrieve_price subscription_id with
    | None => (Raised "StripeError", db)
    | Some price_id =>
        match tier_of_price price_id with
        | None => (Raised "TypeError", db)
        | Some t =>
            let ws' := ws_set_price ws price_id t (stripe_subscription_status ws) in
            (Returned [("action", JStr "checkout_activated"); ("workspace_id", ws_id)],
             commit_ws ws' db)
        end
    end
  else
    (Returned [("action", JStr "checkout_activated"); ("workspace_id", ws_id)],
     commit_ws ws db).

(** [data.get("client_reference_id") or (data.get("metadata") or {}).get("workspace_id")];
    [None] = AttributeError. *)
Definition resolve_workspace_id (data : pydict) : option jvalue :=
  let cri := dict_get data "client_reference_id" in
  if truthy cri then Some cri else get_or_empty data "metadata" "workspace_id".

(** [_handle_checkout_completed] *)
Definition handle_checkout_completed (data : pydict) (db : DB) : outcome * DB :=
  match resolve_workspace_id data with
  | None => (Raised "AttributeError", db)
  | Some ws_id =>
      if negb (truthy ws_id) then (skipped "no workspace_id in session", db) else
      match uuid_of ws_id with
      | None => (Raised "ValueError", db)
      | Some id =>
          match get_ws_by_id db id with
          | None => (skipped "workspace_not_found", db)
          | Some ws =>
              let subscription_id := dict_get data "subscription" in
              let customer_id := dict_get data "customer" in
              match get_or_empty data "metadata" "founding_member" with
              | None => (Raised "AttributeError", db)
              | Some fm =>
                  let founding := col_eq fm (JStr "true") in
                  let ws1 := ws_checkout ws customer_id subscription_id in
                  if founding then
                    let current := get_founding_member_count db in
                    if current <? FOUNDING_MEMBER_CAP then
                      let ws2 := ws_set_founding ws1 in
                      checkout_finish data ws_id ws2 (increment_founding_member_count ws2 db)
                    else checkout_finish data ws_id ws1 db
                  else checkout_finish data ws_id ws1 db
              end
          end
      end
  end.

(** [_handle_subscription_updated] *)
Definition handle_subscription_updated (data : pydict) (db : DB) : outcome * DB :=
  let sub_id := dict_get data "id" in
  match first_ws_where db stripe_subscription_id sub_id with
  | None => (skipped "workspace_not_found", db)
  | Some ws =>
      match price_id_of data with
      | None => (Raised "KeyError", db)
      | Some price_id =>
          match tier_of_price price_id with
          | None => (Raised "TypeError", db)
          | Some t =>
              let status := match dict_lookup data "status" with
                            | Some s => s | None => JStr "active" end in
              let ws' := ws_set_price ws price_id t status in
              (Returned [("action", JStr "tier_updated"); ("tier", JStr t)], commit_ws ws' db)
          end
      end
  end.

(** [_handle_subscription_deleted] *)
Definition handle_subscription_deleted (data : pydict) (db : DB) : outcome * DB :=
  let sub_id := dict_get data "id" in
  match first_ws_where db stripe_subscription_id sub_id with
  | None => (skipped "workspace_not_found", db)
  | Some ws =>
      (Returned [("action", JStr "downgraded_to_free")], commit_ws (ws_downgrade ws) db)
  end.

(** [_handle_invoice_paid]; [now] is [datetime.now(timezone.utc)]. *)
Definition handle_invoice_paid (data : pydict) (now : Z) (db : DB) : outcome * DB :=
  let customer_id := dict_get data "customer" in
  match first_ws_where db stripe_customer_id customer_id with
  | None => (skipped "workspace_not_found", db)
  | Some ws =>
      (Returned [("action", JStr "usage_reset")], commit_ws (ws_reset_usage ws now) db)
  end.

(** [_handle_invoice_payment_failed] *)
Definition handle_invoice_payment_failed (data : pydict) (db : DB) : outcome * DB :=
  let customer_id := dict_get data "customer" in
  match first_ws_where db stripe_customer_id customer_id with
  | None => (skipped "workspace_not_found", db)
  | Some ws =>
      (Returned [("action", JStr "marked_past_due")],
       commit_ws (ws_set_status ws (JStr "past_due")) db)
  end.

(** [process_webhook_event] *)
Definition process_webhook_event (event : StripeEvent) (now : Z) (db : DB) : outcome * DB :=
  let data := ev_object event in
  let et := ev_type event in
  if String.eqb et "checkout.session.completed" then handle_checkout_completed data db
  else if String.eqb et "customer.subscription.updated" then handle_subscription_updated data db
  else if String.eqb et "customer.subscription.deleted" then handle_subscription_deleted data db
  else if String.eqb et "invoice.paid" then handle_invoice_paid data now db
  else if String.eqb et "invoice.payment_failed" then handle_invoice_payment_failed data db
  else (Returned [("action", JStr "ignored"); ("event_type", JStr et)], db).

End Billing.

(* ------------------------------------------------------------------------- *)
(** ** webhook_tasks.py: deliver_webhook *)

(** A [WebhookEndpoint] row; [event_types] is the JSONB list of event type
    strings, [None] = NULL. *)
Record WebhookEndpoint := {
  webhook_id : N;
  wh_workspace_id : N;
  url : string;
  secret : string;
  event_types : option (list string);
  is_active : bool
}.

(** An HTTP POST issued by the task. *)
Record http_request := {
  req_url : string;
  req_body : jvalue;
  req_headers : list (string * string)
}.

(** What the network answers to the POST. *)
Inductive http_response : Type :=
| HttpStatus (code : Z)
| HttpRequestError.

(** End of a task run: a returned dict, a scheduled retry ([raise self.retry])
    or a raised exception (retries exhausted). *)
Inductive task_outcome : Type :=
| TaskReturn (r : pydict)
| TaskRetry (countdown : Z)
| TaskRaise (exc : string).

Section Delivery.

(** [_sign_payload(secret, body)] (HMAC-SHA256, opaque here). *)
Variable sign_payload : string -> jvalue -> string.
(** [cg_settings.SCHEMA_VERSION] *)
Variable SCHEMA_VERSION : string.

(** [httpx.URL(url)] parses the stored URL; when it does not, [client.post]
    raises [httpx.InvalidURL] before any request is sent. *)
Variable httpx_accepts_url : string -> bool.

(** The task's [max_retries]: the decorator gives 4, but the app's
    [task_annotations] entry for ["*"] sets [max_retries = 5] on every task
    class, over the decorator's value. *)
Definition decorator_max_retries : Z := 4.
Definition annotation_max_retries : Z := 5.
Definition max_retries : Z := annotation_max_retries.

(** [raise self.retry(exc=exc, countdown=30 * 2 ** retries)]: Celery's
    [Task.retry] re-raises [exc] once [request.retries + 1 > max_retries],
    and otherwise schedules the next run. *)
Definition celery_retry (retries : Z) (exc : string) : task_outcome :=
  if retries + 1 >? max_retries then TaskRaise exc else TaskRetry (30 * 2 ^ retries).

(** [deliver_webhook]: the endpoint table, the task's retry count, the
    generated delivery id and timestamp, and the network's answer are
    inputs; the result lists the HTTP requests made. [httpx.InvalidURL] is
    neither an [HTTPStatusError] nor a [RequestError], so it escapes the
    task with no request made and no retry. *)
Definition deliver_webhook (endpoints : list WebhookEndpoint) (retries : Z)
           (delivery_id delivered_at : string) (response : http_response)
           (wh_id event_type : string) (payload : pydict)
  : list http_request * task_outcome :=
  match uuid_parse wh_id with
  | None => ([], TaskRaise "ValueError")
  | Some id =>
      match find (fun e => N.eqb (webhook_id e) id) endpoints with
      | None => ([], TaskReturn [("status", JStr "skipped"); ("reason", JStr "endpoint_not_found")])
      | Some endpoint =>
          if negb (is_active endpoint) then
            ([], TaskReturn [("status", JStr "skipped"); ("reason", JStr "endpoint_inactive")])
          else
            let evts := match event_types endpoint with Some l => l | None => [] end in
            if andb (negb (Nat.eqb (length evts) 0)) (negb (str_mem event_type evts)) then
              ([], TaskReturn [("status", JStr "skipped"); ("reason", JStr "event_type_not_subscribed")])
            else
              let body := JObj [("event", JStr event_type); ("delivery_id", JStr delivery_id);
                                ("data", JObj payload)] in
              let signature := sign_payload (secret endpoint) body in
              let headers := [("Content-Type", "application/json");
                              ("X-CartoGraph-Event", event_type);
                              ("X-CartoGraph-Signature-256", signature);
                              ("X-CartoGraph-Delivery", delivery_id);
                              ("User-Agent", "CartoGraph-Webhooks/" ++ SCHEMA_VERSION)] in
              let req := {| req_url := url endpoint; req_body := body; req_headers := headers |} in
              if negb (httpx_accepts_url (url endpoint)) then ([], TaskRaise "InvalidURL") else
              match response with
              | HttpStatus code =>
                  if andb (200 <=? code) (code <? 300) then
                    ([req], TaskReturn [("status", JStr "delivered"); ("http_status", JNum code);
                                        ("delivery_id", JStr delivery_id);
                                        ("delivered_at", JStr delivered_at)])
                  else ([req], celery_retry retries "HTTPStatusError")
              | HttpRequestError => ([req], celery_retry retries "RequestError")
              end
      end
  end.

End Delivery.

(* ------------------------------------------------------------------------- *)
(** ** api/routes/domains.py: get_domain, get_domain_by_name *)

(** A [Domain] row: its key, its hostname and its [DomainPublic] dump. *)
Record DomainRow := { domain_id : N; domain_name : string; domain_public : pydict }.

Record AppDB := { app_workspaces : list Workspace; app_domains : list DomainRow }.

(** A route's answer: 200 with a body, an [HTTPException], or an uncaught
    exception (500). *)
Inductive response : Type :=
| Resp200 (body : pydict)
| RespHTTPException (status_code : Z) (detail : jvalue)
| RespServerError (exc : string).

(** [_get_caller_workspace] *)
Definition get_caller_workspace (db : AppDB) (user_id : N) : option Workspace :=
  find (fun w => N.eqb (owner_id w) user_id) (app_workspaces db).

Definition ws_bump_lookups (ws : Workspace) : Workspace :=
  {| workspace_id := workspace_id ws; owner_id := owner_id ws; ws_tier := ws_tier ws;
     domain_lookups_used := domain_lookups_used ws + 1;
     export_credits_used := export_credits_used ws;
     api_calls_used := api_calls_used ws; billing_cycle_start := billing_cycle_start ws;
     stripe_customer_id := stripe_customer_id ws; stripe_subscription_id := stripe_subscription_id ws;
     stripe_subscription_status := stripe_subscription_status ws; stripe_price_id := stripe_price_id ws;
     founding_member := founding_member ws |}.

(** The fields of [DomainPublic] in declaration order, each with whether it
    is required (no default). *)
Definition DomainPublic_fields : list (string * bool) :=
  [("domain_id", true); ("domain", true); ("country", true); ("tld", false);
   ("status", true); ("first_seen_at", true); ("last_updated_at", true);
   ("schema_version", true); ("discovery", false); ("ecommerce", false);
   ("seo_metrics", false); ("intent_layer", false); ("serp_intelligence", false);
   ("technical_layer", false); ("contact", false); ("marketplace_overlap", false);
   ("paid_ads_presence", false); ("meta", false); ("change_tracking", false);
   ("confidence_score", false); ("pipeline", false); ("ai_summary", false)].

(** [Model.model_validate(m)] on a dict, for a model whose fields are
    [fs]: each field takes the dict's value, or its default [None] when it
    has one; a missing required field is a ValidationError ([None]); keys
    the model does not declare are ignored. The values [lookup_route] passes
    come from a [DomainPublic] dump and already have the field types. *)
Fixpoint validate_fields (fs : list (string * bool)) (m : pydict) : option pydict :=
  match fs with
  | [] => Some []
  | (f, required) :: r =>
      match dict_lookup m f with
      | Some v => option_map (cons (f, v)) (validate_fields r m)
      | None => if required then None else option_map (cons (f, JNull)) (validate_fields r m)
      end
  end.

(** [DomainPublic.model_validate(masked)], then its serialisation by the
    route's [response_model]. *)
Definition DomainPublic_validate (m : pydict) : option pydict :=
  validate_fields DomainPublic_fields m.

(** The body shared by both routes once the domain query is known. *)
Definition lookup_route (db : AppDB) (user_id : N) (fetch : AppDB -> option DomainRow)
  : response * AppDB :=
  let ws := get_caller_workspace db user_id in
  let t := match ws with Some w => ws_tier w | None => "free" end in
  let gate := make_gate t in
  match match ws with
        | Some w => check_lookup_quota gate (domain_lookups_used w)
        | None => Pass
        end with
  | HTTPError s d => (RespHTTPException s (JObj d), db)
  | Pass =>
      match fetch db with
      | None => (RespHTTPException 404 (JStr "Domain not found"), db)
      | Some dom =>
          let db' := match ws with
                     | Some w => {| app_workspaces := write_ws (ws_bump_lookups w) (app_workspaces db);
                                    app_domains := app_domains db |}
                     | None => db
                     end in
          match mask_domain_by_tier (domain_public dom) t with
          | Some masked =>
              match DomainPublic_validate masked with
              | Some m => (Resp200 m, db')
              | None => (RespServerError "ValidationError", db')
              end
          | None => (RespServerError "AttributeError", db')
          end
      end
  end.

(** [get_domain]: [session.get(Domain, domain_id)]. *)
Definition get_domain (db : AppDB) (user_id : N) (did : N) : response * AppDB :=
  lookup_route db user_id (fun db => find (fun d => N.eqb (domain_id d) did) (app_domains db)).

(** [get_domain_by_name]: [Domain.domain == domain_name.lower()], first row. *)
Definition get_domain_by_name (db : AppDB) (user_id : N) (name : string) : response * AppDB :=
  lookup_route db user_id
    (fun db => find (fun d => String.eqb (domain_name d) (lower name)) (app_domains db)).

(* ========================================================================= *)
(** * Auxiliary definitions of the properties *)

(** What one application of [_handle_checkout_completed] may do to the
    founding-member counter going from [d] to [d']: leave it as it is, or
    add one to a count below the cap for an event flagged
    [founding_member = "true"]; and it does add one whenever the event
    resolves a workspace present in [d], is so flagged, and the counter row
    holds a count below the cap. *)
Definition founding_counter_step (cap : Z) (data : pydict) (d d' : DB) : Prop :=
  (founding_row d' = founding_row d \/
   exists c, founding_row d = Some c /\ c < cap /\
     get_or_empty data "metadata" "founding_member" = Some (JStr "true") /\
     founding_row d' = Some (c + 1)) /\
  (forall v id ws c, resolve_workspace_id data = Some v -> truthy v = true ->
     uuid_of v = Some id -> get_ws_by_id d id = Some ws ->
     get_or_empty data "metadata" "founding_member" = Some (JStr "true") ->
     founding_row d = Some c -> c < cap -> founding_row d' = Some (c + 1)).

Definition created_only_endpoint : WebhookEndpoint :=
  {| webhook_id := 1; wh_workspace_id := 7; url := "https://example.co.uk/hook";
     secret := "s3cret"; event_types := Some ["domain.created"]; is_active := true |}.

Definition empty_domain : pydict := [].

Definition sample_ws : Workspace :=
  {| workspace_id := 1; owner_id := 7; ws_tier := "free";
     domain_lookups_used := 10; export_credits_used := 3; api_calls_used := 0;
     billing_cycle_start := 0; stripe_customer_id := JStr "cus_abc";
     stripe_subscription_id := JNull; stripe_subscription_status := JNull;
     stripe_price_id := JNull; founding_member := false |}.

Definition sample_db : DB := {| workspaces := [sample_ws]; founding_row := Some 0 |}.

Definition invoice_paid_event : StripeEvent :=
  {| ev_type := "invoice.paid"; ev_created := 1000; ev_object := [("customer", JStr "cus_abc")] |}.

(** The quota check the lookup routes run first. *)
Definition caller_quota (db : AppDB) (user_id : N) : check_result :=
  match get_caller_workspace db user_id with
  | Some w => check_lookup_quota (make_gate (ws_tier w)) (domain_lookups_used w)
  | None => Pass
  end.

(** Lookup accounting of a route run [res] from [db], where [fetched] is the
    route's domain query: a missing domain leaves the database as it was and
    answers with an HTTP error (404 when the quota check passed, else its
    429); the database changes only by the caller's counter going up by one,
    after a passed quota check and a found domain. *)
Definition lookup_accounting (db : AppDB) (user_id : N) (fetched : option DomainRow)
           (res : response * AppDB) : Prop :=
  match fetched with
  | None => snd res = db /\
            exists s d, fst res = RespHTTPException s d /\
                        match caller_quota db user_id with Pass => s = 404 | HTTPError _ _ => s = 429 end
  | Some _ => True
  end /\
  (snd res = db \/
   exists w dom, get_caller_workspace db user_id = Some w /\ caller_quota db user_id = Pass /\
     fetched = Some dom /\
     snd res = {| app_workspaces := write_ws (ws_bump_lookups w) (app_workspaces db);
                  app_domains := app_domains db |} /\
     workspace_id (ws_bump_lookups w) = workspace_id w /\
     domain_lookups_used (ws_bump_lookups w) = domain_lookups_used w + 1).

Definition exhausted_ws : Workspace :=
  {| workspace_id := 1; owner_id := 7; ws_tier := "free";
     domain_lookups_used := 25; export_credits_used := 0; api_calls_used := 0;
     billing_cycle_start := 0; stripe_customer_id := JNull;
     stripe_subscription_id := JNull; stripe_subscription_status := JNull;
     stripe_price_id := JNull; founding_member := false |}.

Definition exhausted_app_db : AppDB := {| app_workspaces := [exhausted_ws]; app_domains := [] |}.

Definition founding_checkout_data : pydict :=
  [("client_reference_id", JStr "00000000-0000-0000-0000-000000000001");
   ("customer", JStr "cus_abc");
   ("metadata", JObj [("founding_member", JStr "true")])].

Definition checkout_event : StripeEvent :=
  {| ev_type := "checkout.session.completed"; ev_created := 1000;
     ev_object := founding_checkout_data |}.

(** The declared field-group names. *)
Definition group_names : list string := map fst FIELD_GATING.

(** A Python dict has no duplicate key. *)
Fixpoint nodupb (l : list string) : bool :=
  match l with
  | [] => true
  | x :: r => negb (str_mem x r) && nodupb r
  end.

(** The value stored for a field group is a JSONB object (a dict) or null. *)
Definition group_blob_ok (v : jvalue) : bool :=
  match v with
  | JNull => true
  | JObj o => nodupb (keys o)
  | _ => false
  end.

Definition wf_recordb (d : pydict) : bool :=
  forallb (fun p => group_blob_ok (dict_get d (fst p))) FIELD_GATING.

(** The hiding rule of the loop, as one test. *)
Definition hidden_at (tier_lower group : string) : bool :=
  (String.eqb tier_lower "free" && str_mem group HIDDEN_FOR_FREE) ||
  (String.eqb tier_lower "starter" && str_mem group HIDDEN_FOR_STARTER).

(** The allow-list projection as the specification words it: only the
    allow-listed sub-keys present in the source blob, with their values. *)
Definition allow_list_projection (blob out : jvalue) (ks : list string) : Prop :=
  match blob with
  | JObj o => exists o', out = JObj o' /\
               forall k, dict_lookup o' k = if str_mem k ks then dict_lookup o k else None
  | _ => out = blob
  end.

(** The source blob has a key outside the allow-list. *)
Definition extra_key (blob : jvalue) (ks : list string) : Prop :=
  match blob with
  | JObj o => exists k, In k (keys o) /\ ~ In k ks
  | _ => False
  end.

Definition masked_sample_starter : pydict :=
  match mask_domain_by_tier sample_domain "Starter" with Some r => r | None => [] end.

(* ========================================================================= *)
(** * Further code of the same modules *)

(* ------------------------------------------------------------------------- *)
(** ** tier_gating.py: the other TierGate checks *)

(** [TierGate.check_row_limit] *)
Definition check_row_limit (g : TierGate) (requested : Z) : check_result :=
  match max_rows_per_view (limits g) with
  | Some limit =>
      if requested >? limit then
        HTTPError 403
          [("code", JStr "row_limit_exceeded"); ("limit", JNum limit);
           ("requested", JNum requested); ("current_tier", JStr (gate_tier g))]
      else Pass
  | None => Pass
  end.

(** [TierGate.check_alert_limit] *)
Definition check_alert_limit (g : TierGate) (current_count : Z) : check_result :=
  match max_alerts (limits g) with
  | Some limit =>
      if current_count >=? limit then
        HTTPError 403
          [("code", JStr "alert_limit_reached"); ("limit", JNum limit);
           ("current_tier", JStr (gate_tier g))]
      else Pass
  | None => Pass
  end.

(** [TierGate.clamp_page_size] ([default] is 50 in [list_domains], 1000 in
    the CSV export). *)
Definition clamp_page_size (g : TierGate) (requested default : Z) : Z :=
  let effective := if requested >? 0 then requested else default in
  match max_rows_per_view (limits g) with
  | Some limit => Z.min effective limit
  | None => effective
  end.

(** Position of a tier in [TIER_LIMITS] (free, starter, professional,
    business, enterprise), after the [lower()] of [TierGate.__init__]. *)
Fixpoint index_of {A} (l : list (string * A)) (k : string) : option nat :=
  match l with
  | [] => None
  | (k', _) :: r => if String.eqb k k' then Some O else option_map S (index_of r k)
  end.

Definition tier_rank (t : string) : option nat := index_of TIER_LIMITS (lower t).

(** The boolean feature flags of [TierLimits]. *)
Definition FEATURE_FLAGS : list string :=
  ["all_fields"; "can_export_csv"; "can_use_api"; "can_use_webhooks";
   "can_white_label"; "can_share_workspace"; "daily_trending"].

(** A sub-key of a group in a masked record. *)
Definition group_subvalue (r : pydict) (g k : string) : option jvalue :=
  match dict_lookup r g with Some (JObj o) => dict_lookup o k | _ => None end.

(** The same sub-key in the source blob. *)
Definition src_subvalue (blob : jvalue) (k : string) : option jvalue :=
  match blob with JObj o => dict_lookup o k | _ => None end.

(** A sub-key of a group survives the masking at [tier_lower]. *)
Definition key_visible (tier_lower g : string) tm (k : string) : bool :=
  negb (hidden_at tier_lower g) &&
  match allowed_for tm tier_lower with None => true | Some ks => str_mem k ks end.

(** What [T2] shows of a group includes what [T1] shows. *)
Definition vis_le (T1 T2 g : string) tm : bool :=
  hidden_at T1 g ||
  (negb (hidden_at T2 g) &&
   match allowed_for tm T1, allowed_for tm T2 with
   | _, None => true
   | Some ks1, Some ks2 => forallb (fun x => str_mem x ks2) ks1
   | None, Some _ => false
   end).

(** Pairs of catalogue tiers, lower first. *)
Definition ranked_pairs : list (string * string) :=
  let ts := map fst TIER_LIMITS in
  flat_map (fun a => map (fun b => (a, b)) (skipn (match index_of TIER_LIMITS a with Some n => n | None => O end) ts)) ts.


(* ------------------------------------------------------------------------- *)
(** ** stripe_billing.py: what one event may change *)

(** Every workspace has a tier of the catalogue. *)
Definition tiers_known (db : DB) : Prop :=
  forall w, In w (workspaces db) -> tier_known (ws_tier w) = true.

(** The price map sends every price to a tier of the catalogue. *)
Definition price_map_known (p2t : list (string * string)) : Prop :=
  forall p t, assoc p2t p = Some t -> tier_known t = true.


(** A founding-member checkout with a subscription. *)
Definition founding_sub_data : pydict :=
  [("client_reference_id", JStr "00000000-0000-0000-0000-000000000001");
   ("customer", JStr "cus_abc"); ("subscription", JStr "sub_1");
   ("metadata", JObj [("founding_member", JStr "true")])].

Definition founding_sub_event : StripeEvent :=
  {| ev_type := "checkout.session.completed"; ev_created := 1000;
     ev_object := founding_sub_data |}.

Definition deleted_event (sub : string) : StripeEvent :=
  {| ev_type := "customer.subscription.deleted"; ev_created := 1000;
     ev_object := [("id", JStr sub)] |}.

Definition subscribed_ws : Workspace :=
  {| workspace_id := 1; owner_id := 7; ws_tier := "professional";
     domain_lookups_used := 10; export_credits_used := 3; api_calls_used := 0;
     billing_cycle_start := 0; stripe_customer_id := JStr "cus_abc";
     stripe_subscription_id := JStr "sub_1"; stripe_subscription_status := JStr "active";
     stripe_price_id := JStr "price_pro"; founding_member := false |}.

Definition customerless_ws : Workspace :=
  {| workspace_id := 2; owner_id := 8; ws_tier := "free";
     domain_lookups_used := 20; export_credits_used := 0; api_calls_used := 0;
     billing_cycle_start := 0; stripe_customer_id := JNull;
     stripe_subscription_id := JNull; stripe_subscription_status := JNull;
     stripe_price_id := JNull; founding_member := false |}.

Definition two_ws_db : DB :=
  {| workspaces := [subscribed_ws; customerless_ws]; founding_row := Some 0 |}.

(* ------------------------------------------------------------------------- *)
(** ** Python's [str(uuid.UUID)]

    [hex = '%032x' % self.int] and
    ['%s-%s-%s-%s-%s' % (hex[:8], hex[8:12], hex[12:16], hex[16:20], hex[20:])]. *)

(** One lowercase hex digit of [d < 16]. *)
Definition hex_char (d : N) : ascii :=
  if (d <? 10)%N then ascii_of_N (48 + d) else ascii_of_N (87 + d).

(** ['%0kx' % n]: the [k] low hex digits of [n], most significant first. *)
Fixpoint fixed_hex (k : nat) (n : N) : string :=
  match k with
  | O => EmptyString
  | S k' => String (hex_char ((n / 16 ^ N.of_nat k') mod 16)%N) (fixed_hex k' n)
  end.

Definition uuid_str (n : N) : string :=
  let h := fixed_hex 32 n in
  substring 0 8 h ++ "-" ++ substring 8 4 h ++ "-" ++ substring 12 4 h ++ "-" ++
  substring 16 4 h ++ "-" ++ substring 20 (String.length h - 20)%nat h.

Example uuid_str_one :
  uuid_str 1 = "00000000-0000-0000-0000-000000000001".
Proof. reflexivity. Qed.

(** Helpers of the round trip: a property of every character, the string
    without its dashes, and the characters a hex digit string is made of. *)
Fixpoint all_chars (p : ascii -> bool) (s : string) : bool :=
  match s with
  | EmptyString => true
  | String c r => p c && all_chars p r
  end.

Fixpoint dedash (s : string) : string :=
  match s with
  | EmptyString => EmptyString
  | String c r => if Ascii.eqb c "-"%char then dedash r else String c (dedash r)
  end.

(** The characters of a hex digit string avoid everything the parser treats specially. *)
Definition hexlike (c : ascii) : bool :=
  negb (is_py_space c) && negb (is_brace c) && negb (Ascii.eqb c "-"%char) &&
  negb (Ascii.eqb c "u"%char) && negb (Ascii.eqb c "_"%char) && negb (Ascii.eqb c "+"%char) &&
  negb (Ascii.eqb c "x"%char) && negb (Ascii.eqb c "X"%char).

(* ------------------------------------------------------------------------- *)
(** ** stripe_billing.py: create_checkout_session; api/routes/billing.py: start_checkout *)

(** What a Stripe API call of the module ends in: a URL, the [RuntimeError]
    of [_stripe_client()] (no secret key), or another exception. *)
Inductive call_result : Type :=
| CallOk (url : string)
| CallRuntimeError (msg : string)
| CallError (exc : string).

Section Checkout.

(** [cg_settings.APP_BASE_URL] *)
Variable APP_BASE_URL : string.
(** [cg_settings.STRIPE_SECRET_KEY] is non-empty. *)
Variable stripe_key_set : bool.
(** [str(client.checkout.sessions.create(params=params).url)];
    [None] = the call raises (a Stripe error). *)
Variable sessions_create : pydict -> option string.

(** The [params] dict of [create_checkout_session]. *)
Definition checkout_params (price_id : string) (stripe_customer_id : jvalue)
           (workspace_id user_email : string) (is_founding_member_price : bool) : pydict :=
  let success_url := APP_BASE_URL ++ "/workspaces?billing=success&session_id={CHECKOUT_SESSION_ID}" in
  let cancel_url := APP_BASE_URL ++ "/pricing?billing=cancelled" in
  let params :=
    [("mode", JStr "subscription");
     ("line_items", JList [JObj [("price", JStr price_id); ("quantity", JNum 1)]]);
     ("success_url", JStr success_url);
     ("cancel_url", JStr cancel_url);
     ("customer_email", if truthy stripe_customer_id then JNull else JStr user_email);
     ("client_reference_id", JStr workspace_id);
     ("metadata", JObj [("workspace_id", JStr workspace_id);
                        ("founding_member", JStr (if is_founding_member_price then "true" else "false"))]);
     ("subscription_data", JObj [("metadata", JObj [("workspace_id", JStr workspace_id)])]);
     ("allow_promotion_codes", JBool true);
     ("billing_address_collection", JStr "required")] in
  if truthy stripe_customer_id then dict_set params "customer" stripe_customer_id else params.

(** [create_checkout_session]; the second component lists the params sent to Stripe. *)
Definition create_checkout_session (price_id : string) (stripe_customer_id : jvalue)
           (workspace_id user_email : string) (is_founding_member_price : bool)
  : call_result * list pydict :=
  if negb stripe_key_set then
    (CallRuntimeError "STRIPE_SECRET_KEY is not set. Set it in your .env file before using billing features.", [])
  else
    let params := checkout_params price_id stripe_customer_id workspace_id user_email is_founding_member_price in
    match sessions_create params with
    | Some url => (CallOk url, [params])
    | None => (CallError "StripeError", [params])
    end.

(** [get_stripe_price_to_tier_map()] *)
Variable price_to_tier : list (string * string).
(** [cg_settings.STRIPE_PRICE_PRO_FOUNDING] *)
Variable STRIPE_PRICE_PRO_FOUNDING : string.
(** [cg_settings.FOUNDING_MEMBER_CAP] *)
Variable FOUNDING_MEMBER_CAP : Z.

(** [select(Workspace).where(Workspace.owner_id == user_id)].first() *)
Definition first_owned_ws (db : DB) (user_id : N) : option Workspace :=
  find (fun w => N.eqb (owner_id w) user_id) (workspaces db).

(** [start_checkout]: the caller's id and email are the current user's. *)
Definition start_checkout (price_id : string) (db : DB) (user_id : N) (user_email : string)
  : response * list pydict :=
  match assoc price_to_tier price_id with
  | None => (RespHTTPException 400 (JStr "Unknown price_id"), [])
  | Some _ =>
      match first_owned_ws db user_id with
      | None => (RespHTTPException 404 (JStr "Workspace not found"), [])
      | Some ws =>
          let is_founding := String.eqb price_id STRIPE_PRICE_PRO_FOUNDING in
          if is_founding && (get_founding_member_count db >=? FOUNDING_MEMBER_CAP) then
            (RespHTTPException 409 (JStr "Founding Member programme is full (200 seats taken)."), [])
          else
            match create_checkout_session price_id (stripe_customer_id ws)
                    (uuid_str (workspace_id ws)) user_email is_founding with
            | (CallOk u, sent) => (Resp200 [("url", JStr u)], sent)
            | (CallRuntimeError msg, sent) => (RespHTTPException 503 (JStr msg), sent)
            | (CallError e, sent) => (RespServerError e, sent)
            end
      end
  end.

End Checkout.

(** A checkout started by the owner (7) of [sample_ws] for a plain Pro price. *)
Definition pro_checkout_params : pydict :=
  checkout_params "https://app.example" "price_pro" (JStr "cus_abc")
    "00000000-0000-0000-0000-000000000001" "owner@example.com" false.

(* ------------------------------------------------------------------------- *)
(** ** api/routes/webhooks.py: create_webhook, test_webhook *)

(** A route's answer: its success status with a body, an [HTTPException],
    or an uncaught exception (500). *)
Inductive route_response : Type :=
| RouteOk (status_code : Z) (body : pydict)
| RouteHTTPException (status_code : Z) (detail : jvalue)
| RouteServerError (exc : string).

(** [_VALID_EVENT_TYPES] *)
Definition VALID_EVENT_TYPES : list string := ["domain.created"; "domain.updated"; "alert.triggered"].

(** The tables the webhook routes read and write. *)
Record WebhookDB := { whdb_workspaces : list Workspace; whdb_endpoints : list WebhookEndpoint }.

(** A [deliver_webhook.delay(webhook_id=..., event_type=..., payload=...)] call. *)
Record task_call := { tc_webhook_id : string; tc_event_type : string; tc_payload : pydict }.

Section WebhookRoutes.

(** The [detail] text of [_validate_event_types] built from the unknown types. *)
Variable unknown_types_detail : list string -> string.

(** [_validate_event_types]; [Some] = the 422 it raises. *)
Definition validate_event_types (event_types : list string) : option route_response :=
  let unknown := filter (fun t => negb (str_mem t VALID_EVENT_TYPES)) event_types in
  if Nat.eqb (length unknown) 0 then None
  else Some (RouteHTTPException 422 (JStr (unknown_types_detail unknown))).

(** [_to_public(wh)]; [created_at] is the row's timestamp. *)
Definition to_public (wh : WebhookEndpoint) (created_at : string) : pydict :=
  [("webhook_id", JStr (uuid_str (webhook_id wh)));
   ("workspace_id", JStr (uuid_str (wh_workspace_id wh)));
   ("url", JStr (url wh));
   ("event_types", JList (map JStr (match event_types wh with Some l => l | None => [] end)));
   ("is_active", JBool (is_active wh));
   ("created_at", JStr created_at)].

(** [_get_owned_workspace] *)
Definition get_owned_workspace (db : WebhookDB) (ws_id user_id : N)
  : route_response + Workspace :=
  match find (fun w => N.eqb (workspace_id w) ws_id) (whdb_workspaces db) with
  | None => inl (RouteHTTPException 404 (JStr "Workspace not found"))
  | Some ws =>
      if negb (N.eqb (owner_id ws) user_id)
      then inl (RouteHTTPException 403 (JStr "Access denied")) else inr ws
  end.

(** [_get_owned_webhook] *)
Definition get_owned_webhook (db : WebhookDB) (wh_id ws_id : N)
  : route_response + WebhookEndpoint :=
  match find (fun e => N.eqb (webhook_id e) wh_id) (whdb_endpoints db) with
  | None => inl (RouteHTTPException 404 (JStr "Webhook not found"))
  | Some e =>
      if negb (N.eqb (wh_workspace_id e) ws_id)
      then inl (RouteHTTPException 403 (JStr "Access denied")) else inr e
  end.

(** [TierGate(ws.tier).require_feature("can_use_webhooks")] *)
Definition require_webhooks (ws : Workspace) : option route_response :=
  match require_feature (make_gate (ws_tier ws)) "can_use_webhooks" with
  | HTTPError s d => Some (RouteHTTPException s (JObj d))
  | Pass => None
  end.

(** [create_webhook]: [new_id] is the [uuid4()] default of the row,
    [signing_secret] the [secrets.token_hex(32)], [created_at] the row's
    timestamp; a primary key already present fails the commit. *)
Definition create_webhook (db : WebhookDB) (ws_id user_id : N)
           (p_url : string) (p_event_types : list string)
           (new_id : N) (signing_secret created_at : string) : route_response * WebhookDB :=
  match get_owned_workspace db ws_id user_id with
  | inl r => (r, db)
  | inr ws =>
      match require_webhooks ws with
      | Some r => (r, db)
      | None =>
          match (if negb (Nat.eqb (length p_event_types) 0)
                 then validate_event_types p_event_types else None) with
          | Some r => (r, db)
          | None =>
              let endpoint := {| webhook_id := new_id; wh_workspace_id := ws_id;
                                 url := p_url; secret := signing_secret;
                                 event_types := Some p_event_types; is_active := true |} in
              if existsb (fun e => N.eqb (webhook_id e) new_id) (whdb_endpoints db)
              then (RouteServerError "IntegrityError", db)
              else (RouteOk 201 (to_public endpoint created_at),
                    {| whdb_workspaces := whdb_workspaces db;
                       whdb_endpoints := whdb_endpoints db ++ [endpoint] |})
          end
      end
  end.

(** [test_webhook]: the answer and the task it queues. *)
Definition test_webhook (db : WebhookDB) (ws_id wh_id user_id : N)
  : route_response * list task_call :=
  match get_owned_workspace db ws_id user_id with
  | inl r => (r, [])
  | inr ws =>
      match require_webhooks ws with
      | Some r => (r, [])
      | None =>
          match get_owned_webhook db wh_id ws_id with
          | inl r => (r, [])
          | inr endpoint =>
              (RouteOk 202 [("status", JStr "queued"); ("webhook_id", JStr (uuid_str wh_id))],
               [{| tc_webhook_id := uuid_str (webhook_id endpoint);
                   tc_event_type := "ping";
                   tc_payload := [("message", JStr "CartoGraph webhook test ping");
                                  ("workspace_id", JStr (uuid_str ws_id))] |}])
          end
      end
  end.

End WebhookRoutes.

(** A professional workspace (id 1, owner 7) with no webhook yet. *)
Definition pro_ws : Workspace :=
  {| workspace_id := 1; owner_id := 7; ws_tier := "professional";
     domain_lookups_used := 0; export_credits_used := 0; api_calls_used := 0;
     billing_cycle_start := 0; stripe_customer_id := JStr "cus_abc";
     stripe_subscription_id := JStr "sub_1"; stripe_subscription_status := JStr "active";
     stripe_price_id := JStr "price_pro"; founding_member := false |}.

Definition pro_webhook_db : WebhookDB := {| whdb_workspaces := [pro_ws]; whdb_endpoints := [] |}.

(* ------------------------------------------------------------------------- *)
(** ** webhook_tasks.py: deliver_webhook under Celery's retries

    [self.retry(...)] re-queues the task; Celery runs it again with
    [self.request.retries] one higher. Each run draws its own
    [str(uuid.uuid4())] and timestamp and meets its own network answer. *)

Section DeliveryRuns.

Variable sign_payload : string -> jvalue -> string.
Variable SCHEMA_VERSION : string.
Variable httpx_accepts_url : string -> bool.
(** The endpoint table (unchanged between runs). *)
Variable endpoints : list WebhookEndpoint.
(** The delivery id, timestamp and network answer of the run with a given retry count. *)
Variable delivery_id_of : Z -> string.
Variable delivered_at_of : Z -> string.
Variable response_of : Z -> http_response.

(** The runs of one queued task from retry count [retries] on, at most
    [fuel] re-runs: every request sent, the countdown of every retry, and
    the last outcome. *)
Fixpoint celery_runs (fuel : nat) (retries : Z) (wh_id event_type : string) (payload : pydict)
  : list http_request * list Z * task_outcome :=
  let '(reqs, out) := deliver_webhook sign_payload SCHEMA_VERSION httpx_accepts_url endpoints retries
                        (delivery_id_of retries) (delivered_at_of retries) (response_of retries)
                        wh_id event_type payload in
  match out, fuel with
  | TaskRetry c, S f =>
      let '(reqs', cs, last) := celery_runs f (retries + 1) wh_id event_type payload in
      ((reqs ++ reqs')%list, c :: cs, last)
  | TaskRetry c, O => (reqs, [c], out)
  | _, _ => (reqs, [], out)
  end.

End DeliveryRuns.

(** A network answer that makes the task retry: a non-2xx status or a transport error. *)
Definition failing (r : http_response) : Prop :=
  match r with
  | HttpStatus code => ~ (200 <= code < 300)
  | HttpRequestError => True
  end.

(* ------------------------------------------------------------------------- *)
(** ** api/routes/domains.py: list_domains and _extract_summary *)

(** [(x or {}).get(k)]: [None] = AttributeError ([.get] of a truthy value
    that is not a dict). *)
Definition or_empty_get (x : jvalue) (k : string) : option jvalue :=
  if truthy x then
    match x with
    | JObj o => Some (dict_get o k)
    | _ => None
    end
  else Some JNull.

(** The keyword arguments [_extract_summary] passes to [DomainSummary]:
    the row's key and scalar columns, and six values read out of its JSONB
    groups; [None] = one of the [.get] calls raises. *)
Definition extract_summary_fields (d : DomainRow) : option pydict :=
  let p := domain_public d in
  let seo := dict_get p "seo_metrics" in
  let intent := dict_get p "intent_layer" in
  let ecom := dict_get p "ecommerce" in
  let confidence := dict_get p "confidence_score" in
  match or_empty_get seo "domain_rating", or_empty_get seo "organic_traffic_estimate",
        or_empty_get intent "commercial_intent_score", or_empty_get ecom "platform",
        or_empty_get ecom "category_primary", or_empty_get confidence "value" with
  | Some dr, Some ote, Some cis, Some pl, Some cp, Some cv =>
      Some [("domain_id", JStr (uuid_str (domain_id d)));
            ("domain", dict_get p "domain");
            ("country", dict_get p "country");
            ("tld", dict_get p "tld");
            ("status", dict_get p "status");
            ("first_seen_at", dict_get p "first_seen_at");
            ("last_updated_at", dict_get p "last_updated_at");
            ("schema_version", dict_get p "schema_version");
            ("domain_rating", dr);
            ("organic_traffic_estimate", ote);
            ("commercial_intent_score", cis);
            ("platform", pl);
            ("category_primary", cp);
            ("confidence_value", cv)]
  | _, _, _, _, _, _ => None
  end.

(** [[f(x) for x in xs]]: the first exception ([inr]) aborts the
    comprehension. *)
Fixpoint map_res {A B : Type} (f : A -> B + string) (l : list A) : list B + string :=
  match l with
  | [] => inl []
  | x :: r =>
      match f x with
      | inl y => match map_res f r with inl ys => inl (y :: ys) | inr e => inr e end
      | inr e => inr e
      end
  end.

(** [ORDER BY domain_id ASC] (a UUID column compares as its 128-bit value):
    insertion sort on the key. *)
Fixpoint insert_by_id (d : DomainRow) (l : list DomainRow) : list DomainRow :=
  match l with
  | [] => [d]
  | x :: r => if (domain_id d <=? domain_id x)%N then d :: l else x :: insert_by_id d r
  end.

Definition order_by_id (l : list DomainRow) : list DomainRow :=
  fold_right insert_by_id [] l.

(** [domains[-1]]; [None] = IndexError. *)
Definition last_opt {A : Type} (l : list A) : option A :=
  match rev l with x :: _ => Some x | [] => None end.

Section ListDomains.

(** [DomainSummary(...)]: pydantic's validation of the keyword arguments,
    giving the serialised summary; [None] = ValidationError. *)
Variable DomainSummary : pydict -> option pydict.
(** The SQL [WHERE] clauses built from the filter query parameters
    (country, status, platform, category, min/max_dr, min_traffic,
    min_intent, shopping_carousel), evaluated on a row. *)
Variable where_clause : DomainRow -> bool.

(** [_extract_summary(d)]; [inr] = the exception it raises. *)
Definition summary_of (d : DomainRow) : jvalue + string :=
  match extract_summary_fields d with
  | Some f => match DomainSummary f with Some s => inl (JObj s) | None => inr "ValidationError" end
  | None => inr "AttributeError"
  end.

(** [list_domains] on query parameters that passed their [Query]
    validation ([page >= 1], [1 <= page_size <= 500]); [after_cursor] is
    [None] when absent. *)
Definition list_domains (db : AppDB) (user_id : N) (page page_size : Z)
           (after_cursor : option string) : response :=
  let ws := get_caller_workspace db user_id in
  let t := match ws with Some w => ws_tier w | None => "free" end in
  let gate := make_gate t in
  let effective_page_size := clamp_page_size gate page_size 50 in
  let stmt := filter where_clause (app_domains db) in
  let cursor := match after_cursor with
                | Some c => if truthy (JStr c) then Some c else None
                | None => None
                end in
  match match cursor with
        | None => Some stmt
        | Some c =>
            match uuid_parse c with
            | Some cursor_id => Some (filter (fun d => (cursor_id <? domain_id d)%N) stmt)
            | None => None
            end
        end with
  | None => RespHTTPException 422 (JStr "Invalid cursor value")
  | Some stmt =>
      let total := Z.of_nat (length stmt) in
      let ordered := order_by_id stmt in
      let window := match cursor with
                    | None => skipn (Z.to_nat ((page - 1) * effective_page_size)) ordered
                    | Some _ => ordered
                    end in
      let domains := firstn (Z.to_nat effective_page_size) window in
      match (if Z.of_nat (length domains) =? effective_page_size
             then option_map (fun d => JStr (uuid_str (domain_id d))) (last_opt domains)
             else Some JNull) with
      | None => RespServerError "IndexError"
      | Some next_cursor =>
          match map_res summary_of domains with
          | inr exc => RespServerError exc
          | inl data =>
              Resp200 [("data", JList data); ("count", JNum total);
                       ("page", JNum page); ("next_cursor", next_cursor)]
          end
      end
  end.

End ListDomains.

(** A client that follows [next_cursor] from the first page until it is
    [None], collecting the [data] of every page (at most [fuel] requests). *)
Fixpoint follow_cursor (DS : pydict -> option pydict) (wc : DomainRow -> bool) (fuel : nat)
         (db : AppDB) (user_id : N) (page_size : Z) (cur : option string)
  : option (list jvalue) :=
  match fuel with
  | O => None
  | S f =>
      match list_domains DS wc db user_id 1 page_size cur with
      | Resp200 body =>
          match dict_get body "data", dict_get body "next_cursor" with
          | JList items, JNull => Some items
          | JList items, JStr c =>
              match follow_cursor DS wc f db user_id page_size (Some c) with
              | Some more => Some (items ++ more)%list
              | None => None
              end
          | _, _ => None
          end
      | _ => None
      end
  end.

(** The [domain_id] of a serialised summary. *)
Definition item_id (j : jvalue) : jvalue :=
  match j with JObj s => dict_get s "domain_id" | _ => JNull end.

Definition mk_domain_row (n : N) (name : string) (intent : jvalue) : DomainRow :=
  {| domain_id := n; domain_name := name;
     domain_public := [("domain", JStr name); ("country", JStr "UK"); ("status", JStr "active");
                       ("intent_layer", intent)] |}.

(** Three domains stored out of key order, no workspace for the caller. *)
Definition three_domains_db : AppDB :=
  {| app_workspaces := [];
     app_domains := [mk_domain_row 3 "c.co.uk" (JObj [("commercial_intent_score", JNum 9)]);
                     mk_domain_row 1 "a.co.uk" (JObj [("commercial_intent_score", JNum 8)]);
                     mk_domain_row 2 "b.co.uk" JNull] |}.

(** A pydantic stand-in that accepts the summary as given. *)
Definition summary_as_is (f : pydict) : option pydict := Some f.

(** Strict order of rows by key. *)
Definition id_lt (a b : DomainRow) : Prop := (domain_id a < domain_id b)%N.

(** The part of [list_domains] after the page's rows are fetched. *)
Definition page_response (DS : pydict -> option pydict) (effective_page_size total page : Z)
           (domains : list DomainRow) : response :=
  match (if Z.of_nat (length domains) =? effective_page_size
         then option_map (fun d => JStr (uuid_str (domain_id d))) (last_opt domains)
         else Some JNull) with
  | None => RespServerError "IndexError"
  | Some next_cursor =>
      match map_res (summary_of DS) domains with
      | inr exc => RespServerError exc
      | inl data =>
          Resp200 [("data", JList data); ("count", JNum total);
                   ("page", JNum page); ("next_cursor", next_cursor)]
      end
  end.

(* ------------------------------------------------------------------------- *)
(** ** api/routes/domains.py: import_domains *)

(** [(item.get("domain") or "").lower().strip()]; [None] = AttributeError
    ([.lower] of a truthy value that is not a string). *)
Definition import_name (item : pydict) : option string :=
  let v := dict_get item "domain" in
  match (if truthy v then v else JStr "") with
  | JStr s => Some (strip_by is_py_space (lower s))
  | _ => None
  end.

(** ["." in s] *)
Fixpoint has_dot (s : string) : bool :=
  match s with
  | EmptyString => false
  | String c r => Ascii.eqb c "."%char || has_dot r
  end.

(** [s.split(".")[-1]]: the text after the last dot ([acc] is the text
    after the last dot seen so far). *)
Fixpoint after_last_dot (s acc : string) : string :=
  match s with
  | EmptyString => acc
  | String c r => if Ascii.eqb c "."%char then after_last_dot r "" else after_last_dot r (acc ++ String c "")
  end.

(** [tld = ...; full_tld = f".{tld}" if tld else None] *)
Definition import_tld (raw_domain : string) : jvalue :=
  if has_dot raw_domain then
    let tld := after_last_dot raw_domain "" in
    if String.eqb tld "" then JNull else JStr ("." ++ tld)
  else JNull.

(** The [VARCHAR] widths of the [domains] columns the import sets
    ([domain] 255, [tld] 20; [country], [status], [schema_version] hold
    constants that fit): a row that exceeds them fails when flushed. *)
Definition row_fits (d : DomainRow) : bool :=
  (String.length (domain_name d) <=? 255)%nat &&
  match dict_get (domain_public d) "tld" with
  | JStr t => (String.length t <=? 20)%nat
  | _ => true
  end.

Record import_state := {
  imp_pending : list DomainRow;
  imp_created : Z;
  imp_queued : Z;
  imp_skipped : Z;
  imp_tasks : list string
}.

Definition import_start : import_state :=
  {| imp_pending := []; imp_created := 0; imp_queued := 0; imp_skipped := 0; imp_tasks := [] |}.

Section ImportDomains.

(** The [uuid4] key and the two [get_datetime_utc()] defaults of the
    [k]-th row imp_created by the request. *)
Variable new_id : nat -> N.
Variable first_seen_at_of : nat -> string.
Variable last_updated_at_of : nat -> string.

(** [Domain(domain=..., tld=..., status="pending", discovery=...)] with its
    column defaults, as its [DomainPublic] dump. *)
Definition import_row (k : nat) (raw_domain : string) (item : pydict) : DomainRow :=
  {| domain_id := new_id k; domain_name := raw_domain;
     domain_public :=
       [("domain_id", JStr (uuid_str (new_id k))); ("domain", JStr raw_domain);
        ("country", JStr "UK"); ("tld", import_tld raw_domain); ("status", JStr "pending");
        ("first_seen_at", JStr (first_seen_at_of k));
        ("last_updated_at", JStr (last_updated_at_of k));
        ("schema_version", JStr "1.0.0");
        ("discovery", JObj [("method", JStr "bulk_import");
                            ("tags", match dict_lookup item "tags" with
                                     | Some t => t | None => JList [] end)]);
        ("ecommerce", JNull); ("seo_metrics", JNull); ("intent_layer", JNull);
        ("serp_intelligence", JNull); ("technical_layer", JNull); ("contact", JNull);
        ("marketplace_overlap", JNull); ("paid_ads_presence", JNull); ("meta", JNull);
        ("change_tracking", JNull); ("confidence_score", JNull); ("pipeline", JNull);
        ("ai_summary", JNull)] |}.

(** The loop of [import_domains] over the committed rows [db_rows]. The
    session flushes the imp_pending rows before each [SELECT] (SQLAlchemy's
    autoflush), so the query sees them, and a row that does not fit its
    columns raises there; [classify_domain_task.delay] queues a task at
    once. The second component is the exception that ends the loop. *)
Fixpoint import_loop (db_rows : list DomainRow) (items : list pydict) (st : import_state)
  : import_state * option string :=
  match items with
  | [] => (st, None)
  | item :: rest =>
      match import_name item with
      | None => (st, Some "AttributeError")
      | Some raw_domain =>
          if String.eqb raw_domain "" then
            import_loop db_rows rest
              {| imp_pending := imp_pending st; imp_created := imp_created st; imp_queued := imp_queued st;
                 imp_skipped := imp_skipped st + 1; imp_tasks := imp_tasks st |}
          else if negb (forallb row_fits (imp_pending st)) then (st, Some "DataError")
          else if existsb (fun d => String.eqb (domain_name d) raw_domain) (db_rows ++ imp_pending st)
          then
            import_loop db_rows rest
              {| imp_pending := imp_pending st; imp_created := imp_created st; imp_queued := imp_queued st;
                 imp_skipped := imp_skipped st + 1; imp_tasks := imp_tasks st |}
          else
            import_loop db_rows rest
              {| imp_pending := (imp_pending st ++ [import_row (length (imp_pending st)) raw_domain item])%list;
                 imp_created := imp_created st + 1; imp_queued := imp_queued st + 1;
                 imp_skipped := imp_skipped st; imp_tasks := (imp_tasks st ++ [raw_domain])%list |}
      end
  end.

(** [import_domains]: the response (202 on success), the table after the
    request, and the enrichment tasks imp_queued. An exception leaves the
    transaction uncommitted. *)
Definition import_domains (payload : list pydict) (db : AppDB) : response * AppDB * list string :=
  let '(st, err) := import_loop (app_domains db) payload import_start in
  match err with
  | Some exc => (RespServerError exc, db, imp_tasks st)
  | None =>
      if forallb row_fits (imp_pending st) then
        (Resp200 [("status", JStr "accepted"); ("created", JNum (imp_created st));
                  ("queued_for_enrichment", JNum (imp_queued st));
                  ("skipped_existing", JNum (imp_skipped st))],
         {| app_workspaces := app_workspaces db; app_domains := (app_domains db ++ imp_pending st)%list |},
         imp_tasks st)
      else (RespServerError "DataError", db, imp_tasks st)
  end.

End ImportDomains.

(** What [import_domains]'s loop keeps: the queued names are the names of
    the pending rows, distinct and new to the table, counted by [created]
    and [queued], every pending row [pending]. *)
Definition import_inv (db_rows : list DomainRow) (st : import_state) : Prop :=
  map domain_name (imp_pending st) = imp_tasks st /\
  NoDup (imp_tasks st) /\
  (forall x, In x (imp_tasks st) -> ~ In x (map domain_name db_rows)) /\
  imp_created st = Z.of_nat (length (imp_pending st)) /\
  imp_queued st = imp_created st /\
  (forall r, In r (imp_pending st) -> dict_get (domain_public r) "status" = JStr "pending").

(** One new domain, then an item whose ["domain"] is a number. *)
Definition half_bad_payload : list pydict :=
  [[("domain", JStr "x.org")]; [("domain", JNum 5)]].

(* ------------------------------------------------------------------------- *)
(** ** api/routes/webhooks.py: get_webhook, update_webhook, delete_webhook *)

(** The body of [update_webhook], for payloads whose ["event_types"], when
    present, is [null] or a list of strings: [None] = key absent, [Some None]
    = [null]. *)
Record webhook_patch := {
  patch_is_active : option jvalue;
  patch_event_types : option (option (list string))
}.

Definition set_active (e : WebhookEndpoint) (b : bool) : WebhookEndpoint :=
  {| webhook_id := webhook_id e; wh_workspace_id := wh_workspace_id e; url := url e;
     secret := secret e; event_types := event_types e; is_active := b |}.

Definition set_event_types (e : WebhookEndpoint) (l : list string) : WebhookEndpoint :=
  {| webhook_id := webhook_id e; wh_workspace_id := wh_workspace_id e; url := url e;
     secret := secret e; event_types := Some l; is_active := is_active e |}.

(** [session.add(endpoint); session.commit()]: the row with the endpoint's
    key now holds it. *)
Definition store_endpoint (db : WebhookDB) (e : WebhookEndpoint) : WebhookDB :=
  {| whdb_workspaces := whdb_workspaces db;
     whdb_endpoints := map (fun x => if N.eqb (webhook_id x) (webhook_id e) then e else x)
                           (whdb_endpoints db) |}.

Section WebhookRoutes2.

Variable unknown_types_detail : list string -> string.
(** The [created_at] column of each endpoint. *)
Variable created_at_of : N -> string.

(** [get_webhook] *)
Definition get_webhook (db : WebhookDB) (ws_id wh_id user_id : N) : route_response :=
  match get_owned_workspace db ws_id user_id with
  | inl r => r
  | inr ws =>
      match require_webhooks ws with
      | Some r => r
      | None =>
          match get_owned_webhook db wh_id ws_id with
          | inl r => r
          | inr endpoint => RouteOk 200 (to_public endpoint (created_at_of (webhook_id endpoint)))
          end
      end
  end.

(** [update_webhook]: [bool(payload["is_active"])], then
    [payload["event_types"] or []] validated; an exception leaves the row
    uncommitted. *)
Definition update_webhook (db : WebhookDB) (ws_id wh_id user_id : N) (payload : webhook_patch)
  : route_response * WebhookDB :=
  match get_owned_workspace db ws_id user_id with
  | inl r => (r, db)
  | inr ws =>
      match require_webhooks ws with
      | Some r => (r, db)
      | None =>
          match get_owned_webhook db wh_id ws_id with
          | inl r => (r, db)
          | inr endpoint =>
              let e1 := match patch_is_active payload with
                        | Some v => set_active endpoint (truthy v)
                        | None => endpoint
                        end in
              match match patch_event_types payload with
                    | Some nt =>
                        let new_types := match nt with Some l => l | None => [] end in
                        match validate_event_types unknown_types_detail new_types with
                        | Some r => inl r
                        | None => inr (set_event_types e1 new_types)
                        end
                    | None => inr e1
                    end with
              | inl r => (r, db)
              | inr e2 => (RouteOk 200 (to_public e2 (created_at_of (webhook_id e2))),
                           store_endpoint db e2)
              end
          end
      end
  end.

(** [delete_webhook] (204, no body); it does not call [require_feature]. *)
Definition delete_webhook (db : WebhookDB) (ws_id wh_id user_id : N) : route_response * WebhookDB :=
  match get_owned_workspace db ws_id user_id with
  | inl r => (r, db)
  | inr _ =>
      match get_owned_webhook db wh_id ws_id with
      | inl r => (r, db)
      | inr endpoint =>
          (RouteOk 204 [],
           {| whdb_workspaces := whdb_workspaces db;
              whdb_endpoints := filter (fun x => negb (N.eqb (webhook_id x) (webhook_id endpoint)))
                                       (whdb_endpoints db) |})
      end
  end.

End WebhookRoutes2.

(** A free workspace (id 2, owner 7) still holding the endpoint it
    registered before a downgrade, and a professional one (id 1). *)
Definition downgraded_ws : Workspace :=
  {| workspace_id := 2; owner_id := 7; ws_tier := "free";
     domain_lookups_used := 0; export_credits_used := 0; api_calls_used := 0;
     billing_cycle_start := 0; stripe_customer_id := JNull;
     stripe_subscription_id := JNull; stripe_subscription_status := JStr "canceled";
     stripe_price_id := JNull; founding_member := false |}.

Definition legacy_endpoint : WebhookEndpoint :=
  {| webhook_id := 5; wh_workspace_id := 2; url := "https://example.co.uk/legacy";
     secret := "s3cret"; event_types := Some ["domain.created"]; is_active := true |}.

Definition pro_endpoint : WebhookEndpoint :=
  {| webhook_id := 3; wh_workspace_id := 1; url := "https://example.co.uk/hook";
     secret := "s3cret"; event_types := Some ["domain.created"]; is_active := true |}.

Definition downgraded_db : WebhookDB :=
  {| whdb_workspaces := [pro_ws; downgraded_ws]; whdb_endpoints := [pro_endpoint; legacy_endpoint] |}.

(** A domain record with an [seo_metrics] group, for masking across tiers. *)
Definition upgrade_sample : pydict :=
  [("domain", JStr "example.co.uk");
   ("seo_metrics", JObj [("domain_rating", JNum 41); ("referring_domains_count", JNum 120)])].

(** The shape of every transition of [process_webhook_event]. *)
Definition one_row_change (cap : Z) (p2t : list (string * string)) (db db' : DB) : Prop :=
  db' = db \/
  exists w w', In w (workspaces db) /\ workspace_id w' = workspace_id w /\ owner_id w' = owner_id w /\
    (ws_tier w' = ws_tier w \/ ws_tier w' = "free" \/ exists p, assoc p2t p = Some (ws_tier w')) /\
    workspaces db' = write_ws w' (workspaces db) /\
    (founding_row db' = founding_row db \/
     (founding_row db' = option_map (fun c => c + 1) (founding_row db) /\
      get_founding_member_count db < cap)).

(* ========================================================================= *)
(** * Properties *)

(* ------------------------------------------------------------------------- *)
(** ** TierGate checks *)

(** C5: [check_lookup_quota] raises 429, with the limit, the used value and
    the current tier in its detail, exactly when the tier has a lookup limit
    and [used >= limit]; it passes otherwise, and always when the limit is
    [None]. On the free tier 24 passes and 25 fails with limit 25, used 25. *)
Theorem check_lookup_quota_spec (t : string) (used : Z) :
  (let g := make_gate t in
   match max_lookups_per_month (limits g) with
   | Some limit =>
       if used >=? limit then
         exists d, check_lookup_quota g used = HTTPError 429 d /\
                   dict_get d "limit" = JNum limit /\ dict_get d "used" = JNum used /\
                   dict_get d "current_tier" = JStr (gate_tier g)
       else check_lookup_quota g used = Pass
   | None => check_lookup_quota g used = Pass
   end) /\
  check_lookup_quota (make_gate "free") 24 = Pass /\
  (exists d, check_lookup_quota (make_gate "free") 25 = HTTPError 429 d /\
             dict_get d "limit" = JNum 25 /\ dict_get d "used" = JNum 25 /\
             dict_get d "current_tier" = JStr "free").
Proof.
  split; [| split].
  - cbn zeta. unfold check_lookup_quota.
    destruct (max_lookups_per_month (limits (make_gate t))) as [limit|]; [|reflexivity].
    destruct (used >=? limit); [|reflexivity].
    eexists; repeat split; reflexivity.
  - reflexivity.
  - eexists; repeat split; reflexivity.
Qed.

(** C6: [check_export_credits] first requires [can_export_csv]: without it
    the result is the 403 of [require_feature], whatever the counts; with
    it, 429 exactly when a limit exists and [used + requested > limit]. *)
Theorem check_export_credits_spec (t : string) (used requested : Z) :
  let g := make_gate t in
  if can_export_csv (limits g) then
    match max_export_credits_per_month (limits g) with
    | Some limit =>
        if used + requested >? limit then
          exists d, check_export_credits g used requested = HTTPError 429 d /\
                    dict_get d "code" = JStr "export_credits_exhausted" /\
                    dict_get d "limit" = JNum limit
        else check_export_credits g used requested = Pass
    | None => check_export_credits g used requested = Pass
    end
  else
    check_export_credits g used requested = require_feature g "can_export_csv" /\
    exists d, require_feature g "can_export_csv" = HTTPError 403 d /\
              dict_get d "code" = JStr "feature_gated".
Proof.
  cbn zeta. unfold check_export_credits, require_feature.
  cbn [feature_flag String.eqb Ascii.eqb Bool.eqb negb].
  destruct (can_export_csv (limits (make_gate t))); cbn [negb].
  - destruct (max_export_credits_per_month (limits (make_gate t))) as [limit|]; [|reflexivity].
    destruct (used + requested >? limit); [|reflexivity].
    eexists; repeat split; reflexivity.
  - split; [reflexivity|]. eexists; split; reflexivity.
Qed.

(* ------------------------------------------------------------------------- *)
(** ** Webhook delivery *)

(** C9: for a well-formed endpoint id, when the endpoint is missing, is
    inactive, or has a non-empty subscription list without the event type,
    [deliver_webhook] issues no HTTP request and returns a [skipped] dict:
    no retry is scheduled and nothing is raised. *)
Theorem deliver_webhook_skips (sign : string -> jvalue -> string) (sv : string)
    (url_ok : string -> bool) (endpoints : list WebhookEndpoint) (retries : Z) (did dat : string)
    (resp : http_response) (wh_id event_type : string) (payload : pydict) (id : N) :
  uuid_parse wh_id = Some id ->
  match find (fun e => N.eqb (webhook_id e) id) endpoints with
  | None => True
  | Some e =>
      is_active e = false \/
      (exists l, event_types e = Some l /\ l <> [] /\ str_mem event_type l = false)
  end ->
  exists reason,
    deliver_webhook sign sv url_ok endpoints retries did dat resp wh_id event_type payload =
    ([], TaskReturn [("status", JStr "skipped"); ("reason", JStr reason)]).
Proof.
  intros Hid Hskip. unfold deliver_webhook. rewrite Hid.
  destruct (find (fun e => N.eqb (webhook_id e) id) endpoints) as [e|].
  - destruct Hskip as [Hin | (l & Hl & Hne & Hmem)].
    + rewrite Hin. eexists; reflexivity.
    + destruct (is_active e); [| eexists; reflexivity]. cbn [negb].
      rewrite Hl, Hmem. destruct l as [|x l]; [contradiction|].
      eexists; reflexivity.
  - eexists; reflexivity.
Qed.

Lemma deliver_webhook_skips_witness :
  uuid_parse "00000000-0000-0000-0000-000000000001" = Some 1%N /\
  exists reason,
    deliver_webhook (fun _ _ => "sha256=0") "1.0.0" (fun _ => true) [created_only_endpoint] 0 "d1" "t0"
      (HttpStatus 200) "00000000-0000-0000-0000-000000000001" "domain.updated" [] =
    ([], TaskReturn [("status", JStr "skipped"); ("reason", JStr reason)]).
Proof.
  split; [reflexivity|].
  apply (deliver_webhook_skips (fun _ _ => "sha256=0") "1.0.0" (fun _ => true) [created_only_endpoint] 0
           "d1" "t0" (HttpStatus 200) "00000000-0000-0000-0000-000000000001"
           "domain.updated" [] 1%N).
  - reflexivity.
  - simpl. right. exists ["domain.created"]. split; [reflexivity|]. split; [discriminate|reflexivity].
Defined.

(* ------------------------------------------------------------------------- *)
(** ** Unknown tiers *)

(** C4 (counterexample): ["STARTER"] is not a key of [TIER_LIMITS], yet it
    is matched case-insensitively to the starter tier: the masked record
    differs from the free one and the gate uses the starter limits. *)
Lemma unknown_tier_cex :
  tier_known "STARTER" = false /\
  mask_domain_by_tier empty_domain "STARTER" <> mask_domain_by_tier empty_domain "free" /\
  limits (make_gate "STARTER") <> free_limits.
Proof.
  split; [reflexivity|]. split.
  - vm_compute. discriminate.
  - vm_compute. discriminate.
Qed.

(** C4 (amended): a tier name whose lower-cased form is not a catalogue key
    is masked exactly as [free], and its [TierGate] carries the free limits. *)
Theorem unknown_tier_is_free (domain_data : pydict) (t : string) :
  tier_known (lower t) = false ->
  mask_domain_by_tier domain_data t = mask_domain_by_tier domain_data "free" /\
  limits (make_gate t) = free_limits.
Proof.
  intros Hk. split.
  - unfold mask_domain_by_tier, effective_tier. rewrite Hk. reflexivity.
  - unfold make_gate. cbn [limits]. unfold tier_known in Hk.
    destruct (assoc TIER_LIMITS (lower t)); [discriminate|reflexivity].
Qed.

Lemma unknown_tier_is_free_witness :
  tier_known (lower "unicorn_tier") = false /\
  mask_domain_by_tier sample_domain "unicorn_tier" = mask_domain_by_tier sample_domain "free" /\
  limits (make_gate "unicorn_tier") = free_limits.
Proof.
  split; [reflexivity|]. apply unknown_tier_is_free. reflexivity.
Defined.

(* ------------------------------------------------------------------------- *)
(** ** Billing events *)

Lemma write_ws_in (w w' : Workspace) (l : list Workspace) :
  In w l -> workspace_id w = workspace_id w' -> In w' (write_ws w' l).
Proof.
  induction l as [|x l IH]; simpl; [tauto|].
  intros [<-|Hin] Hid.
  - left. rewrite Hid, N.eqb_refl. reflexivity.
  - right. apply IH; assumption.
Qed.

Lemma first_ws_where_in (db : DB) (col : Workspace -> jvalue) (v : jvalue) (ws : Workspace) :
  first_ws_where db col v = Some ws -> In ws (workspaces db).
Proof. unfold first_ws_where. intros H. apply find_some in H. tauto. Qed.

(** C7 (counterexample): the invoice event was created at time 1000 and is
    processed at time 2000; the workspace's cycle start becomes 2000, not
    the event's time. *)
Lemma invoice_paid_cycle_start_cex :
  match get_ws_by_id (snd (process_webhook_event 200 [] (fun _ => None)
                             invoice_paid_event 2000 sample_db)) 1 with
  | Some w => billing_cycle_start w = 2000 /\ billing_cycle_start w <> ev_created invoice_paid_event
  | None => False
  end.
Proof. vm_compute. split; [reflexivity | discriminate]. Qed.

(** C7 (amended): an [invoice.paid] event whose customer id resolves a
    workspace zeroes its three usage counters and sets its cycle start to
    the processing time [now] (not the event's creation time). *)
Theorem invoice_paid_resets_usage (cap : Z) (p2t : list (string * string))
    (retrieve : jvalue -> option jvalue) (created : Z) (obj : pydict) (now : Z)
    (db : DB) (ws : Workspace) :
  first_ws_where db stripe_customer_id (dict_get obj "customer") = Some ws ->
  let ws' := ws_reset_usage ws now in
  process_webhook_event cap p2t retrieve
    {| ev_type := "invoice.paid"; ev_created := created; ev_object := obj |} now db =
  (Returned [("action", JStr "usage_reset")], commit_ws ws' db) /\
  In ws' (workspaces (commit_ws ws' db)) /\ workspace_id ws' = workspace_id ws /\
  domain_lookups_used ws' = 0 /\ export_credits_used ws' = 0 /\ api_calls_used ws' = 0 /\
  billing_cycle_start ws' = now.
Proof.
  intros Hws. cbn zeta. split.
  - unfold process_webhook_event. cbn [ev_type ev_object String.eqb Ascii.eqb Bool.eqb].
    unfold handle_invoice_paid. rewrite Hws. reflexivity.
  - split; [| repeat split].
    apply write_ws_in with (w := ws); [eapply first_ws_where_in; eassumption | reflexivity].
Qed.

Lemma invoice_paid_resets_usage_witness :
  first_ws_where sample_db stripe_customer_id (dict_get (ev_object invoice_paid_event) "customer")
    = Some sample_ws /\
  process_webhook_event 200 [] (fun _ => None)
    {| ev_type := "invoice.paid"; ev_created := 1000; ev_object := ev_object invoice_paid_event |}
    2000 sample_db =
  (Returned [("action", JStr "usage_reset")], commit_ws (ws_reset_usage sample_ws 2000) sample_db).
Proof.
  split; [reflexivity|].
  apply (invoice_paid_resets_usage 200 [] (fun _ => None) 1000 (ev_object invoice_paid_event)
           2000 sample_db sample_ws).
  reflexivity.
Defined.

(** C8 (failing input): a [checkout.session.completed] event whose
    [client_reference_id] is not a UUID string cannot be resolved to a
    workspace, yet the handler raises [ValueError] from [uuid.UUID] instead
    of returning [skipped]. *)
Theorem checkout_malformed_workspace_id_raises (cap : Z) (p2t : list (string * string))
    (retrieve : jvalue -> option jvalue) (created now : Z) (db : DB) :
  process_webhook_event cap p2t retrieve
    {| ev_type := "checkout.session.completed"; ev_created := created;
       ev_object := [("client_reference_id", JStr "not-a-uuid")] |} now db =
  (Raised "ValueError", db).
Proof. reflexivity. Qed.

(* ------------------------------------------------------------------------- *)
(** ** Domain lookup accounting *)

Lemma lookup_route_accounting (db : AppDB) (user_id : N) (fetch : AppDB -> option DomainRow) :
  lookup_accounting db user_id (fetch db) (lookup_route db user_id fetch).
Proof.
  unfold lookup_accounting, lookup_route, caller_quota.
  destruct (get_caller_workspace db user_id) as [w|] eqn:Hw.
  - destruct (check_lookup_quota (make_gate (ws_tier w)) (domain_lookups_used w)) as [|s d] eqn:Hq.
    + destruct (fetch db) as [dom|] eqn:Hf.
      * split; [exact I|]. right. exists w, dom.
        destruct (mask_domain_by_tier (domain_public dom) (ws_tier w));
          [destruct (DomainPublic_validate _)|]; repeat split; reflexivity.
      * split; [split; [reflexivity | eexists _, _; split; reflexivity] | left; reflexivity].
    + assert (s = 429) as ->.
      { revert Hq. unfold check_lookup_quota.
        destruct (max_lookups_per_month (limits (make_gate (ws_tier w)))); [|discriminate].
        destruct (_ >=? _); congruence. }
      split; [| left; reflexivity].
      destruct (fetch db); [exact I|].
      split; [reflexivity | eexists _, _; split; reflexivity].
  - destruct (fetch db) as [dom|] eqn:Hf.
    + split; [exact I|]. left.
      destruct (mask_domain_by_tier (domain_public dom) "free");
        [destruct (DomainPublic_validate _)|]; reflexivity.
    + split; [split; [reflexivity | eexists _, _; split; reflexivity] | left; reflexivity].
Qed.

(** C10 (counterexample): a free-tier caller with 25 lookups used asks for
    a domain that does not exist; the quota check runs first and the route
    answers 429, not 404. *)
Lemma missing_domain_not_404_cex :
  fst (get_domain exhausted_app_db 7 42) <> RespHTTPException 404 (JStr "Domain not found") /\
  exists d, fst (get_domain exhausted_app_db 7 42) = RespHTTPException 429 d.
Proof.
  split.
  - vm_compute. discriminate.
  - eexists. vm_compute. reflexivity.
Qed.

(** C10 (amended): in [get_domain] and [get_domain_by_name], a missing
    domain yields an HTTP error (404, or 429 when the quota check fails
    first) and leaves the database unchanged; the only change either route
    makes is the caller workspace's [domain_lookups_used] going up by one,
    after the quota check passed and the domain was found. *)
Theorem domain_lookup_accounting (db : AppDB) (user_id did : N) (name : string) :
  lookup_accounting db user_id (find (fun d => N.eqb (domain_id d) did) (app_domains db))
    (get_domain db user_id did) /\
  lookup_accounting db user_id (find (fun d => String.eqb (domain_name d) (lower name)) (app_domains db))
    (get_domain_by_name db user_id name).
Proof.
  split.
  - apply (lookup_route_accounting db user_id
             (fun db => find (fun d => N.eqb (domain_id d) did) (app_domains db))).
  - apply (lookup_route_accounting db user_id
             (fun db => find (fun d => String.eqb (domain_name d) (lower name)) (app_domains db))).
Qed.

(* ------------------------------------------------------------------------- *)
(** ** Replaying checkout.session.completed *)

Lemma find_write_ws (w : Workspace) (l : list Workspace) (id : N) :
  workspace_id w = id -> find (fun x => N.eqb (workspace_id x) id) l <> None ->
  find (fun x => N.eqb (workspace_id x) id) (write_ws w l) = Some w.
Proof.
  intros Hw. induction l as [|x l IH]; simpl; [congruence|].
  destruct (N.eqb (workspace_id x) id) eqn:E; intros Hf.
  - apply N.eqb_eq in E. rewrite E, <- Hw, N.eqb_refl. simpl. rewrite N.eqb_refl. reflexivity.
  - assert (N.eqb (workspace_id x) (workspace_id w) = false) as E' by (rewrite Hw; exact E).
    rewrite E'. simpl. rewrite E. apply IH. exact Hf.
Qed.

Lemma write_ws_idem (w : Workspace) (l : list Workspace) :
  write_ws w (write_ws w l) = write_ws w l.
Proof.
  induction l as [|x l IH]; simpl; [reflexivity|].
  destruct (N.eqb (workspace_id x) (workspace_id w)) eqn:E; simpl.
  - rewrite N.eqb_refl, IH. reflexivity.
  - rewrite E, IH. reflexivity.
Qed.

Lemma get_ws_by_id_id (db : DB) (id : N) (ws : Workspace) :
  get_ws_by_id db id = Some ws -> workspace_id ws = id.
Proof. unfold get_ws_by_id. intros H. apply find_some in H. apply N.eqb_eq. tauto. Qed.

Lemma get_ws_after_write (db : DB) (id : N) (ws w : Workspace) (fr : option Z) :
  get_ws_by_id db id = Some ws -> workspace_id w = workspace_id ws ->
  get_ws_by_id {| workspaces := write_ws w (workspaces db); founding_row := fr |} id = Some w.
Proof.
  intros Hg Hw. unfold get_ws_by_id in *. cbn [workspaces].
  apply find_write_ws.
  - rewrite Hw. eapply get_ws_by_id_id. exact Hg.
  - rewrite Hg. discriminate.
Qed.

(** C1 (counterexample): with the counter at 0 and a cap of 200, processing
    the same founding-member checkout event twice leaves the counter at 2. *)
Lemma checkout_replay_double_increment_cex :
  let db1 := snd (process_webhook_event 200 [] (fun _ => None) checkout_event 0 sample_db) in
  let db2 := snd (process_webhook_event 200 [] (fun _ => None) checkout_event 0 db1) in
  founding_row sample_db = Some 0 /\ founding_row db1 = Some 1 /\ founding_row db2 = Some 2.
Proof. vm_compute. repeat split. Qed.

Lemma write_ws_shadow (w w' : Workspace) (l : list Workspace) :
  workspace_id w = workspace_id w' -> write_ws w (write_ws w' l) = write_ws w l.
Proof.
  intros Hw. induction l as [|x l IH]; simpl; [reflexivity|].
  destruct (N.eqb (workspace_id x) (workspace_id w')) eqn:E; simpl.
  - rewrite Hw, N.eqb_refl, E, IH. reflexivity.
  - rewrite Hw, E, IH. reflexivity.
Qed.

Lemma checkout_replay_same (cap : Z) (p2t : list (string * string))
    (retrieve : jvalue -> option jvalue) (data : pydict) (db : DB) :
  let r1 := handle_checkout_completed cap p2t retrieve data db in
  let r2 := handle_checkout_completed cap p2t retrieve data (snd r1) in
  fst r2 = fst r1 /\ workspaces (snd r2) = workspaces (snd r1).
Proof.
  cbn zeta. unfold handle_checkout_completed.
  destruct (resolve_workspace_id data) as [v|] eqn:Hr; [| cbn; auto].
  destruct (truthy v) eqn:Ht; cbn [negb]; [| cbn; auto].
  destruct (uuid_of v) as [id|] eqn:Hu; [| cbn; auto].
  destruct (get_ws_by_id db id) as [ws|] eqn:Hg; [| cbn; rewrite Hg; auto].
  destruct (get_or_empty data "metadata" "founding_member") as [fm|] eqn:Hm; [| cbn; rewrite Hg; auto].
  assert (Hid : workspace_id ws = id) by (eapply get_ws_by_id_id; exact Hg).
  destruct db as [wl fr].
  unfold get_ws_by_id in *. cbn [workspaces] in Hg.
  assert (Hne : find (fun x => N.eqb (workspace_id x) id) wl <> None) by congruence.
  unfold checkout_finish, get_founding_member_count, increment_founding_member_count, commit_ws.
  cbn [workspaces founding_row].
  destruct (col_eq fm (JStr "true")) eqn:Hf;
  [destruct fr as [c|] eqn:Hfr; [destruct (c <? cap) eqn:Hc | destruct (0 <? cap) eqn:Hc] | ];
  destruct (truthy (dict_get data "subscription")) eqn:Hs;
  try (destruct (retrieve (dict_get data "subscription")) as [p|] eqn:Hp;
       [destruct (tier_of_price p2t p) as [t|] eqn:Htp | ]);
  cbn [fst snd workspaces founding_row option_map];
  repeat rewrite write_ws_shadow by reflexivity;
  repeat (rewrite find_write_ws by (exact Hid || assumption));
  try rewrite Hg; cbn iota beta.
  all: repeat match goal with |- context [if ?b then _ else _] => destruct b eqn:? end;
       try congruence;
       cbn [fst snd workspaces founding_row];
       repeat rewrite write_ws_shadow by reflexivity;
       (split; reflexivity).
Qed.


Lemma checkout_finish_founding (p2t : list (string * string)) (retrieve : jvalue -> option jvalue)
      (data : pydict) (v : jvalue) (ws : Workspace) (d : DB) :
  founding_row (snd (checkout_finish p2t retrieve data v ws d)) = founding_row d.
Proof.
  unfold checkout_finish. destruct (truthy _); [|reflexivity].
  destruct (retrieve _); [|reflexivity]. destruct (tier_of_price _ _); reflexivity.
Qed.

Lemma handle_checkout_counter_step (cap : Z) (p2t : list (string * string))
      (retrieve : jvalue -> option jvalue) (data : pydict) (d : DB) :
  founding_counter_step cap data d (snd (handle_checkout_completed cap p2t retrieve data d)).
Proof.
  unfold founding_counter_step, handle_checkout_completed.
  destruct (resolve_workspace_id data) as [v|] eqn:Hr;
    [| split; [left; reflexivity | intros; discriminate]].
  destruct (truthy v) eqn:Ht; cbn [negb];
    [| split; [left; reflexivity | intros v' id ws c E; injection E as <-; congruence]].
  destruct (uuid_of v) as [id|] eqn:Hu;
    [| split; [left; reflexivity | intros v' id ws c E _ E'; injection E as <-; congruence]].
  destruct (get_ws_by_id d id) as [ws|] eqn:Hg;
    [| split; [left; reflexivity |
        intros v' id' ws c E _ E' E''; injection E as <-; rewrite Hu in E'; injection E' as <-;
        congruence]].
  destruct (get_or_empty data "metadata" "founding_member") as [fm|] eqn:Hm;
    [| split; [left; reflexivity | intros v' id' ws' c _ _ _ _ E; discriminate]].
  destruct (col_eq fm (JStr "true")) eqn:Hf.
  - assert (fm = JStr "true") as ->.
    { destruct fm; try discriminate. cbn in Hf. apply String.eqb_eq in Hf. subst. reflexivity. }
    destruct (get_founding_member_count d <? cap) eqn:Hc.
    + rewrite checkout_finish_founding. unfold increment_founding_member_count. cbn [founding_row].
      unfold get_founding_member_count in Hc.
      destruct (founding_row d) as [c|] eqn:Hfr.
      * apply Z.ltb_lt in Hc. split.
        -- right. exists c. repeat split; assumption.
        -- intros v' id' ws' c' _ _ _ _ _ E _. injection E as <-. reflexivity.
      * split; [left; reflexivity | intros v' id' ws' c' _ _ _ _ _ E; discriminate].
    + rewrite checkout_finish_founding. split; [left; reflexivity|].
      intros v' id' ws' c' _ _ _ _ _ Hfr Hlt.
      unfold get_founding_member_count in Hc. rewrite Hfr in Hc. apply Z.ltb_ge in Hc. lia.
  - rewrite checkout_finish_founding. split; [left; reflexivity|].
    intros v' id' ws' c' _ _ _ _ E. injection E as ->. discriminate.
Qed.

(** C1 (amended): processing the same [checkout.session.completed] event
    twice returns the same result and leaves the workspace table exactly as
    one processing did, from any state; the founding-member counter is not
    replay-safe: each of the two applications, the first from [db] and the
    second from its result, leaves the counter as it is or adds one to a
    count below the cap for an event flagged [founding_member = "true"], and
    adds one whenever the event resolves a workspace present before it, is
    so flagged, and the count is below the cap. *)
Theorem checkout_replay_workspace_idempotent (cap : Z) (p2t : list (string * string))
    (retrieve : jvalue -> option jvalue) (data : pydict) (db : DB) :
  let r1 := handle_checkout_completed cap p2t retrieve data db in
  let r2 := handle_checkout_completed cap p2t retrieve data (snd r1) in
  fst r2 = fst r1 /\ workspaces (snd r2) = workspaces (snd r1) /\
  founding_counter_step cap data db (snd r1) /\
  founding_counter_step cap data (snd r1) (snd r2).
Proof.
  cbv zeta.
  destruct (checkout_replay_same cap p2t retrieve data db) as [E1 E2].
  split; [exact E1|]. split; [exact E2|].
  split; apply handle_checkout_counter_step.
Qed.

(* ------------------------------------------------------------------------- *)
(** ** Masking: dict lemmas *)

Lemma str_mem_In (k : string) (l : list string) : str_mem k l = true <-> In k l.
Proof.
  unfold str_mem. rewrite existsb_exists. split.
  - intros (x & Hx & E). apply String.eqb_eq in E. subst. exact Hx.
  - intros H. exists k. split; [exact H | apply String.eqb_refl].
Qed.

Lemma dict_lookup_set (r : pydict) (k k' : string) (v : jvalue) :
  dict_lookup (dict_set r k v) k' = if String.eqb k' k then Some v else dict_lookup r k'.
Proof.
  induction r as [|[k1 v1] r IH]; simpl.
  - reflexivity.
  - destruct (String.eqb_spec k k1) as [->|Hne]; simpl.
    + destruct (String.eqb k' k1); reflexivity.
    + rewrite IH. destruct (String.eqb_spec k' k1) as [->|]; [|reflexivity].
      destruct (String.eqb_spec k1 k); [congruence | reflexivity].
Qed.

Lemma keys_dict_set (r : pydict) (k x : string) (v : jvalue) :
  In x (keys (dict_set r k v)) -> x = k \/ In x (keys r).
Proof.
  induction r as [|[k1 v1] r IH]; simpl.
  - intuition.
  - destruct (String.eqb k k1); simpl; [intuition|].
    intros [H|H]; [tauto|]. destruct (IH H); tauto.
Qed.

Lemma dict_lookup_notin (o : pydict) (k : string) :
  ~ In k (keys o) -> dict_lookup o k = None.
Proof.
  induction o as [|[k1 v1] o IH]; simpl; [reflexivity|].
  intros Hn. destruct (String.eqb_spec k k1); [subst; tauto|]. apply IH. tauto.
Qed.

Lemma dict_lookup_in (o : pydict) (k : string) :
  In k (keys o) -> dict_lookup o k <> None.
Proof.
  induction o as [|[k1 v1] o IH]; simpl; [tauto|].
  intros [<-|H]; [rewrite String.eqb_refl; discriminate|].
  destruct (String.eqb k k1); [discriminate | apply IH, H].
Qed.

(** The dict comprehension of [_filter_jsonb], key by key. *)
Lemma filter_items_fold_lookup (o acc : pydict) (ks : list string) (k : string) :
  NoDup (keys o) ->
  dict_lookup (fold_left (fun acc kv => if str_mem (fst kv) ks then dict_set acc (fst kv) (snd kv) else acc)
                         o acc) k =
  match dict_lookup o k with
  | Some v => if str_mem k ks then Some v else dict_lookup acc k
  | None => dict_lookup acc k
  end.
Proof.
  revert acc. induction o as [|[k1 v1] o IH]; intros acc Hnd; simpl; [reflexivity|].
  inversion Hnd as [|? ? Hn1 Hnd']; subst.
  rewrite IH by exact Hnd'. cbn [fst snd].
  destruct (String.eqb_spec k k1) as [->|Hne].
  - rewrite dict_lookup_notin by exact Hn1.
    destruct (str_mem k1 ks); [rewrite dict_lookup_set, String.eqb_refl|]; reflexivity.
  - assert (Hacc : dict_lookup (if str_mem k1 ks then dict_set acc k1 v1 else acc) k = dict_lookup acc k).
    { destruct (str_mem k1 ks); [|reflexivity].
      rewrite dict_lookup_set. destruct (String.eqb_spec k k1); [contradiction | reflexivity]. }
    destruct (dict_lookup o k); [destruct (str_mem k ks)|]; congruence.
Qed.

Lemma filter_items_lookup (o : pydict) (ks : list string) (k : string) :
  NoDup (keys o) ->
  dict_lookup (filter_items o ks) k =
  if str_mem k ks then dict_lookup o k else None.
Proof.
  intros Hnd. unfold filter_items. rewrite filter_items_fold_lookup by exact Hnd.
  destruct (dict_lookup o k); destruct (str_mem k ks); reflexivity.
Qed.

Lemma filter_items_keys (o : pydict) (ks : list string) (k : string) :
  In k (keys (filter_items o ks)) -> In k ks.
Proof.
  unfold filter_items.
  assert (Hgen : forall acc, (forall x, In x (keys acc) -> In x ks) ->
            forall x, In x (keys (fold_left (fun acc kv => if str_mem (fst kv) ks
                                   then dict_set acc (fst kv) (snd kv) else acc) o acc)) -> In x ks).
  { induction o as [|[k1 v1] o IH]; intros acc Hacc x; simpl; [apply Hacc|].
    apply IH. intros y Hy. cbn [fst snd] in Hy.
    destruct (str_mem k1 ks) eqn:Hm; [|apply Hacc, Hy].
    destruct (keys_dict_set _ _ _ _ Hy) as [->|Hy'];
      [apply str_mem_In, Hm | apply Hacc, Hy']. }
  apply Hgen. simpl. tauto.
Qed.

(** ** Masking: the per-group loop *)

Lemma gate_group_keys (T : string) (d r r' : pydict) (g k : string) tm :
  gate_group T d r g tm = Some r' -> In k (keys r') ->
  In k (keys r) \/ k = g \/ k = gated_key g.
Proof.
  unfold gate_group.
  destruct (String.eqb T "free" && str_mem g HIDDEN_FOR_FREE);
  [|destruct (String.eqb T "starter" && str_mem g HIDDEN_FOR_STARTER);
    [|destruct (allowed_for tm T) as [ks|];
      [destruct (filter_jsonb (dict_get d g) (Some ks)) as [fb|];
       [destruct (truthy (dict_get d g) && has_extra_keys (dict_get d g) ks)|]|]]];
  intros H Hk; inversion H; subst; clear H;
  repeat match goal with
  | Hk : In _ (keys (dict_set _ _ _)) |- _ => apply keys_dict_set in Hk; destruct Hk as [Hk|Hk]
  end; tauto.
Qed.

Lemma gate_group_other (T : string) (d r r' : pydict) (g k : string) tm :
  gate_group T d r g tm = Some r' -> k <> g -> k <> gated_key g ->
  dict_lookup r' k = dict_lookup r k.
Proof.
  intros H Hg Hgk.
  assert (E1 : String.eqb k g = false) by (apply String.eqb_neq; exact Hg).
  assert (E2 : String.eqb k (gated_key g) = false) by (apply String.eqb_neq; exact Hgk).
  unfold gate_group in H.
  destruct (String.eqb T "free" && str_mem g HIDDEN_FOR_FREE);
  [|destruct (String.eqb T "starter" && str_mem g HIDDEN_FOR_STARTER);
    [|destruct (allowed_for tm T) as [ks|];
      [destruct (filter_jsonb (dict_get d g) (Some ks)) as [fb|];
       [destruct (truthy (dict_get d g) && has_extra_keys (dict_get d g) ks)|]|]]];
  inversion H; subst; clear H; rewrite ?dict_lookup_set, ?E1, ?E2; reflexivity.
Qed.

Lemma gate_groups_app (T : string) (d r : pydict) l1 l2 :
  gate_groups T d r (l1 ++ l2) =
  match gate_groups T d r l1 with Some r1 => gate_groups T d r1 l2 | None => None end.
Proof.
  revert r. induction l1 as [|[g tm] l1 IH]; intros r; simpl; [reflexivity|].
  destruct (gate_group T d r g tm); [apply IH | reflexivity].
Qed.

Lemma gate_groups_keys (T : string) (d : pydict) gs :
  forall r r' k, gate_groups T d r gs = Some r' -> In k (keys r') ->
  In k (keys r) \/ exists g tm, In (g, tm) gs /\ (k = g \/ k = gated_key g).
Proof.
  induction gs as [|[g tm] gs IH]; intros r r' k H Hk; simpl in H.
  - inversion H; subst. tauto.
  - destruct (gate_group T d r g tm) as [r1|] eqn:E; [|discriminate].
    destruct (IH _ _ _ H Hk) as [Hk1|(g' & tm' & Hin & Hg')].
    + destruct (gate_group_keys _ _ _ _ _ _ _ E Hk1) as [?|?]; [tauto|].
      right. exists g, tm. simpl. tauto.
    + right. exists g', tm'. simpl. tauto.
Qed.

Lemma gate_groups_other (T : string) (d : pydict) gs :
  forall r r' k, gate_groups T d r gs = Some r' ->
  (forall g tm, In (g, tm) gs -> k <> g /\ k <> gated_key g) ->
  dict_lookup r' k = dict_lookup r k.
Proof.
  induction gs as [|[g tm] gs IH]; intros r r' k H Hk; simpl in H.
  - inversion H; subst. reflexivity.
  - destruct (gate_group T d r g tm) as [r1|] eqn:E; [|discriminate].
    rewrite (IH _ _ _ H) by (intros g' tm' Hin; apply (Hk g' tm'); simpl; tauto).
    destruct (Hk g tm) as [H1 H2]; [simpl; tauto|].
    exact (gate_group_other _ _ _ _ _ _ _ E H1 H2).
Qed.

Lemma copy_always_visible_keys (d : pydict) (k : string) :
  In k (keys (copy_always_visible d)) -> In k ALWAYS_VISIBLE.
Proof.
  unfold copy_always_visible.
  assert (Hgen : forall l acc, In k (keys (fold_left (fun r key => dict_set r key (dict_get d key)) l acc)) ->
                               In k (keys acc) \/ In k l).
  { induction l as [|x l IH]; intros acc Hk; cbn [fold_left] in Hk; [left; exact Hk|].
    destruct (IH _ Hk) as [H|H]; [|right; right; exact H].
    destruct (keys_dict_set _ _ _ _ H) as [->|H']; [right; left; reflexivity | left; exact H']. }
  intros Hk. destruct (Hgen _ _ Hk) as [H|H]; [contradiction | exact H].
Qed.

(** The names of the output: [ALWAYS_VISIBLE], the group names and their
    [_gated] flags are pairwise distinct. *)
Lemma group_names_nodup : NoDup group_names.
Proof.
  unfold group_names. cbn.
  repeat constructor; cbn; intuition discriminate.
Qed.

Lemma gated_key_not_group (g g' : string) :
  In g group_names -> In g' group_names -> gated_key g <> g'.
Proof.
  assert (Hb : forallb (fun g => forallb (fun g' => negb (String.eqb (gated_key g) g')) group_names)
                       group_names = true) by (vm_compute; reflexivity).
  intros Hg Hg' E. rewrite forallb_forall in Hb. specialize (Hb g Hg).
  rewrite forallb_forall in Hb. specialize (Hb g' Hg').
  rewrite E, String.eqb_refl in Hb. discriminate.
Qed.

Lemma gated_key_inj (g g' : string) :
  In g group_names -> In g' group_names -> gated_key g = gated_key g' -> g = g'.
Proof.
  assert (Hb : forallb (fun g => forallb (fun g' => implb (String.eqb (gated_key g) (gated_key g'))
                                                           (String.eqb g g')) group_names)
                       group_names = true) by (vm_compute; reflexivity).
  intros Hg Hg' E. rewrite forallb_forall in Hb. specialize (Hb g Hg).
  rewrite forallb_forall in Hb. specialize (Hb g' Hg').
  rewrite E, String.eqb_refl in Hb. apply String.eqb_eq. exact Hb.
Qed.

Lemma gated_key_not_visible (g : string) :
  In g group_names -> ~ In (gated_key g) ALWAYS_VISIBLE.
Proof.
  assert (Hb : forallb (fun g => negb (str_mem (gated_key g) ALWAYS_VISIBLE)) group_names = true)
    by (vm_compute; reflexivity).
  intros Hg Hin. rewrite forallb_forall in Hb. specialize (Hb g Hg).
  apply str_mem_In in Hin. rewrite Hin in Hb. discriminate.
Qed.

Lemma group_name_in (g : string) tm : In (g, tm) FIELD_GATING -> In g group_names.
Proof. intros H. unfold group_names. apply (in_map fst _ _ H). Qed.

(** The value of a group (and of its flag) in the output of
    [mask_domain_by_tier] is the one set by that group's own iteration. *)
Lemma mask_decompose (d : pydict) (t : string) (r : pydict) (g : string) tm :
  mask_domain_by_tier d t = Some r -> In (g, tm) FIELD_GATING ->
  exists r1 r2, gate_group (effective_tier t) d r1 g tm = Some r2 /\
    dict_lookup r1 (gated_key g) = None /\
    dict_lookup r g = dict_lookup r2 g /\
    dict_lookup r (gated_key g) = dict_lookup r2 (gated_key g).
Proof.
  intros H Hin.
  pose proof (group_name_in _ _ Hin) as Hg.
  destruct (in_split _ _ Hin) as (pre & post & Hsplit).
  pose proof group_names_nodup as Hnd. unfold group_names in Hnd.
  rewrite Hsplit, map_app in Hnd. cbn [map fst] in Hnd.
  apply NoDup_remove_2 in Hnd. rewrite in_app_iff in Hnd.
  assert (Hpre : forall g' tm', In (g', tm') pre -> In g' group_names /\ g' <> g).
  { intros g' tm' H'. split.
    - apply (group_name_in _ tm'). rewrite Hsplit. apply in_or_app. tauto.
    - intros ->. apply Hnd. left. apply (in_map fst _ _ H'). }
  assert (Hpost : forall g' tm', In (g', tm') post -> In g' group_names /\ g' <> g).
  { intros g' tm' H'. split.
    - apply (group_name_in _ tm'). rewrite Hsplit. apply in_or_app. simpl. tauto.
    - intros ->. apply Hnd. right. apply (in_map fst _ _ H'). }
  unfold mask_domain_by_tier in H. rewrite Hsplit, gate_groups_app in H.
  destruct (gate_groups _ d _ pre) as [r1|] eqn:E1; [|discriminate].
  simpl in H. destruct (gate_group _ d r1 g tm) as [r2|] eqn:E2; [|discriminate].
  exists r1, r2. split; [exact E2|]. split; [|split].
  - apply dict_lookup_notin. intros Hk.
    destruct (gate_groups_keys _ _ _ _ _ _ E1 Hk) as [Hav|(g' & tm' & Hin' & [Heq|Heq])].
    + exact (gated_key_not_visible _ Hg (copy_always_visible_keys _ _ Hav)).
    + destruct (Hpre _ _ Hin'). exact (gated_key_not_group _ _ Hg (proj1 (Hpre _ _ Hin')) Heq).
    + destruct (Hpre _ _ Hin') as [Hg' Hne]. apply Hne. symmetry.
      exact (gated_key_inj _ _ Hg Hg' Heq).
  - apply (gate_groups_other _ _ _ _ _ _ H). intros g' tm' Hin'.
    destruct (Hpost _ _ Hin') as [Hg' Hne]. split.
    + intros ->. apply Hne. reflexivity.
    + intros Heq. exact (gated_key_not_group _ _ Hg' Hg (eq_sym Heq)).
  - apply (gate_groups_other _ _ _ _ _ _ H). intros g' tm' Hin'.
    destruct (Hpost _ _ Hin') as [Hg' Hne]. split.
    + exact (gated_key_not_group _ _ Hg Hg').
    + intros Heq. apply Hne. symmetry. exact (gated_key_inj _ _ Hg Hg' Heq).
Qed.

(** ** Masking: the three cases of a group *)

Lemma nodupb_NoDup (l : list string) : nodupb l = true -> NoDup l.
Proof.
  induction l as [|x l IH]; simpl; intros H; [constructor|].
  apply andb_true_iff in H as [Hx Hl]. constructor; [|apply IH, Hl].
  intros Hin. apply str_mem_In in Hin. rewrite Hin in Hx. discriminate.
Qed.

Lemma has_extra_keys_spec (blob : jvalue) (ks : list string) :
  has_extra_keys blob ks = true <-> extra_key blob ks.
Proof.
  destruct blob as [| | | | |o]; simpl; try (split; [discriminate | tauto]).
  rewrite existsb_exists. split.
  - intros (k & Hk & Hm). exists k. split; [exact Hk|].
    intros Hin. apply str_mem_In in Hin. rewrite Hin in Hm. discriminate.
  - intros (k & Hk & Hn). exists k. split; [exact Hk|].
    destruct (str_mem k ks) eqn:E; [|reflexivity]. apply str_mem_In in E. contradiction.
Qed.

Lemma has_extra_keys_truthy (blob : jvalue) (ks : list string) :
  has_extra_keys blob ks = true -> truthy blob = true.
Proof. destruct blob as [| | | | |[|kv o]]; simpl; congruence. Qed.

Lemma gate_group_some (T : string) (d r : pydict) (g : string) tm :
  group_blob_ok (dict_get d g) = true -> exists r', gate_group T d r g tm = Some r'.
Proof.
  intros Hok. unfold gate_group.
  destruct (String.eqb T "free" && str_mem g HIDDEN_FOR_FREE); [eexists; reflexivity|].
  destruct (String.eqb T "starter" && str_mem g HIDDEN_FOR_STARTER); [eexists; reflexivity|].
  destruct (allowed_for tm T) as [ks|]; [|eexists; reflexivity].
  destruct (dict_get d g); simpl in Hok |- *; try discriminate;
    [|destruct (negb _ && _)]; eexists; reflexivity.
Qed.

Lemma gate_groups_some (T : string) (d : pydict) gs :
  forall r, (forall g tm, In (g, tm) gs -> group_blob_ok (dict_get d g) = true) ->
  exists r', gate_groups T d r gs = Some r'.
Proof.
  induction gs as [|[g tm] gs IH]; intros r Hok; simpl; [eexists; reflexivity|].
  destruct (gate_group_some T d r g tm) as [r1 E]; [apply (Hok g tm); simpl; tauto|].
  rewrite E. apply IH. intros g' tm' Hin. apply (Hok g' tm'). simpl. tauto.
Qed.

Lemma effective_tier_known (t : string) : tier_known t = true -> effective_tier t = t.
Proof.
  unfold tier_known, TIER_LIMITS. cbn [assoc]. intros H.
  repeat match type of H with
  | context [String.eqb t ?s] => destruct (String.eqb_spec t s); [subst; reflexivity|]
  end.
  discriminate.
Qed.

Lemma gated_key_neq (g : string) : In g group_names -> g <> gated_key g.
Proof. intros Hg E. exact (gated_key_not_group g g Hg Hg (eq_sym E)). Qed.

(** C2: for a known tier and a record whose field groups hold dicts or
    null, [mask_domain_by_tier] returns a record in which each declared
    field group falls in exactly one of three cases: hidden at this tier
    (value None, flag [<group>_gated] true); gated by an allow-list (only the
    allow-listed sub-keys present in the source, flag true exactly when the
    source has a key outside the allow-list, absent otherwise); or fully
    visible (the source blob unchanged, no flag). *)
Theorem mask_group_cases (d : pydict) (t : string) :
  tier_known t = true -> wf_recordb d = true ->
  exists r, mask_domain_by_tier d t = Some r /\
  forall g tm, In (g, tm) FIELD_GATING ->
    let blob := dict_get d g in
    if hidden_at t g then
      dict_lookup r g = Some JNull /\ dict_lookup r (gated_key g) = Some (JBool true)
    else
      match allowed_for tm t with
      | Some ks =>
          (exists out, dict_lookup r g = Some out /\ allow_list_projection blob out ks) /\
          ((dict_lookup r (gated_key g) = Some (JBool true) /\ extra_key blob ks) \/
           (dict_lookup r (gated_key g) = None /\ ~ extra_key blob ks))
      | None =>
          dict_lookup r g = Some blob /\ dict_lookup r (gated_key g) = None
      end.
Proof.
  intros Hk Hwf.
  assert (Hok : forall g tm, In (g, tm) FIELD_GATING -> group_blob_ok (dict_get d g) = true).
  { intros g tm Hin. unfold wf_recordb in Hwf. rewrite forallb_forall in Hwf.
    exact (Hwf (g, tm) Hin). }
  destruct (gate_groups_some (effective_tier t) d FIELD_GATING (copy_always_visible d) Hok)
    as [r Hr].
  exists r. split; [exact Hr|].
  intros g tm Hin blob.
  pose proof (gated_key_neq g (group_name_in _ _ Hin)) as Hne.
  assert (E1 : String.eqb g (gated_key g) = false) by (apply String.eqb_neq; exact Hne).
  assert (E2 : String.eqb (gated_key g) g = false)
    by (apply String.eqb_neq; intros E; apply Hne; symmetry; exact E).
  destruct (mask_decompose d t r g tm Hr Hin) as (r1 & r2 & Hstep & Hnone & -> & ->).
  rewrite (effective_tier_known t Hk) in Hstep.
  specialize (Hok g tm Hin).
  unfold gate_group, hidden_at in *.
  destruct (String.eqb t "free" && str_mem g HIDDEN_FOR_FREE).
  { inversion Hstep; subst. rewrite !dict_lookup_set, E1, E2, !String.eqb_refl. split; reflexivity. }
  destruct (String.eqb t "starter" && str_mem g HIDDEN_FOR_STARTER).
  { inversion Hstep; subst. rewrite !dict_lookup_set, E1, E2, !String.eqb_refl. split; reflexivity. }
  cbn [orb].
  destruct (allowed_for tm t) as [ks|].
  - subst blob. destruct (dict_get d g) as [| | | | |o]; simpl in Hok; try discriminate.
    + simpl in Hstep. inversion Hstep; subst.
      rewrite !dict_lookup_set, E2, String.eqb_refl. split.
      * exists JNull. split; reflexivity.
      * right. split; [exact Hnone | simpl; tauto].
    + cbn [filter_jsonb] in Hstep.
      split.
      * exists (JObj (filter_items o ks)). split.
        -- destruct (truthy (JObj o) && has_extra_keys (JObj o) ks); inversion Hstep; subst;
             rewrite !dict_lookup_set, ?E1, String.eqb_refl; reflexivity.
        -- exists (filter_items o ks). split; [reflexivity|].
           intros k. apply filter_items_lookup, nodupb_NoDup, Hok.
      * destruct (has_extra_keys (JObj o) ks) eqn:Hx.
        -- rewrite (has_extra_keys_truthy _ _ Hx) in Hstep. simpl in Hstep.
           inversion Hstep; subst. left.
           rewrite dict_lookup_set, String.eqb_refl. split; [reflexivity|].
           apply has_extra_keys_spec, Hx.
        -- rewrite andb_false_r in Hstep. inversion Hstep; subst. right.
           rewrite dict_lookup_set, E2. split; [exact Hnone|].
           rewrite <- has_extra_keys_spec, Hx. discriminate.
  - inversion Hstep; subst.
    rewrite !dict_lookup_set, E2, String.eqb_refl. split; [reflexivity | exact Hnone].
Qed.

Lemma mask_group_cases_witness :
  (tier_known "free" = true /\ wf_recordb sample_domain = true) /\
  exists r, mask_domain_by_tier sample_domain "free" = Some r /\
  forall g tm, In (g, tm) FIELD_GATING ->
    let blob := dict_get sample_domain g in
    if hidden_at "free" g then
      dict_lookup r g = Some JNull /\ dict_lookup r (gated_key g) = Some (JBool true)
    else
      match allowed_for tm "free" with
      | Some ks =>
          (exists out, dict_lookup r g = Some out /\ allow_list_projection blob out ks) /\
          ((dict_lookup r (gated_key g) = Some (JBool true) /\ extra_key blob ks) \/
           (dict_lookup r (gated_key g) = None /\ ~ extra_key blob ks))
      | None =>
          dict_lookup r g = Some blob /\ dict_lookup r (gated_key g) = None
      end.
Proof.
  split; [split; vm_compute; reflexivity|].
  apply (mask_group_cases sample_domain "free"); vm_compute; reflexivity.
Defined.

(** C3: whatever the tier string, every key of a record returned by
    [mask_domain_by_tier] is an always-visible field, a declared field
    group or the [<group>_gated] flag of one; the value of a group that
    has an allow-list at the effective tier is None or a dict whose keys
    all lie in that allow-list; so a key of the input outside this declared
    set never reaches the output. *)
Theorem mask_keys_declared (d : pydict) (t : string) (r : pydict) :
  mask_domain_by_tier d t = Some r ->
  (forall k, In k (keys r) ->
     In k ALWAYS_VISIBLE \/
     exists g tm, In (g, tm) FIELD_GATING /\ (k = g \/ k = gated_key g)) /\
  (forall g tm ks, In (g, tm) FIELD_GATING -> allowed_for tm (effective_tier t) = Some ks ->
     dict_lookup r g = Some JNull \/
     exists o', dict_lookup r g = Some (JObj o') /\ forall k, In k (keys o') -> In k ks) /\
  (forall k, In k (keys d) -> ~ In k ALWAYS_VISIBLE ->
     (forall g tm, In (g, tm) FIELD_GATING -> k <> g /\ k <> gated_key g) ->
     ~ In k (keys r)).
Proof.
  intros Hr.
  assert (Hkeys : forall k, In k (keys r) ->
            In k ALWAYS_VISIBLE \/
            exists g tm, In (g, tm) FIELD_GATING /\ (k = g \/ k = gated_key g)).
  { intros k Hk. unfold mask_domain_by_tier in Hr.
    destruct (gate_groups_keys _ _ _ _ _ _ Hr Hk) as [H|H].
    - left. exact (copy_always_visible_keys _ _ H).
    - right. exact H. }
  split; [exact Hkeys|]. split.
  - intros g tm ks Hin Hks.
    pose proof (gated_key_neq g (group_name_in _ _ Hin)) as Hne.
    assert (E1 : String.eqb g (gated_key g) = false) by (apply String.eqb_neq; exact Hne).
    destruct (mask_decompose d t r g tm Hr Hin) as (r1 & r2 & Hstep & _ & -> & _).
    unfold gate_group in Hstep. rewrite Hks in Hstep.
    destruct (String.eqb (effective_tier t) "free" && str_mem g HIDDEN_FOR_FREE).
    { inversion Hstep; subst. left. rewrite !dict_lookup_set, E1, String.eqb_refl. reflexivity. }
    destruct (String.eqb (effective_tier t) "starter" && str_mem g HIDDEN_FOR_STARTER).
    { inversion Hstep; subst. left. rewrite !dict_lookup_set, E1, String.eqb_refl. reflexivity. }
    destruct (dict_get d g) as [| | | | |o]; cbn [filter_jsonb] in Hstep; try discriminate.
    + simpl in Hstep. inversion Hstep; subst. left.
      rewrite dict_lookup_set, String.eqb_refl. reflexivity.
    + right. exists (filter_items o ks). split.
      * destruct (truthy (JObj o) && has_extra_keys (JObj o) ks); inversion Hstep; subst;
          rewrite !dict_lookup_set, ?E1, String.eqb_refl; reflexivity.
      * intros k. apply filter_items_keys.
  - intros k _ Hav Hgrp Hk.
    destruct (Hkeys k Hk) as [H|(g & tm & Hin & [ -> | -> ])].
    + exact (Hav H).
    + exact (proj1 (Hgrp _ _ Hin) eq_refl).
    + exact (proj2 (Hgrp _ _ Hin) eq_refl).
Qed.

Lemma mask_keys_declared_witness :
  mask_domain_by_tier sample_domain "Starter" = Some masked_sample_starter /\
  (forall k, In k (keys masked_sample_starter) ->
     In k ALWAYS_VISIBLE \/
     exists g tm, In (g, tm) FIELD_GATING /\ (k = g \/ k = gated_key g)) /\
  (forall g tm ks, In (g, tm) FIELD_GATING -> allowed_for tm (effective_tier "Starter") = Some ks ->
     dict_lookup masked_sample_starter g = Some JNull \/
     exists o', dict_lookup masked_sample_starter g = Some (JObj o') /\ forall k, In k (keys o') -> In k ks) /\
  (forall k, In k (keys sample_domain) -> ~ In k ALWAYS_VISIBLE ->
     (forall g tm, In (g, tm) FIELD_GATING -> k <> g /\ k <> gated_key g) ->
     ~ In k (keys masked_sample_starter)).
Proof.
  assert (H : mask_domain_by_tier sample_domain "Starter" = Some masked_sample_starter)
    by (vm_compute; reflexivity).
  split; [exact H|].
  apply (mask_keys_declared sample_domain "Starter" masked_sample_starter).
  vm_compute. reflexivity.
Defined.

(* ========================================================================= *)
(** * Properties of the further code *)

Ltac zcmp :=
  repeat match goal with
  | H : (_ >=? _) = _ |- _ => rewrite Z.geb_leb in H
  | H : (_ >? _) = _ |- _ => rewrite Z.gtb_ltb in H
  | H : (_ <=? _) = true |- _ => apply Z.leb_le in H
  | H : (_ <=? _) = false |- _ => apply Z.leb_gt in H
  | H : (_ <? _) = true |- _ => apply Z.ltb_lt in H
  | H : (_ <? _) = false |- _ => apply Z.ltb_ge in H
  end.

Ltac split_ifs :=
  repeat match goal with
  | |- context [if ?b then _ else _] => destruct b eqn:?
  | H : context [if ?b then _ else _] |- _ => destruct b eqn:?
  end.

(** ** TierGate checks *)

(** Row limit: 403 exactly when the tier has a row limit and the request
    exceeds it. *)
Theorem check_row_limit_spec (t : string) (requested : Z) :
  let g := make_gate t in
  match max_rows_per_view (limits g) with
  | Some limit =>
      (requested > limit -> exists d, check_row_limit g requested = HTTPError 403 d /\
                                      dict_lookup d "code" = Some (JStr "row_limit_exceeded")) /\
      (requested <= limit -> check_row_limit g requested = Pass)
  | None => check_row_limit g requested = Pass
  end.
Proof.
  intros g. unfold check_row_limit.
  destruct (max_rows_per_view (limits g)) as [limit|]; [|reflexivity].
  split; intros H.
  - destruct (requested >? limit) eqn:E; zcmp; [|lia]. eexists. split; reflexivity.
  - destruct (requested >? limit) eqn:E; zcmp; [lia | reflexivity].
Qed.

Lemma rank_cases (t : string) (i : nat) :
  tier_rank t = Some i ->
  (lower t = "free" /\ i = 0%nat) \/ (lower t = "starter" /\ i = 1%nat) \/
  (lower t = "professional" /\ i = 2%nat) \/ (lower t = "business" /\ i = 3%nat) \/
  (lower t = "enterprise" /\ i = 4%nat).
Proof.
  unfold tier_rank, TIER_LIMITS. cbn [index_of]. intros H.
  repeat match type of H with
  | context [String.eqb (lower t) ?s] =>
      destruct (String.eqb_spec (lower t) s) as [E|]; [cbn in H; inversion H; subst; tauto|]
  end.
  discriminate.
Qed.

Lemma make_gate_limits (t : string) :
  limits (make_gate t) = match assoc TIER_LIMITS (lower t) with Some l => l | None => free_limits end.
Proof. reflexivity. Qed.

(** Alert limit: the free tier (limit 0) refuses every alert creation,
    business and enterprise (no limit) refuse none, and otherwise a count
    at or above the limit is refused. *)
Theorem check_alert_limit_spec (t : string) (n : Z) :
  let g := make_gate t in
  (0 <= n -> tier_rank t = Some 0%nat ->
   exists d, check_alert_limit g n = HTTPError 403 d) /\
  (forall i, tier_rank t = Some i -> (3 <= i)%nat -> check_alert_limit g n = Pass) /\
  (forall limit, max_alerts (limits g) = Some limit ->
     (check_alert_limit g n = Pass <-> n < limit)).
Proof.
  intros g. split; [|split].
  - intros Hn Hr. destruct (rank_cases _ _ Hr) as [[E _]|[[_ E]|[[_ E]|[[_ E]|[_ E]]]]];
      try discriminate.
    unfold g, check_alert_limit. rewrite make_gate_limits, E. cbn.
    destruct (n >=? 0) eqn:E'; zcmp; [eexists; reflexivity | lia].
  - intros i Hr Hi. unfold g, check_alert_limit. rewrite make_gate_limits.
    destruct (rank_cases _ _ Hr) as [[E ?]|[[E ?]|[[E ?]|[[E ?]|[E ?]]]]]; subst; try lia;
      rewrite E; reflexivity.
  - intros limit Hl. unfold check_alert_limit. rewrite Hl.
    destruct (n >=? limit) eqn:E; zcmp; split; intros; try discriminate; try lia; reflexivity.
Qed.

(** The page size a route uses never exceeds the tier's row limit, so it
    always passes [check_row_limit]; a positive request within the limit is
    kept as it is, and a non-positive one is replaced by the default. *)
Theorem clamp_page_size_within_limit (t : string) (requested default : Z) :
  let g := make_gate t in
  check_row_limit g (clamp_page_size g requested default) = Pass /\
  (forall limit, max_rows_per_view (limits g) = Some limit ->
     clamp_page_size g requested default <= limit) /\
  (0 < requested -> (forall limit, max_rows_per_view (limits g) = Some limit -> requested <= limit) ->
     clamp_page_size g requested default = requested) /\
  (requested <= 0 -> (forall limit, max_rows_per_view (limits g) = Some limit -> default <= limit) ->
     clamp_page_size g requested default = default).
Proof.
  intros g. unfold check_row_limit, clamp_page_size.
  destruct (max_rows_per_view (limits g)) as [limit|].
  - split; [|split; [|split]].
    + destruct (Z.min _ limit >? limit) eqn:E; zcmp; [lia | reflexivity].
    + intros l' [= <-]. lia.
    + intros Hp Hl. specialize (Hl limit eq_refl).
      destruct (requested >? 0) eqn:E; zcmp; lia.
    + intros Hp Hl. specialize (Hl limit eq_refl).
      destruct (requested >? 0) eqn:E; zcmp; lia.
  - split; [reflexivity|]. split; [discriminate|]. split.
    + intros Hp _. destruct (requested >? 0) eqn:E; zcmp; lia.
    + intros Hp _. destruct (requested >? 0) eqn:E; zcmp; lia.
Qed.

(** Upgrading never takes anything away: for tiers in catalogue order,
    every quota check and feature flag that passes at a lower tier passes
    at a higher one, and the clamped page size does not shrink. *)
Theorem tier_gate_monotone (t1 t2 : string) (i j : nat) :
  tier_rank t1 = Some i -> tier_rank t2 = Some j -> (i <= j)%nat ->
  let g1 := make_gate t1 in
  let g2 := make_gate t2 in
  (forall used, check_lookup_quota g1 used = Pass -> check_lookup_quota g2 used = Pass) /\
  (forall used req, check_export_credits g1 used req = Pass -> check_export_credits g2 used req = Pass) /\
  (forall req, check_row_limit g1 req = Pass -> check_row_limit g2 req = Pass) /\
  (forall n, check_alert_limit g1 n = Pass -> check_alert_limit g2 n = Pass) /\
  (forall f, In f FEATURE_FLAGS -> require_feature g1 f = Pass -> require_feature g2 f = Pass) /\
  (forall req def, clamp_page_size g1 req def <= clamp_page_size g2 req def).
Proof.
  intros H1 H2 Hij g1 g2.
  assert (Hg1 : g1 = {| gate_tier := lower t1;
                        limits := match assoc TIER_LIMITS (lower t1) with Some l => l | None => free_limits end |})
    by reflexivity.
  assert (Hg2 : g2 = {| gate_tier := lower t2;
                        limits := match assoc TIER_LIMITS (lower t2) with Some l => l | None => free_limits end |})
    by reflexivity.
  rewrite Hg1, Hg2. clear Hg1 Hg2 g1 g2.
  destruct (rank_cases _ _ H1) as [[E1 ?]|[[E1 ?]|[[E1 ?]|[[E1 ?]|[E1 ?]]]]];
  destruct (rank_cases _ _ H2) as [[E2 ?]|[[E2 ?]|[[E2 ?]|[[E2 ?]|[E2 ?]]]]];
  subst; try lia; rewrite E1, E2;
  unfold check_lookup_quota, check_export_credits, check_row_limit, check_alert_limit,
    require_feature, clamp_page_size; cbn [assoc String.eqb Ascii.eqb Bool.eqb limits];
  (split; [|split; [|split; [|split; [|split]]]]);
  try (intros f Hf; simpl in Hf;
       repeat (destruct Hf as [<-|Hf]; [cbn; congruence|]); contradiction);
  intros; cbn in *; split_ifs; zcmp; try discriminate; try reflexivity; try lia.
Qed.

Lemma tier_gate_monotone_witness :
  (tier_rank "Starter" = Some 1%nat /\ tier_rank "business" = Some 3%nat /\ (1 <= 3)%nat) /\
  (forall used, check_lookup_quota (make_gate "Starter") used = Pass ->
                check_lookup_quota (make_gate "business") used = Pass).
Proof.
  split; [split; [reflexivity | split; [reflexivity | lia]]|].
  exact (proj1 (tier_gate_monotone "Starter" "business" 1 3 eq_refl eq_refl ltac:(lia))).
Defined.

(** ** Masking across tiers *)

Lemma effective_tier_rank (t : string) (i : nat) :
  tier_rank t = Some i -> effective_tier t = lower t.
Proof.
  intros H. unfold effective_tier.
  destruct (rank_cases _ _ H) as [[E _]|[[E _]|[[E _]|[[E _]|[E _]]]]]; rewrite E; reflexivity.
Qed.

Lemma mask_subvalue (d : pydict) (t : string) (r : pydict) (g : string) tm (k : string) :
  mask_domain_by_tier d t = Some r -> In (g, tm) FIELD_GATING ->
  group_blob_ok (dict_get d g) = true ->
  group_subvalue r g k =
  if key_visible (effective_tier t) g tm k then src_subvalue (dict_get d g) k else None.
Proof.
  intros Hr Hin Hok.
  pose proof (gated_key_neq g (group_name_in _ _ Hin)) as Hne.
  assert (E1 : String.eqb g (gated_key g) = false) by (apply String.eqb_neq; exact Hne).
  destruct (mask_decompose d t r g tm Hr Hin) as (r1 & r2 & Hstep & _ & Hg & _).
  unfold group_subvalue. rewrite Hg.
  unfold gate_group in Hstep. unfold key_visible, hidden_at.
  destruct (String.eqb (effective_tier t) "free" && str_mem g HIDDEN_FOR_FREE).
  { inversion Hstep; subst. rewrite !dict_lookup_set, E1, String.eqb_refl. reflexivity. }
  destruct (String.eqb (effective_tier t) "starter" && str_mem g HIDDEN_FOR_STARTER).
  { inversion Hstep; subst. rewrite !dict_lookup_set, E1, String.eqb_refl. reflexivity. }
  cbn [orb negb andb].
  destruct (allowed_for tm (effective_tier t)) as [ks|].
  - destruct (dict_get d g) as [| | | | |o]; simpl in Hok; try discriminate.
    + simpl in Hstep. inversion Hstep; subst.
      rewrite dict_lookup_set, String.eqb_refl. destruct (str_mem k ks); reflexivity.
    + cbn [filter_jsonb] in Hstep.
      assert (Hv : dict_lookup r2 g = Some (JObj (filter_items o ks))).
      { destruct (truthy (JObj o) && has_extra_keys (JObj o) ks); inversion Hstep; subst;
          rewrite !dict_lookup_set, ?E1, String.eqb_refl; reflexivity. }
      rewrite Hv. rewrite filter_items_lookup by (apply nodupb_NoDup, Hok). reflexivity.
  - inversion Hstep; subst. rewrite dict_lookup_set, String.eqb_refl.
    destruct (dict_get d g); reflexivity.
Qed.

Lemma vis_le_key_visible (T1 T2 g : string) tm (k : string) :
  vis_le T1 T2 g tm = true -> key_visible T1 g tm k = true -> key_visible T2 g tm k = true.
Proof.
  unfold vis_le, key_visible.
  destruct (hidden_at T1 g); [discriminate|]. cbn.
  destruct (hidden_at T2 g); [discriminate|]. cbn.
  destruct (allowed_for tm T1) as [ks1|], (allowed_for tm T2) as [ks2|]; try discriminate; auto.
  intros Hincl Hk. rewrite forallb_forall in Hincl. apply Hincl, str_mem_In, Hk.
Qed.

Lemma vis_le_catalogue :
  forallb (fun p => forallb (fun tt => vis_le (fst tt) (snd tt) (fst p) (snd p)) ranked_pairs)
          FIELD_GATING = true.
Proof. vm_compute. reflexivity. Qed.

Lemma ranked_pairs_in (t1 t2 : string) (i j : nat) :
  tier_rank t1 = Some i -> tier_rank t2 = Some j -> (i <= j)%nat ->
  In (lower t1, lower t2) ranked_pairs.
Proof.
  intros H1 H2 Hij.
  destruct (rank_cases _ _ H1) as [[E1 ?]|[[E1 ?]|[[E1 ?]|[[E1 ?]|[E1 ?]]]]];
  destruct (rank_cases _ _ H2) as [[E2 ?]|[[E2 ?]|[[E2 ?]|[[E2 ?]|[E2 ?]]]]];
  subst; try lia; rewrite E1, E2; cbn; tauto.
Qed.

(** Upgrading never hides data: for a record whose field groups hold
    dicts or null and tiers in catalogue order, every sub-key of a group
    shown at the lower tier is shown, with the same value, at the higher
    one. *)
Theorem mask_upgrade_keeps_visible (d : pydict) (t1 t2 : string) (i j : nat)
        (r1 r2 : pydict) (g : string) tm (k : string) (v : jvalue) :
  tier_rank t1 = Some i -> tier_rank t2 = Some j -> (i <= j)%nat ->
  wf_recordb d = true ->
  mask_domain_by_tier d t1 = Some r1 -> mask_domain_by_tier d t2 = Some r2 ->
  In (g, tm) FIELD_GATING ->
  group_subvalue r1 g k = Some v -> group_subvalue r2 g k = Some v.
Proof.
  intros H1 H2 Hij Hwf Hr1 Hr2 Hin Hv.
  assert (Hok : group_blob_ok (dict_get d g) = true).
  { unfold wf_recordb in Hwf. rewrite forallb_forall in Hwf. exact (Hwf (g, tm) Hin). }
  rewrite (mask_subvalue _ _ _ _ _ k Hr1 Hin Hok) in Hv.
  rewrite (mask_subvalue _ _ _ _ _ k Hr2 Hin Hok).
  rewrite (effective_tier_rank _ _ H1) in Hv. rewrite (effective_tier_rank _ _ H2).
  destruct (key_visible (lower t1) g tm k) eqn:Ev; [|discriminate].
  pose proof vis_le_catalogue as Hc. rewrite forallb_forall in Hc.
  specialize (Hc (g, tm) Hin). rewrite forallb_forall in Hc.
  specialize (Hc _ (ranked_pairs_in _ _ _ _ H1 H2 Hij)). cbn [fst snd] in Hc.
  rewrite (vis_le_key_visible _ _ _ _ _ Hc Ev). exact Hv.
Qed.

Lemma mask_upgrade_keeps_visible_witness :
  group_subvalue (match mask_domain_by_tier upgrade_sample "free" with Some r => r | None => [] end)
                 "seo_metrics" "domain_rating" = Some (JNum 41) /\
  group_subvalue (match mask_domain_by_tier upgrade_sample "starter" with Some r => r | None => [] end)
                 "seo_metrics" "domain_rating" = Some (JNum 41).
Proof.
  split; [vm_compute; reflexivity|].
  apply (mask_upgrade_keeps_visible upgrade_sample "free" "starter" 0 1
           (match mask_domain_by_tier upgrade_sample "free" with Some r => r | None => [] end)
           _ "seo_metrics"
           [("free", Some ["domain_rating"]);
            ("starter", Some ["domain_rating"; "domain_authority"; "organic_traffic_estimate";
                              "referring_domains_count"; "organic_traffic_trend"]);
            ("professional", None); ("business", None); ("enterprise", None)]);
    try (vm_compute; reflexivity); try lia.
  simpl. tauto.
Defined.

(** ** Stripe events *)

Lemma tier_of_price_cases (p2t : list (string * string)) (price : jvalue) (t : string) :
  tier_of_price p2t price = Some t -> t = "free" \/ exists p, assoc p2t p = Some t.
Proof.
  destruct price; simpl; intros H; inversion H; subst; auto.
  destruct (assoc p2t s) eqn:E; eauto.
Qed.

Lemma checkout_finish_shape (p2t : list (string * string)) (retrieve : jvalue -> option jvalue)
      (data : pydict) (ws_id : jvalue) (ws : Workspace) (db : DB) :
  let db' := snd (checkout_finish p2t retrieve data ws_id ws db) in
  db' = db \/
  exists ws', workspace_id ws' = workspace_id ws /\ owner_id ws' = owner_id ws /\
    (ws_tier ws' = ws_tier ws \/ ws_tier ws' = "free" \/ exists p, assoc p2t p = Some (ws_tier ws')) /\
    db' = commit_ws ws' db.
Proof.
  unfold checkout_finish. cbv zeta.
  destruct (truthy (dict_get data "subscription")).
  - destruct (retrieve (dict_get data "subscription")) as [price|]; [|left; reflexivity].
    destruct (tier_of_price p2t price) as [t|] eqn:Ht; [|left; reflexivity].
    right. exists (ws_set_price ws price t (stripe_subscription_status ws)).
    split; [reflexivity|]. split; [reflexivity|]. split; [|reflexivity].
    right. exact (tier_of_price_cases _ _ _ Ht).
  - right. exists ws. split; [reflexivity|]. split; [reflexivity|]. split; [left; reflexivity | reflexivity].
Qed.

Lemma get_ws_by_id_in (db : DB) (id : N) (ws : Workspace) :
  get_ws_by_id db id = Some ws -> In ws (workspaces db).
Proof. unfold get_ws_by_id. intros H. apply find_some in H. tauto. Qed.

Lemma webhook_step_shape (cap : Z) (p2t : list (string * string))
      (retrieve : jvalue -> option jvalue) (ev : StripeEvent) (now : Z) (db : DB) :
  one_row_change cap p2t db (snd (process_webhook_event cap p2t retrieve ev now db)).
Proof.
  unfold one_row_change, process_webhook_event.
  destruct (String.eqb (ev_type ev) "checkout.session.completed").
  { unfold handle_checkout_completed.
    destruct (resolve_workspace_id (ev_object ev)) as [wid|]; [|left; reflexivity].
    destruct (negb (truthy wid)); [left; reflexivity|].
    destruct (uuid_of wid) as [id|]; [|left; reflexivity].
    destruct (get_ws_by_id db id) as [ws|] eqn:Hg; [|left; reflexivity].
    pose proof (get_ws_by_id_in _ _ _ Hg) as Hin.
    destruct (get_or_empty (ev_object ev) "metadata" "founding_member") as [fm|];
      [|left; reflexivity].
    cbv zeta.
    set (ws1 := ws_checkout ws (dict_get (ev_object ev) "customer")
                  (dict_get (ev_object ev) "subscription")).
    destruct (col_eq fm (JStr "true")); [destruct (get_founding_member_count db <? cap) eqn:Hc|].
    - zcmp. set (ws2 := ws_set_founding ws1).
      destruct (checkout_finish_shape p2t retrieve (ev_object ev) wid ws2
                  (increment_founding_member_count ws2 db)) as [E|(ws' & Hid & Ho & Ht & E)];
        cbv zeta in *; rewrite E; right.
      + exists ws, ws2. split; [exact Hin|]. do 2 (split; [reflexivity|]). split; [left; reflexivity|].
        split; [reflexivity|]. right. split; [reflexivity | exact Hc].
      + exists ws, ws'. split; [exact Hin|]. split; [exact Hid|]. split; [exact Ho|].
        split; [exact Ht|]. cbn. split; [apply write_ws_shadow; exact Hid|].
        right. split; [reflexivity | exact Hc].
    - destruct (checkout_finish_shape p2t retrieve (ev_object ev) wid ws1 db)
        as [E|(ws' & Hid & Ho & Ht & E)]; cbv zeta in *; rewrite E; [left; reflexivity|right].
      exists ws, ws'. do 4 (split; [assumption|]). split; [reflexivity | left; reflexivity].
    - destruct (checkout_finish_shape p2t retrieve (ev_object ev) wid ws1 db)
        as [E|(ws' & Hid & Ho & Ht & E)]; cbv zeta in *; rewrite E; [left; reflexivity|right].
      exists ws, ws'. do 4 (split; [assumption|]). split; [reflexivity | left; reflexivity]. }
  destruct (String.eqb (ev_type ev) "customer.subscription.updated").
  { unfold handle_subscription_updated.
    destruct (first_ws_where db stripe_subscription_id (dict_get (ev_object ev) "id")) as [ws|] eqn:Hf;
      [|left; reflexivity].
    destruct (price_id_of (ev_object ev)) as [price|]; [|left; reflexivity].
    destruct (tier_of_price p2t price) as [t|] eqn:Ht; [|left; reflexivity].
    right. eexists ws, (ws_set_price ws price t _). split; [exact (first_ws_where_in _ _ _ _ Hf)|].
    do 2 (split; [reflexivity|]). split; [right; exact (tier_of_price_cases _ _ _ Ht)|].
    split; [reflexivity | left; reflexivity]. }
  destruct (String.eqb (ev_type ev) "customer.subscription.deleted").
  { unfold handle_subscription_deleted.
    destruct (first_ws_where db stripe_subscription_id (dict_get (ev_object ev) "id")) as [ws|] eqn:Hf;
      [|left; reflexivity].
    right. exists ws, (ws_downgrade ws). split; [exact (first_ws_where_in _ _ _ _ Hf)|].
    do 2 (split; [reflexivity|]). split; [right; left; reflexivity|].
    split; [reflexivity | left; reflexivity]. }
  destruct (String.eqb (ev_type ev) "invoice.paid").
  { unfold handle_invoice_paid.
    destruct (first_ws_where db stripe_customer_id (dict_get (ev_object ev) "customer")) as [ws|] eqn:Hf;
      [|left; reflexivity].
    right. exists ws, (ws_reset_usage ws now). split; [exact (first_ws_where_in _ _ _ _ Hf)|].
    do 2 (split; [reflexivity|]). split; [left; reflexivity|].
    split; [reflexivity | left; reflexivity]. }
  destruct (String.eqb (ev_type ev) "invoice.payment_failed").
  { unfold handle_invoice_payment_failed.
    destruct (first_ws_where db stripe_customer_id (dict_get (ev_object ev) "customer")) as [ws|] eqn:Hf;
      [|left; reflexivity].
    right. exists ws, (ws_set_status ws (JStr "past_due")).
    split; [exact (first_ws_where_in _ _ _ _ Hf)|].
    do 2 (split; [reflexivity|]). split; [left; reflexivity|].
    split; [reflexivity | left; reflexivity]. }
  left. reflexivity.
Qed.

(** Any Stripe event changes at most one workspace row, never its id or
    its owner, and raises the founding-member count by at most one. *)
Theorem webhook_event_touches_one_row (cap : Z) (p2t : list (string * string))
        (retrieve : jvalue -> option jvalue) (ev : StripeEvent) (now : Z) (db : DB) :
  let db' := snd (process_webhook_event cap p2t retrieve ev now db) in
  db' = db \/
  (exists w w', In w (workspaces db) /\ workspace_id w' = workspace_id w /\
     owner_id w' = owner_id w /\ workspaces db' = write_ws w' (workspaces db)) /\
  (founding_row db' = founding_row db \/
   founding_row db' = option_map (fun c => c + 1) (founding_row db)).
Proof.
  destruct (webhook_step_shape cap p2t retrieve ev now db)
    as [E|(w & w' & Hin & Hid & Ho & _ & Hws & Hf)]; [left; exact E|].
  right. split.
  - exists w, w'. tauto.
  - destruct Hf as [Hf|[Hf _]]; [left|right]; exact Hf.
Qed.

(** The founding-member programme never goes over its cap: if the count
    is at most [FOUNDING_MEMBER_CAP] before an event, it is after. *)
Theorem webhook_event_founding_cap (cap : Z) (p2t : list (string * string))
        (retrieve : jvalue -> option jvalue) (ev : StripeEvent) (now : Z) (db : DB) :
  get_founding_member_count db <= cap ->
  get_founding_member_count (snd (process_webhook_event cap p2t retrieve ev now db)) <= cap.
Proof.
  intros H.
  destruct (webhook_step_shape cap p2t retrieve ev now db)
    as [E|(w & w' & _ & _ & _ & _ & _ & [Hf|[Hf Hc]])].
  - rewrite E. exact H.
  - unfold get_founding_member_count in *. rewrite Hf. exact H.
  - unfold get_founding_member_count in *. rewrite Hf.
    destruct (founding_row db); cbn in *; lia.
Qed.

Lemma webhook_event_founding_cap_witness :
  get_founding_member_count sample_db <= 200 /\
  get_founding_member_count (snd (process_webhook_event 200 [] (fun _ => None) checkout_event 0 sample_db)) <= 200.
Proof.
  split; [vm_compute; discriminate|].
  apply webhook_event_founding_cap. vm_compute. discriminate.
Defined.

Lemma write_ws_in_inv (w' x : Workspace) (l : list Workspace) :
  In x (write_ws w' l) -> x = w' \/ In x l.
Proof.
  unfold write_ws. rewrite in_map_iff. intros (y & <- & Hy).
  destruct (N.eqb (workspace_id y) (workspace_id w')); [left; reflexivity | right; exact Hy].
Qed.

(** When the price map only names catalogue tiers, Stripe events keep
    every workspace on a catalogue tier. *)
Theorem webhook_event_keeps_tiers_known (cap : Z) (p2t : list (string * string))
        (retrieve : jvalue -> option jvalue) (ev : StripeEvent) (now : Z) (db : DB) :
  price_map_known p2t -> tiers_known db ->
  tiers_known (snd (process_webhook_event cap p2t retrieve ev now db)).
Proof.
  intros Hp Hdb.
  destruct (webhook_step_shape cap p2t retrieve ev now db)
    as [E|(w & w' & Hin & _ & _ & Ht & Hws & _)]; [rewrite E; exact Hdb|].
  intros x Hx. rewrite Hws in Hx.
  destruct (write_ws_in_inv _ _ _ Hx) as [->|Hx']; [|exact (Hdb x Hx')].
  destruct Ht as [Ht|[Ht|(p & Ht)]].
  - rewrite Ht. exact (Hdb w Hin).
  - rewrite Ht. reflexivity.
  - exact (Hp _ _ Ht).
Qed.

Lemma webhook_event_keeps_tiers_known_witness :
  (price_map_known [("price_pro", "professional")] /\ tiers_known sample_db) /\
  tiers_known (snd (process_webhook_event 200 [("price_pro", "professional")]
                      (fun _ => Some (JStr "price_pro")) checkout_event 0 sample_db)).
Proof.
  assert (Hp : price_map_known [("price_pro", "professional")]).
  { intros p t H. cbn in H. destruct (String.eqb p "price_pro"); [inversion H; reflexivity | discriminate]. }
  assert (Hd : tiers_known sample_db).
  { intros w [<-|[]]. reflexivity. }
  split; [split; assumption|].
  apply webhook_event_keeps_tiers_known; assumption.
Defined.

Lemma write_ws_in_id (w' x : Workspace) (l : list Workspace) :
  In x (write_ws w' l) -> workspace_id x = workspace_id w' -> x = w'.
Proof.
  unfold write_ws. rewrite in_map_iff. intros (y & Hy & _) Hid.
  destruct (N.eqb (workspace_id y) (workspace_id w')) eqn:E; [exact (eq_sym Hy)|].
  subst x. rewrite Hid, N.eqb_refl in E. discriminate.
Qed.

(** After a [customer.subscription.deleted] event for subscription [s],
    the workspace it downgraded holds no subscription and the free tier,
    so no later event for [s] can find that workspace again. *)
Theorem subscription_deleted_unlinks (cap : Z) (p2t : list (string * string))
        (retrieve : jvalue -> option jvalue) (ev : StripeEvent) (now : Z) (db : DB)
        (s : string) (w : Workspace) :
  ev_type ev = "customer.subscription.deleted" ->
  dict_get (ev_object ev) "id" = JStr s ->
  first_ws_where db stripe_subscription_id (JStr s) = Some w ->
  let db' := snd (process_webhook_event cap p2t retrieve ev now db) in
  (forall x, In x (workspaces db') -> workspace_id x = workspace_id w ->
     stripe_subscription_id x = JNull /\ ws_tier x = "free") /\
  (forall x, first_ws_where db' stripe_subscription_id (JStr s) = Some x ->
     workspace_id x <> workspace_id w).
Proof.
  intros Ht Hid Hf db'.
  assert (E : db' = commit_ws (ws_downgrade w) db).
  { unfold db', process_webhook_event. rewrite Ht. cbn -[handle_subscription_deleted].
    unfold handle_subscription_deleted. rewrite Hid, Hf. reflexivity. }
  assert (H1 : forall x, In x (workspaces db') -> workspace_id x = workspace_id w ->
                 stripe_subscription_id x = JNull /\ ws_tier x = "free").
  { intros x Hx Hx'. rewrite E in Hx. cbn in Hx.
    rewrite (write_ws_in_id _ _ _ Hx Hx'). split; reflexivity. }
  split; [exact H1|].
  intros x Hx Heq. unfold first_ws_where in Hx. apply find_some in Hx as [Hin Hc].
  destruct (H1 x Hin Heq) as [Hs _]. rewrite Hs in Hc. discriminate.
Qed.

Lemma subscription_deleted_unlinks_witness :
  (ev_type (deleted_event "sub_1") = "customer.subscription.deleted" /\
   dict_get (ev_object (deleted_event "sub_1")) "id" = JStr "sub_1" /\
   first_ws_where two_ws_db stripe_subscription_id (JStr "sub_1") = Some subscribed_ws) /\
  (forall x, first_ws_where (snd (process_webhook_event 200 [] (fun _ => None) (deleted_event "sub_1") 0 two_ws_db))
                             stripe_subscription_id (JStr "sub_1") = Some x ->
             workspace_id x <> workspace_id subscribed_ws).
Proof.
  split; [repeat split; reflexivity|].
  exact (proj2 (subscription_deleted_unlinks 200 [] (fun _ => None) (deleted_event "sub_1") 0 two_ws_db
                  "sub_1" subscribed_ws eq_refl eq_refl eq_refl)).
Defined.

(** An invoice event whose object carries no customer is applied to the
    first workspace that has no Stripe customer (the query compares the
    column with [None], i.e. [IS NULL]): [invoice.paid] resets that
    workspace's usage counters and [invoice.payment_failed] marks it past
    due. *)
Theorem invoice_event_without_customer (cap : Z) (p2t : list (string * string))
        (retrieve : jvalue -> option jvalue) (ev : StripeEvent) (now : Z) (db : DB) :
  dict_get (ev_object ev) "customer" = JNull ->
  (exists w, In w (workspaces db) /\ stripe_customer_id w = JNull) ->
  exists w, In w (workspaces db) /\ stripe_customer_id w = JNull /\
    (ev_type ev = "invoice.paid" ->
       process_webhook_event cap p2t retrieve ev now db =
       (Returned [("action", JStr "usage_reset")], commit_ws (ws_reset_usage w now) db)) /\
    (ev_type ev = "invoice.payment_failed" ->
       process_webhook_event cap p2t retrieve ev now db =
       (Returned [("action", JStr "marked_past_due")],
        commit_ws (ws_set_status w (JStr "past_due")) db)).
Proof.
  intros Hc (w0 & Hin0 & Hw0).
  destruct (first_ws_where db stripe_customer_id JNull) as [w|] eqn:Hf.
  - exists w. unfold first_ws_where in Hf. pose proof Hf as Hf'.
    apply find_some in Hf' as [Hin Hcol].
    split; [exact Hin|]. split; [destruct (stripe_customer_id w); try discriminate; reflexivity|].
    split; intros Ht; unfold process_webhook_event; rewrite Ht; cbn -[handle_invoice_paid handle_invoice_payment_failed];
      [unfold handle_invoice_paid | unfold handle_invoice_payment_failed];
      unfold first_ws_where; rewrite Hc, Hf; reflexivity.
  - exfalso. unfold first_ws_where in Hf.
    apply (find_none _ _ Hf) in Hin0. rewrite Hw0 in Hin0. discriminate.
Qed.

Lemma invoice_event_without_customer_witness :
  (dict_get [("customer", JNull)] "customer" = JNull /\
   exists w, In w (workspaces two_ws_db) /\ stripe_customer_id w = JNull) /\
  exists w, In w (workspaces two_ws_db) /\ stripe_customer_id w = JNull /\
    (ev_type {| ev_type := "invoice.paid"; ev_created := 0; ev_object := [("customer", JNull)] |} = "invoice.paid" ->
     process_webhook_event 200 [] (fun _ => None)
       {| ev_type := "invoice.paid"; ev_created := 0; ev_object := [("customer", JNull)] |} 5 two_ws_db =
     (Returned [("action", JStr "usage_reset")], commit_ws (ws_reset_usage w 5) two_ws_db)) /\
    (ev_type {| ev_type := "invoice.paid"; ev_created := 0; ev_object := [("customer", JNull)] |} = "invoice.payment_failed" ->
     process_webhook_event 200 [] (fun _ => None)
       {| ev_type := "invoice.paid"; ev_created := 0; ev_object := [("customer", JNull)] |} 5 two_ws_db =
     (Returned [("action", JStr "marked_past_due")],
      commit_ws (ws_set_status w (JStr "past_due")) two_ws_db)).
Proof.
  assert (H : exists w, In w (workspaces two_ws_db) /\ stripe_customer_id w = JNull).
  { exists customerless_ws. split; [simpl; tauto | reflexivity]. }
  split; [split; [reflexivity | exact H]|].
  exact (invoice_event_without_customer 200 [] (fun _ => None)
           {| ev_type := "invoice.paid"; ev_created := 0; ev_object := [("customer", JNull)] |}
           5 two_ws_db eq_refl H).
Defined.

(** [_handle_checkout_completed] is not atomic: for a founding-member
    checkout below the cap whose subscription lookup at Stripe fails, the
    call raises, yet the founding seat is already counted and the
    workspace row already committed with the founding flag, the customer,
    the subscription and the status [active]. *)
Theorem checkout_stripe_failure_commits_founding_seat (cap : Z) (p2t : list (string * string))
        (retrieve : jvalue -> option jvalue) (ev : StripeEvent) (now : Z) (db : DB)
        (id : N) (ws : Workspace) (c : Z) :
  ev_type ev = "checkout.session.completed" ->
  (exists wid, resolve_workspace_id (ev_object ev) = Some wid /\ uuid_of wid = Some id) ->
  get_ws_by_id db id = Some ws ->
  get_or_empty (ev_object ev) "metadata" "founding_member" = Some (JStr "true") ->
  founding_row db = Some c -> c < cap ->
  truthy (dict_get (ev_object ev) "subscription") = true ->
  retrieve (dict_get (ev_object ev) "subscription") = None ->
  let r := process_webhook_event cap p2t retrieve ev now db in
  fst r = Raised "StripeError" /\
  founding_row (snd r) = Some (c + 1) /\
  exists w', workspace_id w' = id /\ founding_member w' = true /\
    stripe_customer_id w' = dict_get (ev_object ev) "customer" /\
    stripe_subscription_id w' = dict_get (ev_object ev) "subscription" /\
    stripe_subscription_status w' = JStr "active" /\
    workspaces (snd r) = write_ws w' (workspaces db).
Proof.
  intros Ht (wid & Hres & Hu) Hg Hfm Hfr Hc Hs Hr r.
  assert (Hwid : truthy wid = true).
  { destruct wid as [| | |s| |]; cbn in Hu; try discriminate.
    destruct s; [vm_compute in Hu; discriminate | reflexivity]. }
  assert (E : r = (Raised "StripeError",
                   increment_founding_member_count
                     (ws_set_founding (ws_checkout ws (dict_get (ev_object ev) "customer")
                                         (dict_get (ev_object ev) "subscription"))) db)).
  { unfold r, process_webhook_event. rewrite Ht. cbn -[handle_checkout_completed].
    unfold handle_checkout_completed. rewrite Hres, Hwid, Hu, Hg, Hfm. cbn -[checkout_finish].
    unfold get_founding_member_count. rewrite Hfr.
    destruct (c <? cap) eqn:E; zcmp; [|lia].
    unfold checkout_finish. rewrite Hs, Hr. reflexivity. }
  rewrite E. cbn [fst snd]. split; [reflexivity|]. split; [cbn; rewrite Hfr; reflexivity|].
  exists (ws_set_founding (ws_checkout ws (dict_get (ev_object ev) "customer")
                                        (dict_get (ev_object ev) "subscription"))).
  split; [exact (get_ws_by_id_id _ _ _ Hg)|].
  repeat split; reflexivity.
Qed.

Lemma checkout_stripe_failure_commits_founding_seat_witness :
  founding_row (snd (process_webhook_event 200 [] (fun _ => None) founding_sub_event 0 sample_db)) = Some 1 /\
  fst (process_webhook_event 200 [] (fun _ => None) founding_sub_event 0 sample_db) = Raised "StripeError".
Proof.
  assert (H := checkout_stripe_failure_commits_founding_seat 200 [] (fun _ => None) founding_sub_event 0
                 sample_db 1 sample_ws 0 eq_refl
                 (ex_intro _ (JStr "00000000-0000-0000-0000-000000000001") (conj eq_refl eq_refl))
                 eq_refl eq_refl eq_refl ltac:(lia) eq_refl eq_refl).
  destruct H as [H1 [H2 _]]. split; assumption.
Defined.

(** *** [uuid.UUID(str(u)) == u] *)

Lemma hexlike_inv (c : ascii) :
  hexlike c = true ->
  is_py_space c = false /\ is_brace c = false /\ Ascii.eqb c "-"%char = false /\
  Ascii.eqb c "u"%char = false /\ Ascii.eqb c "_"%char = false /\
  Ascii.eqb c "+"%char = false /\ Ascii.eqb c "x"%char = false /\ Ascii.eqb c "X"%char = false.
Proof.
  unfold hexlike. intros H. repeat rewrite andb_true_iff in H. rewrite !negb_true_iff in H. tauto.
Qed.

Lemma str_append_nil (s : string) : s ++ "" = s.
Proof. induction s as [|c s IH]; simpl; [reflexivity | now rewrite IH]. Qed.

Lemma str_append_assoc (a b c : string) : (a ++ b) ++ c = a ++ (b ++ c).
Proof. induction a as [|x a IH]; simpl; [reflexivity | now rewrite IH]. Qed.

Lemma all_chars_app (p : ascii -> bool) (a b : string) :
  all_chars p (a ++ b) = all_chars p a && all_chars p b.
Proof. induction a as [|c a IH]; simpl; [reflexivity | rewrite IH; apply andb_assoc]. Qed.

Lemma all_chars_substring (p : ascii -> bool) (n m : nat) (s : string) :
  all_chars p s = true -> all_chars p (substring n m s) = true.
Proof.
  revert n m. induction s as [|c s IH]; intros n m H; destruct n, m; simpl in *; auto.
  - apply andb_true_iff in H as [H1 H2]. rewrite H1. simpl. apply IH; exact H2.
  - apply andb_true_iff in H as [_ H2]. apply IH; exact H2.
  - apply andb_true_iff in H as [_ H2]. apply IH; exact H2.
Qed.

Lemma all_chars_rev (p : ascii -> bool) (s : string) :
  all_chars p (rev_str s) = all_chars p s.
Proof.
  induction s as [|c s IH]; simpl; [reflexivity|].
  rewrite all_chars_app, IH. simpl. rewrite andb_true_r. apply andb_comm.
Qed.

Lemma all_chars_impl (p q : ascii -> bool) (s : string) :
  (forall c, p c = true -> q c = true) -> all_chars p s = true -> all_chars q s = true.
Proof.
  intros Hpq. induction s as [|c s IH]; simpl; auto.
  intros H. apply andb_true_iff in H as [H1 H2]. rewrite (Hpq c H1). simpl. auto.
Qed.

Lemma rev_str_app (a b : string) : rev_str (a ++ b) = rev_str b ++ rev_str a.
Proof.
  induction a as [|c a IH]; simpl.
  - now rewrite str_append_nil.
  - rewrite IH. apply str_append_assoc.
Qed.

Lemma rev_str_involutive (s : string) : rev_str (rev_str s) = s.
Proof.
  induction s as [|c s IH]; simpl; [reflexivity|].
  rewrite rev_str_app, IH. reflexivity.
Qed.

Lemma lstrip_id (p : ascii -> bool) (s : string) :
  all_chars (fun c => negb (p c)) s = true -> lstrip p s = s.
Proof.
  destruct s as [|c s]; simpl; [reflexivity|].
  intros H. apply andb_true_iff in H as [H _]. destruct (p c); [discriminate | reflexivity].
Qed.

Lemma strip_by_id (p : ascii -> bool) (s : string) :
  all_chars (fun c => negb (p c)) s = true -> strip_by p s = s.
Proof.
  intros H. unfold strip_by. rewrite (lstrip_id p s H).
  rewrite lstrip_id by (rewrite all_chars_rev; exact H).
  apply rev_str_involutive.
Qed.

Lemma str_replace_aux_absent (fuel : nat) (c0 : ascii) (pr rep s : string) :
  all_chars (fun c => negb (Ascii.eqb c c0)) s = true ->
  str_replace_aux fuel (String c0 pr) rep s = s.
Proof.
  revert s. induction fuel as [|f IH]; intros s H; simpl; [reflexivity|].
  destruct s as [|c s]; [reflexivity|].
  simpl in H. apply andb_true_iff in H as [H1 H2].
  simpl. destruct (ascii_dec c0 c) as [->|_].
  - rewrite Ascii.eqb_refl in H1. discriminate.
  - rewrite IH by exact H2. reflexivity.
Qed.

Lemma substring_0_long (s : string) (m : nat) :
  (String.length s <= m)%nat -> substring 0 m s = s.
Proof.
  revert m. induction s as [|c s IH]; intros m Hm; destruct m; simpl in *; try reflexivity; try lia.
  rewrite IH by lia. reflexivity.
Qed.

Lemma str_replace_dash (fuel : nat) (s : string) :
  (String.length s <= fuel)%nat -> str_replace_aux fuel "-" "" s = dedash s.
Proof.
  revert s. induction fuel as [|f IH]; intros s Hs.
  - destruct s; simpl in *; [reflexivity | lia].
  - destruct s as [|c s]; [reflexivity|]. simpl in Hs.
    cbn [str_replace_aux dedash]. simpl String.eqb. cbn [negb andb].
    destruct (Ascii.eqb c "-"%char) eqn:Ec.
    + apply Ascii.eqb_eq in Ec. subst c. simpl.
      assert (E : String.prefix "" s = true) by (destruct s; reflexivity). rewrite E.
      rewrite substring_0_long by lia. apply IH. lia.
    + assert (Hp : String.prefix "-" (String c s) = false).
      { change (String.prefix "-" (String c s))
          with (if ascii_dec "-"%char c then String.prefix "" s else false).
        destruct (ascii_dec "-"%char c) as [<-|]; [|reflexivity].
        rewrite Ascii.eqb_refl in Ec. discriminate. }
      rewrite Hp. rewrite IH by lia. reflexivity.
Qed.

Lemma dedash_app (a b : string) : dedash (a ++ b) = dedash a ++ dedash b.
Proof.
  induction a as [|c a IH]; simpl; [reflexivity|].
  destruct (Ascii.eqb c "-"%char); simpl; rewrite IH; reflexivity.
Qed.

Lemma dedash_id (s : string) :
  all_chars (fun c => negb (Ascii.eqb c "-"%char)) s = true -> dedash s = s.
Proof.
  induction s as [|c s IH]; simpl; [reflexivity|].
  intros H. apply andb_true_iff in H as [H1 H2].
  destruct (Ascii.eqb c "-"%char); [discriminate|]. rewrite IH by exact H2. reflexivity.
Qed.

Lemma substring_split (s : string) (a b : nat) :
  substring 0 a s ++ substring a b s = substring 0 (a + b) s.
Proof.
  revert a. induction s as [|c s IH]; intros a.
  - destruct a, b; reflexivity.
  - destruct a as [|a]; simpl; [reflexivity|]. rewrite IH. reflexivity.
Qed.

Lemma fixed_hex_length (k : nat) (n : N) : String.length (fixed_hex k n) = k.
Proof. induction k; simpl; congruence. Qed.

Lemma hex_char_spec (d : N) :
  (d < 16)%N -> hex_val (hex_char d) = Some d /\ hexlike (hex_char d) = true.
Proof.
  intros H.
  assert (d = 0 \/ d = 1 \/ d = 2 \/ d = 3 \/ d = 4 \/ d = 5 \/ d = 6 \/ d = 7 \/
          d = 8 \/ d = 9 \/ d = 10 \/ d = 11 \/ d = 12 \/ d = 13 \/ d = 14 \/ d = 15)%N
    as Hd by lia.
  repeat destruct Hd as [->|Hd]; try (subst d); split; reflexivity.
Qed.

Lemma fixed_hex_hexlike (k : nat) (n : N) : all_chars hexlike (fixed_hex k n) = true.
Proof.
  induction k as [|k IH]; simpl; [reflexivity|].
  rewrite IH, andb_true_r.
  apply hex_char_spec, N.mod_lt. discriminate.
Qed.

Lemma hex_digits_fixed_hex (k : nat) (n acc : N) (ok seen lu : bool) :
  (k <> O \/ (seen = true /\ lu = false)) ->
  hex_digits (fixed_hex k n) acc ok seen lu =
  Some (acc * 16 ^ N.of_nat k + n mod 16 ^ N.of_nat k)%N.
Proof.
  revert acc ok seen lu. induction k as [|k IH]; intros acc ok seen lu Hk.
  - destruct Hk as [Hk | [-> ->]]; [congruence|]. simpl.
    rewrite N.mul_1_r, N.mod_1_r, N.add_0_r. reflexivity.
  - cbn [fixed_hex hex_digits].
    assert (Hlt : ((n / 16 ^ N.of_nat k) mod 16 < 16)%N) by (apply N.mod_lt; discriminate).
    destruct (hex_char_spec _ Hlt) as [Hv Hl].
    assert (Hu : Ascii.eqb (hex_char ((n / 16 ^ N.of_nat k) mod 16)) "_"%char = false).
    { apply hexlike_inv in Hl. tauto. }
    rewrite Hu, Hv, IH by (right; split; reflexivity).
    f_equal.
    replace (N.of_nat (S k)) with (N.succ (N.of_nat k)) by lia.
    rewrite N.pow_succ_r'.
    rewrite (N.mul_comm 16 (16 ^ N.of_nat k)), N.Div0.mod_mul_r.
    nia.
Qed.

Lemma dedash_uuid_str (n : N) : dedash (uuid_str n) = fixed_hex 32 n.
Proof.
  unfold uuid_str.
  set (h := fixed_hex 32 n).
  assert (Hh : all_chars (fun c => negb (Ascii.eqb c "-"%char)) h = true).
  { apply (all_chars_impl hexlike); [|apply fixed_hex_hexlike].
    intros c Hc. apply hexlike_inv in Hc. destruct Hc as (_ & _ & -> & _). reflexivity. }
  assert (Hlen : String.length h = 32%nat) by apply fixed_hex_length.
  rewrite Hlen. simpl Nat.sub.
  rewrite !dedash_app, !(dedash_id (substring _ _ h)) by (apply all_chars_substring; exact Hh).
  cbn [dedash Ascii.eqb Bool.eqb andb append].
  rewrite <- !str_append_assoc.
  repeat (rewrite substring_split; simpl Nat.add).
  apply substring_0_long. rewrite Hlen. lia.
Qed.

Lemma prefix_hex2 (p0 p1 c1 c2 : ascii) (r : string) :
  Ascii.eqb c2 p1 = false -> String.prefix (String p0 (String p1 "")) (String c1 (String c2 r)) = false.
Proof.
  intros H.
  change (String.prefix (String p0 (String p1 "")) (String c1 (String c2 r)))
    with (if ascii_dec p0 c1 then (if ascii_dec p1 c2 then String.prefix "" r else false) else false).
  destruct (ascii_dec p0 c1); [|reflexivity].
  destruct (ascii_dec p1 c2) as [<-|]; [|reflexivity].
  rewrite Ascii.eqb_refl in H. discriminate.
Qed.

Lemma py_int16_fixed_hex (n : N) : py_int16 (fixed_hex 32 n) = Some (Z.of_N (n mod 16 ^ 32)).
Proof.
  unfold py_int16.
  rewrite strip_by_id.
  2:{ apply (all_chars_impl hexlike); [|apply fixed_hex_hexlike].
      intros c Hc. apply hexlike_inv in Hc. destruct Hc as (-> & _). reflexivity. }
  set (c1 := hex_char ((n / 16 ^ N.of_nat 31) mod 16)).
  set (c2 := hex_char ((n / 16 ^ N.of_nat 30) mod 16)).
  assert (E : fixed_hex 32 n = String c1 (String c2 (fixed_hex 30 n))) by reflexivity.
  assert (H1 : hexlike c1 = true) by (apply hex_char_spec, N.mod_lt; discriminate).
  assert (H2 : hexlike c2 = true) by (apply hex_char_spec, N.mod_lt; discriminate).
  apply hexlike_inv in H1. apply hexlike_inv in H2.
  rewrite E.
  destruct H1 as (_ & _ & -> & _ & _ & -> & _).
  destruct H2 as (_ & _ & _ & _ & _ & _ & Hx & HX).
  rewrite (prefix_hex2 "0" "x" c1 c2 _ Hx), (prefix_hex2 "0" "X" c1 c2 _ HX).
  cbn [orb]. rewrite <- E.
  rewrite hex_digits_fixed_hex by (left; discriminate).
  reflexivity.
Qed.

Lemma uuid_parse_str (n : N) : (n < 2 ^ 128)%N -> uuid_parse (uuid_str n) = Some n.
Proof.
  intros Hn.
  set (h := fixed_hex 32 n).
  assert (Hh : all_chars hexlike h = true) by apply fixed_hex_hexlike.
  assert (Hlen : String.length h = 32%nat) by apply fixed_hex_length.
  assert (Hstr : forall p, (forall c, hexlike c = true -> p c = true) -> p "-"%char = true ->
                 all_chars p (uuid_str n) = true).
  { intros p Hp Hd. unfold uuid_str. fold h.
    assert (Hhp : all_chars p h = true) by (apply (all_chars_impl hexlike); assumption).
    rewrite !all_chars_app, !(all_chars_substring p _ _ h Hhp).
    cbn [all_chars]. rewrite Hd. reflexivity. }
  unfold uuid_parse, str_replace.
  rewrite (str_replace_aux_absent _ "u"%char "rn:" "" (uuid_str n)).
  2:{ apply Hstr; [|reflexivity]. intros c Hc. apply hexlike_inv in Hc.
      destruct Hc as (_ & _ & _ & -> & _). reflexivity. }
  rewrite (str_replace_aux_absent _ "u"%char "uid:" "" (uuid_str n)).
  2:{ apply Hstr; [|reflexivity]. intros c Hc. apply hexlike_inv in Hc.
      destruct Hc as (_ & _ & _ & -> & _). reflexivity. }
  rewrite strip_by_id.
  2:{ apply Hstr; [|reflexivity]. intros c Hc. apply hexlike_inv in Hc.
      destruct Hc as (_ & -> & _). reflexivity. }
  rewrite str_replace_dash by lia.
  rewrite dedash_uuid_str. fold h. rewrite Hlen. cbn [Nat.eqb negb].
  unfold h. rewrite py_int16_fixed_hex.
  assert (E16 : (16 ^ 32 = 2 ^ 128)%N) by reflexivity.
  rewrite E16, N.mod_small by exact Hn.
  assert (Hz : (0 <=? Z.of_N n) && (Z.of_N n <? 2 ^ 128) = true).
  { apply andb_true_iff. split; [apply Z.leb_le | apply Z.ltb_lt]; lia. }
  rewrite Hz, N2Z.id. reflexivity.
Qed.

(** *** A checkout started by [start_checkout] lands on the caller's workspace *)

Lemma checkout_finish_cases (p2t : list (string * string)) (retrieve : jvalue -> option jvalue)
      (data : pydict) (ws_id : jvalue) (ws : Workspace) (db : DB) :
  snd (checkout_finish p2t retrieve data ws_id ws db) = db \/
  exists ws', (ws' = ws \/ exists p t s, ws' = ws_set_price ws p t s) /\
    snd (checkout_finish p2t retrieve data ws_id ws db) = commit_ws ws' db.
Proof.
  unfold checkout_finish.
  destruct (truthy (dict_get data "subscription")); [|right; exists ws; auto].
  destruct (retrieve (dict_get data "subscription")) as [p|]; [|left; reflexivity].
  destruct (tier_of_price p2t p) as [t|]; [|left; reflexivity].
  right. eexists. split; [right; eauto | reflexivity].
Qed.

Lemma checkout_params_fields (base price : string) (cust : jvalue) (wsid email : string) (f : bool) :
  dict_get (checkout_params base price cust wsid email f) "client_reference_id" = JStr wsid /\
  dict_get (checkout_params base price cust wsid email f) "metadata" =
    JObj [("workspace_id", JStr wsid); ("founding_member", JStr (if f then "true" else "false"))].
Proof. unfold checkout_params. destruct (truthy cust); split; reflexivity. Qed.

Lemma uuid_str_truthy (n : N) : truthy (JStr (uuid_str n)) = true.
Proof. reflexivity. Qed.

(** [start_checkout] sends Stripe the id of the caller's workspace, as
    [client_reference_id] and in the metadata. When the completed session
    carries these two fields back, [_handle_checkout_completed] writes that
    workspace's row and no other, whatever the table holds by then. For a
    price other than the founding price, the founding counter and the row's
    founding flag stay as they were. *)
Theorem start_checkout_links_workspace (base : string) (key_set : bool)
        (create : pydict -> option string) (p2t : list (string * string))
        (founding_price : string) (cap : Z) (retrieve : jvalue -> option jvalue)
        (price : string) (db : DB) (uid : N) (email : string) (body : pydict)
        (sent : list pydict) (data : pydict) (db' : DB) :
  start_checkout base key_set create p2t founding_price cap price db uid email = (Resp200 body, sent) ->
  (forall w, In w (workspaces db) -> (workspace_id w < 2 ^ 128)%N) ->
  (exists params, sent = [params] /\
     dict_get data "client_reference_id" = dict_get params "client_reference_id" /\
     dict_get data "metadata" = dict_get params "metadata") ->
  exists ws, first_owned_ws db uid = Some ws /\
    let db'' := snd (handle_checkout_completed cap p2t retrieve data db') in
    db'' = db' \/
    exists w w', get_ws_by_id db' (workspace_id ws) = Some w /\
      workspace_id w' = workspace_id ws /\
      workspaces db'' = write_ws w' (workspaces db') /\
      (String.eqb price founding_price = false ->
       founding_row db'' = founding_row db' /\ founding_member w' = founding_member w).
Proof.
  intros Hst Hids (params & Hsent & Hcri & Hmeta).
  unfold start_checkout in Hst.
  destruct (assoc p2t price) eqn:Ep; [|discriminate].
  destruct (first_owned_ws db uid) as [ws|] eqn:Eo; [|discriminate].
  exists ws. split; [reflexivity|].
  assert (Hid : (workspace_id ws < 2 ^ 128)%N).
  { apply Hids. unfold first_owned_ws in Eo. apply find_some in Eo. tauto. }
  destruct (String.eqb price founding_price && (get_founding_member_count db >=? cap)); [discriminate|].
  unfold create_checkout_session in Hst.
  destruct key_set; [|discriminate]. cbn [negb] in Hst.
  destruct (create _) eqn:Ec; [|discriminate].
  injection Hst as _ <-. injection Hsent as <-.
  destruct (checkout_params_fields base price (stripe_customer_id ws) (uuid_str (workspace_id ws))
              email (String.eqb price founding_price)) as [F1 F2].
  rewrite F1 in Hcri. rewrite F2 in Hmeta.
  cbv zeta.
  unfold handle_checkout_completed, resolve_workspace_id.
  rewrite Hcri, uuid_str_truthy. cbn [negb].
  unfold uuid_of. rewrite (uuid_parse_str _ Hid).
  destruct (get_ws_by_id db' (workspace_id ws)) as [w|] eqn:Eg; [|left; reflexivity].
  assert (Hw : workspace_id w = workspace_id ws) by (eapply get_ws_by_id_id; exact Eg).
  assert (Efm : get_or_empty data "metadata" "founding_member" =
                Some (JStr (if String.eqb price founding_price then "true" else "false")))
    by (unfold get_or_empty; rewrite Hmeta; reflexivity).
  rewrite Efm. cbv zeta. rewrite uuid_str_truthy. cbn [negb].
  destruct (String.eqb price founding_price) eqn:Ef; cbn [col_eq String.eqb Ascii.eqb Bool.eqb andb].
  - destruct (get_founding_member_count db' <? cap).
    + destruct (checkout_finish_cases p2t retrieve data (JStr (uuid_str (workspace_id ws)))
                  (ws_set_founding (ws_checkout w (dict_get data "customer") (dict_get data "subscription")))
                  (increment_founding_member_count
                     (ws_set_founding (ws_checkout w (dict_get data "customer") (dict_get data "subscription"))) db'))
        as [E | (ws' & Hws' & E)]; rewrite E; right.
      * exists w, (ws_set_founding (ws_checkout w (dict_get data "customer") (dict_get data "subscription"))).
        split; [reflexivity|]. split; [exact Hw|]. split; [reflexivity | discriminate].
      * exists w, ws'. split; [reflexivity|]. split.
        { destruct Hws' as [-> | (p & t & st & ->)]; exact Hw. }
        split; [|discriminate].
        cbn [commit_ws increment_founding_member_count workspaces].
        apply write_ws_shadow.
        destruct Hws' as [-> | (p & t & st & ->)]; reflexivity.
    + destruct (checkout_finish_cases p2t retrieve data (JStr (uuid_str (workspace_id ws)))
                  (ws_checkout w (dict_get data "customer") (dict_get data "subscription")) db')
        as [E | (ws' & Hws' & E)]; rewrite E; [left; reflexivity | right].
      exists w, ws'. split; [reflexivity|]. split.
      { destruct Hws' as [-> | (p & t & st & ->)]; exact Hw. }
      split; [reflexivity | discriminate].
  - destruct (checkout_finish_cases p2t retrieve data (JStr (uuid_str (workspace_id ws)))
                (ws_checkout w (dict_get data "customer") (dict_get data "subscription")) db')
      as [E | (ws' & Hws' & E)]; rewrite E; [left; reflexivity | right].
    exists w, ws'. split; [reflexivity|]. split.
    { destruct Hws' as [-> | (p & t & st & ->)]; exact Hw. }
    split; [reflexivity|]. intros _. split; [reflexivity|].
    destruct Hws' as [-> | (p & t & st & ->)]; reflexivity.
Qed.

Lemma start_checkout_links_workspace_witness :
  (start_checkout "https://app.example" true (fun _ => Some "https://checkout.example/s1")
     [("price_pro", "professional")] "price_founding" 200 "price_pro" sample_db 7 "owner@example.com" =
   (Resp200 [("url", JStr "https://checkout.example/s1")], [pro_checkout_params]) /\
   (forall w, In w (workspaces sample_db) -> (workspace_id w < 2 ^ 128)%N)) /\
  exists ws, first_owned_ws sample_db 7 = Some ws /\
    let db'' := snd (handle_checkout_completed 200 [("price_pro", "professional")]
                       (fun _ => Some (JStr "price_pro")) pro_checkout_params sample_db) in
    db'' = sample_db \/
    exists w w', get_ws_by_id sample_db (workspace_id ws) = Some w /\
      workspace_id w' = workspace_id ws /\
      workspaces db'' = write_ws w' (workspaces sample_db) /\
      (String.eqb "price_pro" "price_founding" = false ->
       founding_row db'' = founding_row sample_db /\ founding_member w' = founding_member w).
Proof.
  assert (H1 : start_checkout "https://app.example" true (fun _ => Some "https://checkout.example/s1")
     [("price_pro", "professional")] "price_founding" 200 "price_pro" sample_db 7 "owner@example.com" =
   (Resp200 [("url", JStr "https://checkout.example/s1")], [pro_checkout_params])) by (vm_compute; reflexivity).
  assert (H2 : forall w, In w (workspaces sample_db) -> (workspace_id w < 2 ^ 128)%N).
  { intros w [<- | []]. vm_compute. reflexivity. }
  split; [split; assumption|].
  exact (start_checkout_links_workspace "https://app.example" true (fun _ => Some "https://checkout.example/s1")
     [("price_pro", "professional")] "price_founding" 200 (fun _ => Some (JStr "price_pro"))
     "price_pro" sample_db 7 "owner@example.com" _ _ pro_checkout_params sample_db H1 H2
     (ex_intro _ pro_checkout_params (conj eq_refl (conj eq_refl eq_refl)))).
Defined.

(** *** A test ping of a new webhook *)

Lemma find_fresh_last (l : list WebhookEndpoint) (e : WebhookEndpoint) (id : N) :
  existsb (fun x => N.eqb (webhook_id x) id) l = false -> webhook_id e = id ->
  find (fun x => N.eqb (webhook_id x) id) (l ++ [e]) = Some e.
Proof.
  intros Hl He. induction l as [|x l IH]; simpl in *.
  - rewrite He, N.eqb_refl. reflexivity.
  - destruct (N.eqb (webhook_id x) id); [discriminate|]. apply IH; exact Hl.
Qed.

Lemma validate_event_types_ok (fmt : list string -> string) (l : list string) :
  validate_event_types fmt l = None -> forall t, In t l -> str_mem t VALID_EVENT_TYPES = true.
Proof.
  unfold validate_event_types.
  destruct (filter (fun t => negb (str_mem t VALID_EVENT_TYPES)) l) eqn:E; [|discriminate].
  intros _ t Ht.
  destruct (str_mem t VALID_EVENT_TYPES) eqn:Et; [reflexivity|].
  assert (In t (filter (fun t => negb (str_mem t VALID_EVENT_TYPES)) l))
    by (apply filter_In; rewrite Et; auto).
  rewrite E in H. destruct H.
Qed.

Lemma get_owned_workspace_err (db : WebhookDB) (a b : N) (r : route_response) :
  get_owned_workspace db a b = inl r -> exists s d, r = RouteHTTPException s d.
Proof.
  unfold get_owned_workspace. destruct (find _ _) as [w|]; [destruct (negb _)|]; intros H;
    try discriminate; injection H as <-; eauto.
Qed.

Lemma require_webhooks_err (ws : Workspace) (r : route_response) :
  require_webhooks ws = Some r -> exists s d, r = RouteHTTPException s d.
Proof. unfold require_webhooks. destruct (require_feature _ _); intros H; try discriminate; injection H as <-; eauto. Qed.

Lemma validate_event_types_err (fmt : list string -> string) (l : list string) (r : route_response) :
  validate_event_types fmt l = Some r -> exists d, r = RouteHTTPException 422 d.
Proof. unfold validate_event_types. destruct (Nat.eqb _ 0); intros H; try discriminate; injection H as <-; eauto. Qed.

(** A webhook created through [create_webhook] and then pinged through
    [test_webhook]: the route queues one [deliver_webhook] task, and the
    task finds the new endpoint by its id string. With a non-empty
    [event_types] list (which [_validate_event_types] restricted to the
    three valid types, none of them ["ping"]) the task skips the ping with
    [event_type_not_subscribed] and sends no request. With an empty list it
    posts the ping to the endpoint's URL when httpx accepts that URL, and
    otherwise ([create_webhook] stores the URL unchecked) raises
    [InvalidURL] with no request sent and no retry. *)
Theorem created_webhook_test_ping (fmt : list string -> string)
        (sign : string -> jvalue -> string) (SV : string) (url_ok : string -> bool)
        (db : WebhookDB) (ws_id user_id : N) (p_url : string) (types : list string)
        (new_id : N) (sec created_at : string) (body : pydict) (db1 : WebhookDB)
        (retries : Z) (did dat : string) (resp : http_response) :
  create_webhook fmt db ws_id user_id p_url types new_id sec created_at = (RouteOk 201 body, db1) ->
  (new_id < 2 ^ 128)%N ->
  exists call, test_webhook db1 ws_id new_id user_id =
               (RouteOk 202 [("status", JStr "queued"); ("webhook_id", JStr (uuid_str new_id))], [call]) /\
    let res := deliver_webhook sign SV url_ok (whdb_endpoints db1) retries did dat resp
                 (tc_webhook_id call) (tc_event_type call) (tc_payload call) in
    (types <> [] ->
     res = ([], TaskReturn [("status", JStr "skipped"); ("reason", JStr "event_type_not_subscribed")])) /\
    (types = [] -> url_ok p_url = true -> exists req, fst res = [req] /\ req_url req = p_url) /\
    (types = [] -> url_ok p_url = false -> res = ([], TaskRaise "InvalidURL")).
Proof.
  intros Hc Hid.
  unfold create_webhook in Hc.
  destruct (get_owned_workspace db ws_id user_id) as [r|ws] eqn:Ew;
    [apply get_owned_workspace_err in Ew as (s & d & ->); discriminate|].
  destruct (require_webhooks ws) as [r|] eqn:Er;
    [apply require_webhooks_err in Er as (s & d & ->); discriminate|].
  assert (Hval : types <> [] -> validate_event_types fmt types = None).
  { intros Hne. destruct (validate_event_types fmt types) as [r|] eqn:Ev; [|reflexivity].
    exfalso. destruct types as [|t ts]; [congruence|].
    cbn [length Nat.eqb negb] in Hc.
    apply validate_event_types_err in Ev as (d & ->). discriminate. }
  assert (Hv0 : (if negb (Nat.eqb (length types) 0) then validate_event_types fmt types else None) = None).
  { destruct types; [reflexivity|]. apply Hval. discriminate. }
  rewrite Hv0 in Hc.
  destruct (existsb (fun e => N.eqb (webhook_id e) new_id) (whdb_endpoints db)) eqn:Ex; [discriminate|].
  cbv zeta iota beta in Hc. injection Hc as _ <-.
  set (endpoint := {| webhook_id := new_id; wh_workspace_id := ws_id; url := p_url; secret := sec;
                      event_types := Some types; is_active := true |}).
  assert (Hf : find (fun x => N.eqb (webhook_id x) new_id) (whdb_endpoints db ++ [endpoint]) = Some endpoint)
    by (apply find_fresh_last; [exact Ex | reflexivity]).
  eexists. split.
  - unfold test_webhook. unfold get_owned_workspace in *. cbn [whdb_workspaces whdb_endpoints].
    rewrite Ew, Er. unfold get_owned_webhook. cbn [whdb_endpoints]. rewrite Hf.
    cbn [wh_workspace_id endpoint]. rewrite N.eqb_refl. reflexivity.
  - cbv zeta. cbn [tc_webhook_id tc_event_type tc_payload whdb_endpoints].
    change (webhook_id endpoint) with new_id.
    unfold deliver_webhook. rewrite (uuid_parse_str _ Hid). rewrite Hf.
    cbn [is_active endpoint negb event_types].
    split.
    + intros Hne.
      destruct types as [|t ts]; [congruence|].
      assert (Hping : str_mem "ping" (t :: ts) = false).
      { destruct (str_mem "ping" (t :: ts)) eqn:Ep; [|reflexivity].
        apply str_mem_In in Ep.
        pose proof (validate_event_types_ok fmt _ (Hval Hne) "ping" Ep) as Hv.
        vm_compute in Hv. discriminate. }
      rewrite Hping. reflexivity.
    + split.
      * intros -> Hu. cbn [length Nat.eqb negb andb url endpoint]. rewrite Hu. cbn [negb].
        destruct resp as [code|].
        -- destruct (andb (200 <=? code) (code <? 300)); eexists; split; reflexivity.
        -- eexists; split; reflexivity.
      * intros -> Hu. cbn [length Nat.eqb negb andb url endpoint]. rewrite Hu. reflexivity.
Qed.

Lemma created_webhook_test_ping_witness :
  (create_webhook (fun _ => "") pro_webhook_db 1 7 "https://example.com/hook" ["domain.created"]
     2 "secret" "2026-01-01T00:00:00Z" =
   (RouteOk 201 (to_public {| webhook_id := 2; wh_workspace_id := 1; url := "https://example.com/hook";
                              secret := "secret"; event_types := Some ["domain.created"];
                              is_active := true |} "2026-01-01T00:00:00Z"),
    {| whdb_workspaces := [pro_ws];
       whdb_endpoints := [{| webhook_id := 2; wh_workspace_id := 1; url := "https://example.com/hook";
                             secret := "secret"; event_types := Some ["domain.created"];
                             is_active := true |}] |}) /\
   (2 < 2 ^ 128)%N) /\
  exists call, test_webhook
                 {| whdb_workspaces := [pro_ws];
                    whdb_endpoints := [{| webhook_id := 2; wh_workspace_id := 1; url := "https://example.com/hook";
                                          secret := "secret"; event_types := Some ["domain.created"];
                                          is_active := true |}] |} 1 2 7 =
               (RouteOk 202 [("status", JStr "queued"); ("webhook_id", JStr (uuid_str 2))], [call]) /\
    let res := deliver_webhook (fun _ _ => "sig") "1.0" (fun _ => true)
                 [{| webhook_id := 2; wh_workspace_id := 1; url := "https://example.com/hook";
                     secret := "secret"; event_types := Some ["domain.created"]; is_active := true |}]
                 0 "d1" "t1" (HttpStatus 200)
                 (tc_webhook_id call) (tc_event_type call) (tc_payload call) in
    (["domain.created"] <> [] ->
     res = ([], TaskReturn [("status", JStr "skipped"); ("reason", JStr "event_type_not_subscribed")])) /\
    (["domain.created"] = [] -> (fun _ => true) "https://example.com/hook" = true ->
     exists req, fst res = [req] /\ req_url req = "https://example.com/hook") /\
    (["domain.created"] = [] -> (fun _ => true) "https://example.com/hook" = false ->
     res = ([], TaskRaise "InvalidURL")).
Proof.
  assert (H1 : create_webhook (fun _ => "") pro_webhook_db 1 7 "https://example.com/hook" ["domain.created"]
     2 "secret" "2026-01-01T00:00:00Z" =
   (RouteOk 201 (to_public {| webhook_id := 2; wh_workspace_id := 1; url := "https://example.com/hook";
                              secret := "secret"; event_types := Some ["domain.created"];
                              is_active := true |} "2026-01-01T00:00:00Z"),
    {| whdb_workspaces := [pro_ws];
       whdb_endpoints := [{| webhook_id := 2; wh_workspace_id := 1; url := "https://example.com/hook";
                             secret := "secret"; event_types := Some ["domain.created"];
                             is_active := true |}] |})) by (vm_compute; reflexivity).
  assert (H2 : (2 < 2 ^ 128)%N) by (vm_compute; reflexivity).
  split; [split; assumption|].
  exact (created_webhook_test_ping (fun _ => "") (fun _ _ => "sig") "1.0" (fun _ => true) pro_webhook_db 1 7
           "https://example.com/hook" ["domain.created"] 2 "secret" "2026-01-01T00:00:00Z" _ _
           0 "d1" "t1" (HttpStatus 200) H1 H2).
Defined.

(** *** Retries of a webhook delivery *)

Lemma deliver_webhook_shape (sign : string -> jvalue -> string) (SV : string)
      (uok : string -> bool) (eps : list WebhookEndpoint) (r : Z) (did dat : string)
      (resp : http_response) (wid et : string) (p : pydict) :
  let res := deliver_webhook sign SV uok eps r did dat resp wid et p in
  (fst res = [] \/ exists req, fst res = [req]) /\
  (forall c, snd res = TaskRetry c -> r < max_retries /\ c = 30 * 2 ^ r /\ exists req, fst res = [req]).
Proof.
  cbv zeta. unfold deliver_webhook.
  destruct (uuid_parse wid) as [id|]; [|split; [left; reflexivity | discriminate]].
  destruct (find _ eps) as [e|]; [|split; [left; reflexivity | discriminate]].
  destruct (negb (is_active e)); [split; [left; reflexivity | discriminate]|].
  destruct (_ && _); [split; [left; reflexivity | discriminate]|].
  destruct (negb (uok (url e))); [split; [left; reflexivity | discriminate]|].
  assert (Hr : forall exc c, celery_retry r exc = TaskRetry c -> r < max_retries /\ c = 30 * 2 ^ r).
  { unfold celery_retry. intros exc c. destruct (r + 1 >? max_retries) eqn:E; [discriminate|].
    intros H. injection H as <-. rewrite Z.gtb_ltb in E. apply Z.ltb_ge in E.
    split; [lia | reflexivity]. }
  destruct resp as [code|].
  - destruct (_ && _).
    + split; [right; eexists; reflexivity | discriminate].
    + split; [right; eexists; reflexivity|].
      intros c H. destruct (Hr _ _ H) as [H1 H2]. split; [exact H1|]. split; [exact H2|]. eexists; reflexivity.
  - split; [right; eexists; reflexivity|].
    intros c H. destruct (Hr _ _ H) as [H1 H2]. split; [exact H1|]. split; [exact H2|]. eexists; reflexivity.
Qed.

Lemma celery_runs_bound (sign : string -> jvalue -> string) (SV : string) (uok : string -> bool)
      (eps : list WebhookEndpoint) (ids ats : Z -> string) (resps : Z -> http_response)
      (wid et : string) (p : pydict) (fuel : nat) (r : Z) :
  0 <= r ->
  let '(reqs, cs, _) := celery_runs sign SV uok eps ids ats resps fuel r wid et p in
  Z.of_nat (length reqs) <= Z.max 1 (6 - r) /\
  cs = map (fun k => 30 * 2 ^ (r + Z.of_nat k)) (seq 0 (length cs)) /\
  r + Z.of_nat (length cs) <= Z.max r 5.
Proof.
  revert r. induction fuel as [|f IH]; intros r Hr0; cbn [celery_runs];
    destruct (deliver_webhook_shape sign SV uok eps r (ids r) (ats r) (resps r) wid et p) as [Hreq Hretry];
    destruct (deliver_webhook sign SV uok eps r (ids r) (ats r) (resps r) wid et p) as [reqs out];
    cbn [fst snd] in Hreq, Hretry.
  - assert (Hl : (length reqs <= 1)%nat) by (destruct Hreq as [-> | [q ->]]; simpl; lia).
    destruct out as [d|c|x]; cbn [length map seq].
    + split; [lia|]. split; [reflexivity | lia].
    + destruct (Hretry c eq_refl) as (Hlt & -> & _).
      unfold max_retries, annotation_max_retries in Hlt.
      split; [lia|]. split; [rewrite Z.add_0_r; reflexivity | lia].
    + split; [lia|]. split; [reflexivity | lia].
  - assert (Hl : (length reqs <= 1)%nat) by (destruct Hreq as [-> | [q ->]]; simpl; lia).
    destruct out as [d|c|x]; cbn [length map seq].
    + split; [lia|]. split; [reflexivity | lia].
    + destruct (Hretry c eq_refl) as (Hlt & -> & (q & ->)).
      unfold max_retries, annotation_max_retries in Hlt.
      specialize (IH (r + 1) ltac:(lia)).
      destruct (celery_runs sign SV uok eps ids ats resps f (r + 1) wid et p) as [[reqs' cs] last].
      destruct IH as (H1 & H2 & H3).
      cbn [length app map seq].
      split; [rewrite Nat2Z.inj_succ; lia|].
      split.
      * cbn [seq map]. f_equal; [rewrite Z.add_0_r; reflexivity|].
        rewrite H2 at 1. rewrite <- seq_shift, map_map.
        apply map_ext. intros k. rewrite Nat2Z.inj_succ.
        replace (r + Z.succ (Z.of_nat k)) with (r + 1 + Z.of_nat k) by lia. reflexivity.
      * lia.
    + split; [lia|]. split; [reflexivity | lia].
Qed.

(** A queued delivery, whatever the network answers and whatever the
    stored URL, sends at most six POST requests (the first run and the five
    retries the app-wide [max_retries = 5] allows), and the countdowns of
    its retries are the first of 30, 60, 120, 240 and 480 seconds, in that
    order. *)
Theorem delivery_attempts_bounded (sign : string -> jvalue -> string) (SV : string)
        (uok : string -> bool)
        (eps : list WebhookEndpoint) (ids ats : Z -> string) (resps : Z -> http_response)
        (wid et : string) (p : pydict) (fuel : nat) :
  let '(reqs, cs, _) := celery_runs sign SV uok eps ids ats resps fuel 0 wid et p in
  (length reqs <= 6)%nat /\ exists n, (n <= 5)%nat /\ cs = firstn n [30; 60; 120; 240; 480].
Proof.
  pose proof (celery_runs_bound sign SV uok eps ids ats resps wid et p fuel 0 ltac:(lia)) as H.
  destruct (celery_runs sign SV uok eps ids ats resps fuel 0 wid et p) as [[reqs cs] last].
  destruct H as (H1 & H2 & H3).
  split; [cbn in H1; lia|].
  exists (length cs). split; [lia|].
  rewrite H2 at 1.
  assert (Hn : length cs = 0%nat \/ length cs = 1%nat \/ length cs = 2%nat \/
               length cs = 3%nat \/ length cs = 4%nat \/ length cs = 5%nat) by lia.
  destruct Hn as [-> | [-> | [-> | [-> | [-> | ->]]]]]; reflexivity.
Qed.

Lemma deliver_webhook_failing (sign : string -> jvalue -> string) (SV : string)
      (uok : string -> bool)
      (eps : list WebhookEndpoint) (r : Z) (did dat : string) (resp : http_response)
      (wid et : string) (p : pydict) (id : N) (e : WebhookEndpoint) :
  uuid_parse wid = Some id ->
  find (fun x => N.eqb (webhook_id x) id) eps = Some e ->
  is_active e = true ->
  (match event_types e with Some l => l | None => [] end = [] \/
   str_mem et (match event_types e with Some l => l | None => [] end) = true) ->
  uok (url e) = true ->
  failing resp ->
  exists req exc, deliver_webhook sign SV uok eps r did dat resp wid et p = ([req], celery_retry r exc) /\
    req_url req = url e /\ assoc (req_headers req) "X-CartoGraph-Delivery" = Some did.
Proof.
  intros Hu Hf Ha Hs Hok Hfail.
  unfold deliver_webhook. rewrite Hu, Hf, Ha. cbn [negb].
  assert (Hsk : (negb (Nat.eqb (length (match event_types e with Some l => l | None => [] end)) 0) &&
                 negb (str_mem et (match event_types e with Some l => l | None => [] end))) = false).
  { destruct Hs as [-> | ->]; [reflexivity | apply andb_false_r]. }
  rewrite Hsk, Hok. cbn [negb].
  destruct resp as [code|].
  - cbn in Hfail.
    assert (Hc : (200 <=? code) && (code <? 300) = false).
    { destruct (200 <=? code) eqn:E1, (code <? 300) eqn:E2; try reflexivity.
      apply Z.leb_le in E1. apply Z.ltb_lt in E2. exfalso. apply Hfail. lia. }
    rewrite Hc. eexists _, _. split; [reflexivity|]. split; reflexivity.
  - eexists _, _. split; [reflexivity|]. split; reflexivity.
Qed.

(** When every run of a delivery to an existing, active endpoint that takes
    the event, at a URL httpx accepts, meets a failing answer, the task
    posts six times to the endpoint's URL, is retried after 30, 60, 120, 240
    and 480 seconds, and ends by raising. Each attempt carries the delivery
    id drawn by its own run in [X-CartoGraph-Delivery], so the receiver sees
    six different ids for the one event when the ids drawn differ. *)
Theorem delivery_failing_endpoint (sign : string -> jvalue -> string) (SV : string)
        (uok : string -> bool)
        (eps : list WebhookEndpoint) (ids ats : Z -> string) (resps : Z -> http_response)
        (wid et : string) (p : pydict) (id : N) (e : WebhookEndpoint) :
  uuid_parse wid = Some id ->
  find (fun x => N.eqb (webhook_id x) id) eps = Some e ->
  is_active e = true ->
  (match event_types e with Some l => l | None => [] end = [] \/
   str_mem et (match event_types e with Some l => l | None => [] end) = true) ->
  uok (url e) = true ->
  (forall r, failing (resps r)) ->
  exists reqs exc,
    celery_runs sign SV uok eps ids ats resps 5 0 wid et p =
      (reqs, [30; 60; 120; 240; 480], TaskRaise exc) /\
    map req_url reqs = [url e; url e; url e; url e; url e; url e] /\
    map (fun q => assoc (req_headers q) "X-CartoGraph-Delivery") reqs =
      [Some (ids 0); Some (ids 1); Some (ids 2); Some (ids 3); Some (ids 4); Some (ids 5)].
Proof.
  intros Hu Hf Ha Hs Hok Hfail.
  destruct (deliver_webhook_failing sign SV uok eps 0 (ids 0) (ats 0) (resps 0) wid et p id e Hu Hf Ha Hs Hok (Hfail 0))
    as (q0 & x0 & E0 & U0 & D0).
  destruct (deliver_webhook_failing sign SV uok eps 1 (ids 1) (ats 1) (resps 1) wid et p id e Hu Hf Ha Hs Hok (Hfail 1))
    as (q1 & x1 & E1 & U1 & D1).
  destruct (deliver_webhook_failing sign SV uok eps 2 (ids 2) (ats 2) (resps 2) wid et p id e Hu Hf Ha Hs Hok (Hfail 2))
    as (q2 & x2 & E2 & U2 & D2).
  destruct (deliver_webhook_failing sign SV uok eps 3 (ids 3) (ats 3) (resps 3) wid et p id e Hu Hf Ha Hs Hok (Hfail 3))
    as (q3 & x3 & E3 & U3 & D3).
  destruct (deliver_webhook_failing sign SV uok eps 4 (ids 4) (ats 4) (resps 4) wid et p id e Hu Hf Ha Hs Hok (Hfail 4))
    as (q4 & x4 & E4 & U4 & D4).
  destruct (deliver_webhook_failing sign SV uok eps 5 (ids 5) (ats 5) (resps 5) wid et p id e Hu Hf Ha Hs Hok (Hfail 5))
    as (q5 & x5 & E5 & U5 & D5).
  exists [q0; q1; q2; q3; q4; q5], x5.
  split; [|split; cbn [map]; congruence].
  cbn [celery_runs]. rewrite E0. cbn. rewrite E1. cbn. rewrite E2. cbn. rewrite E3. cbn.
  rewrite E4. cbn. rewrite E5. cbn.
  reflexivity.
Qed.

Lemma delivery_failing_endpoint_witness :
  (uuid_parse "00000000-0000-0000-0000-000000000001" = Some 1%N /\
   find (fun x => N.eqb (webhook_id x) 1) [created_only_endpoint] = Some created_only_endpoint /\
   is_active created_only_endpoint = true /\
   (match event_types created_only_endpoint with Some l => l | None => [] end = [] \/
    str_mem "domain.created" (match event_types created_only_endpoint with Some l => l | None => [] end) = true) /\
   (fun _ => true) (url created_only_endpoint) = true /\
   (forall r : Z, failing (HttpStatus 503))) /\
  exists reqs exc,
    celery_runs (fun _ _ => "sha256=0") "1.0" (fun _ => true) [created_only_endpoint]
      (fun r => if r =? 0 then "d0" else "d1") (fun _ => "t") (fun _ => HttpStatus 503) 5 0
      "00000000-0000-0000-0000-000000000001" "domain.created" [] =
      (reqs, [30; 60; 120; 240; 480], TaskRaise exc) /\
    map req_url reqs = [url created_only_endpoint; url created_only_endpoint; url created_only_endpoint;
                        url created_only_endpoint; url created_only_endpoint; url created_only_endpoint] /\
    map (fun q => assoc (req_headers q) "X-CartoGraph-Delivery") reqs =
      [Some "d0"; Some "d1"; Some "d1"; Some "d1"; Some "d1"; Some "d1"].
Proof.
  assert (H1 : uuid_parse "00000000-0000-0000-0000-000000000001" = Some 1%N) by reflexivity.
  assert (H2 : find (fun x => N.eqb (webhook_id x) 1) [created_only_endpoint] = Some created_only_endpoint)
    by reflexivity.
  assert (H3 : is_active created_only_endpoint = true) by reflexivity.
  assert (H4 : match event_types created_only_endpoint with Some l => l | None => [] end = [] \/
               str_mem "domain.created" (match event_types created_only_endpoint with Some l => l | None => [] end) = true)
    by (right; reflexivity).
  assert (H6 : (fun _ => true) (url created_only_endpoint) = true) by reflexivity.
  assert (H5 : forall r : Z, failing (HttpStatus 503)) by (intros _; cbn; lia).
  split; [repeat split; assumption|].
  exact (delivery_failing_endpoint (fun _ _ => "sha256=0") "1.0" (fun _ => true) [created_only_endpoint]
           (fun r => if r =? 0 then "d0" else "d1") (fun _ => "t") (fun _ => HttpStatus 503)
           "00000000-0000-0000-0000-000000000001" "domain.created" [] 1 created_only_endpoint
           H1 H2 H3 H4 H6 H5).
Defined.

Lemma filter_all {A : Type} (p : A -> bool) (l : list A) :
  (forall x, In x l -> p x = true) -> filter p l = l.
Proof.
  induction l as [|a r IH]; simpl; intros H; [reflexivity|].
  rewrite (H a (or_introl eq_refl)). f_equal. apply IH. intros x Hx. apply H. right; exact Hx.
Qed.

Lemma in_firstn_in {A : Type} (n : nat) (l : list A) (x : A) : In x (firstn n l) -> In x l.
Proof. intros H. rewrite <- (firstn_skipn n l). apply in_or_app. left; exact H. Qed.

Lemma in_skipn_in {A : Type} (n : nat) (l : list A) (x : A) : In x (skipn n l) -> In x l.
Proof. intros H. rewrite <- (firstn_skipn n l). apply in_or_app. right; exact H. Qed.

Lemma insert_by_id_perm (d : DomainRow) (l : list DomainRow) :
  Permutation (insert_by_id d l) (d :: l).
Proof.
  induction l as [|x r IH]; simpl; [auto|].
  destruct (domain_id d <=? domain_id x)%N; [auto|].
  eapply perm_trans; [apply perm_skip, IH | apply perm_swap].
Qed.

Lemma order_by_id_perm (l : list DomainRow) : Permutation (order_by_id l) l.
Proof.
  induction l as [|a r IH]; [constructor|].
  change (order_by_id (a :: r)) with (insert_by_id a (order_by_id r)).
  eapply perm_trans; [apply insert_by_id_perm | apply perm_skip, IH].
Qed.

Lemma insert_by_id_sorted (d : DomainRow) (l : list DomainRow) :
  StronglySorted id_lt l -> ~ In (domain_id d) (map domain_id l) ->
  StronglySorted id_lt (insert_by_id d l).
Proof.
  induction l as [|x r IH]; intros Hs Hn; simpl.
  - repeat constructor.
  - inversion Hs as [|? ? Hr Hf]; subst. simpl in Hn.
    assert (Hne : domain_id x <> domain_id d) by tauto.
    rewrite Forall_forall in Hf.
    destruct (N.leb_spec (domain_id d) (domain_id x)).
    + constructor; [exact Hs|]. apply Forall_forall. intros y [<-|Hy]; unfold id_lt; [lia|].
      specialize (Hf y Hy). unfold id_lt in Hf. lia.
    + constructor; [apply IH; tauto|]. apply Forall_forall. intros y Hy.
      apply (Permutation_in _ (insert_by_id_perm d r)) in Hy. destruct Hy as [<-|Hy].
      * unfold id_lt; lia.
      * apply Hf; exact Hy.
Qed.

Lemma order_by_id_sorted (l : list DomainRow) :
  NoDup (map domain_id l) -> StronglySorted id_lt (order_by_id l).
Proof.
  induction l as [|a r IH]; intros H; [constructor|].
  inversion H as [|? ? Hn Hd]; subst.
  change (order_by_id (a :: r)) with (insert_by_id a (order_by_id r)).
  apply insert_by_id_sorted; [apply IH; exact Hd|].
  intros Hin. apply Hn. eapply Permutation_in; [apply Permutation_map, order_by_id_perm | exact Hin].
Qed.

Lemma sorted_unique (l1 l2 : list DomainRow) :
  StronglySorted id_lt l1 -> StronglySorted id_lt l2 ->
  (forall x, In x l1 <-> In x l2) -> l1 = l2.
Proof.
  revert l2. induction l1 as [|a r1 IH]; intros l2 H1 H2 He.
  - destruct l2 as [|b r2]; [reflexivity|].
    exfalso. apply (proj2 (He b)). left; reflexivity.
  - destruct l2 as [|b r2]; [exfalso; apply (proj1 (He a)); left; reflexivity|].
    inversion H1 as [|? ? Hs1 Hf1]; subst. inversion H2 as [|? ? Hs2 Hf2]; subst.
    rewrite Forall_forall in Hf1, Hf2.
    assert (a = b) as <-.
    { destruct (proj1 (He a) (or_introl eq_refl)) as [E|Ia]; [symmetry; exact E|].
      destruct (proj2 (He b) (or_introl eq_refl)) as [E|Ib]; [exact E|].
      specialize (Hf1 _ Ib). specialize (Hf2 _ Ia). unfold id_lt in *. lia. }
    f_equal. apply IH; [exact Hs1 | exact Hs2|].
    intros x; split; intros Hx.
    + destruct (proj1 (He x) (or_intror Hx)) as [E|]; [|assumption].
      subst x. specialize (Hf1 _ Hx). unfold id_lt in Hf1. lia.
    + destruct (proj2 (He x) (or_intror Hx)) as [E|]; [|assumption].
      subst x. specialize (Hf2 _ Hx). unfold id_lt in Hf2. lia.
Qed.

Lemma sorted_filter (p : DomainRow -> bool) (l : list DomainRow) :
  StronglySorted id_lt l -> StronglySorted id_lt (filter p l).
Proof.
  induction l as [|a r IH]; simpl; intros H; [constructor|].
  inversion H as [|? ? Hr Hf]; subst. destruct (p a); [|apply IH; exact Hr].
  constructor; [apply IH; exact Hr|].
  rewrite Forall_forall in *. intros y Hy. apply filter_In in Hy. apply Hf. tauto.
Qed.

Lemma nodup_map_filter (p : DomainRow -> bool) (l : list DomainRow) :
  NoDup (map domain_id l) -> NoDup (map domain_id (filter p l)).
Proof.
  induction l as [|a r IH]; simpl; intros H; [constructor|].
  inversion H as [|? ? Hn Hd]; subst. destruct (p a); simpl; [|apply IH; exact Hd].
  constructor; [|apply IH; exact Hd].
  intros Hin. apply Hn. apply in_map_iff in Hin as [y [Ey Hy]].
  apply filter_In in Hy. apply in_map_iff. exists y. split; [exact Ey | tauto].
Qed.

Lemma filter_after (S0 : list DomainRow) (i : nat) (x : DomainRow) :
  StronglySorted id_lt S0 -> nth_error S0 i = Some x ->
  filter (fun d => (domain_id x <? domain_id d)%N) S0 = skipn (S i) S0.
Proof.
  revert i. induction S0 as [|a r IH]; intros i Hs Hn; [destruct i; discriminate|].
  inversion Hs as [|? ? Hr Hf]; subst. rewrite Forall_forall in Hf.
  destruct i as [|i]; simpl in Hn.
  - injection Hn as <-. simpl. rewrite N.ltb_irrefl.
    apply filter_all. intros y Hy. apply N.ltb_lt. apply Hf. exact Hy.
  - assert (Hx : In x r) by (eapply nth_error_In; exact Hn).
    specialize (Hf x Hx). unfold id_lt in Hf. simpl.
    rewrite (proj2 (N.ltb_ge (domain_id x) (domain_id a))) by lia.
    apply IH; assumption.
Qed.

Lemma order_filter_after (wc : DomainRow -> bool) (rows : list DomainRow) (i : nat) (x : DomainRow) :
  NoDup (map domain_id rows) ->
  nth_error (order_by_id (filter wc rows)) i = Some x ->
  order_by_id (filter (fun d => (domain_id x <? domain_id d)%N) (filter wc rows))
  = skipn (S i) (order_by_id (filter wc rows)).
Proof.
  intros Hnd Hn.
  assert (Hnd1 := nodup_map_filter wc rows Hnd).
  rewrite <- (filter_after _ i x (order_by_id_sorted _ Hnd1) Hn).
  apply sorted_unique.
  - apply order_by_id_sorted. apply nodup_map_filter. exact Hnd1.
  - apply sorted_filter. apply order_by_id_sorted. exact Hnd1.
  - intros y. split; intros Hy.
    + apply (Permutation_in _ (order_by_id_perm _)) in Hy.
      apply filter_In in Hy as [Hy Hp]. apply filter_In. split; [|exact Hp].
      apply (Permutation_in _ (Permutation_sym (order_by_id_perm _))). exact Hy.
    + apply filter_In in Hy as [Hy Hp].
      apply (Permutation_in _ (order_by_id_perm _)) in Hy.
      apply (Permutation_in _ (Permutation_sym (order_by_id_perm _))).
      apply filter_In. split; assumption.
Qed.

Lemma assoc_in_values {A : Type} (l : list (string * A)) (k : string) (v : A) :
  assoc l k = Some v -> In v (map snd l).
Proof.
  induction l as [|[k' v'] r IH]; simpl; [discriminate|].
  destruct (String.eqb k k'); [intros E; injection E as ->; left; reflexivity|].
  intros E. right. apply IH. exact E.
Qed.

Lemma list_page_size_pos (t : string) (page_size : Z) :
  1 <= page_size -> 1 <= clamp_page_size (make_gate t) page_size 50.
Proof.
  intros H. unfold clamp_page_size, make_gate; cbn [limits].
  rewrite (proj2 (Z.gtb_lt page_size 0)) by lia.
  destruct (assoc TIER_LIMITS (lower t)) as [l|] eqn:E.
  - apply assoc_in_values in E. simpl in E.
    repeat destruct E as [<-|E]; try contradiction; simpl; lia.
  - simpl. lia.
Qed.

Lemma list_domains_at (DS : pydict -> option pydict) (wc : DomainRow -> bool) (db : AppDB)
      (user_id : N) (page_size : Z) (j : nat) (cur : option string) :
  NoDup (map domain_id (app_domains db)) ->
  (forall d, In d (app_domains db) -> (domain_id d < 2 ^ 128)%N) ->
  ((j = 0%nat /\ cur = None) \/
   (exists i x, j = S i /\ nth_error (order_by_id (filter wc (app_domains db))) i = Some x /\
                cur = Some (uuid_str (domain_id x)))) ->
  exists total,
    list_domains DS wc db user_id 1 page_size cur =
    page_response DS
      (clamp_page_size (make_gate (match get_caller_workspace db user_id with
                                   | Some w => ws_tier w | None => "free" end)) page_size 50)
      total 1
      (firstn (Z.to_nat (clamp_page_size (make_gate (match get_caller_workspace db user_id with
                                   | Some w => ws_tier w | None => "free" end)) page_size 50))
              (skipn j (order_by_id (filter wc (app_domains db))))).
Proof.
  intros Hnd Hid [[-> ->]|[i [x [-> [Hn ->]]]]].
  - eexists. unfold list_domains, page_response. cbv zeta.
    rewrite Z.sub_diag, Z.mul_0_l. reflexivity.
  - assert (Hx : In x (app_domains db)).
    { apply nth_error_In in Hn. apply (Permutation_in _ (order_by_id_perm _)) in Hn.
      apply filter_In in Hn. tauto. }
    eexists. unfold list_domains, page_response. cbv zeta.
    rewrite uuid_str_truthy. cbn iota.
    rewrite (uuid_parse_str _ (Hid x Hx)).
    rewrite (order_filter_after wc _ i x Hnd Hn). reflexivity.
Qed.

Lemma map_res_ids (DS : pydict -> option pydict) (dom : list DomainRow) :
  (forall d, In d dom -> exists s, summary_of DS d = inl s /\
                                  item_id s = JStr (uuid_str (domain_id d))) ->
  exists data, map_res (summary_of DS) dom = inl data /\
               map item_id data = map (fun d => JStr (uuid_str (domain_id d))) dom.
Proof.
  induction dom as [|d r IH]; intros H; [exists []; split; reflexivity|].
  destruct (H d (or_introl eq_refl)) as [s [Es Is]].
  destruct IH as [data [Ed Id]]; [intros y Hy; apply H; right; exact Hy|].
  exists (s :: data). simpl. rewrite Es, Ed. split; [reflexivity|]. simpl. rewrite Is, Id. reflexivity.
Qed.

Lemma last_opt_nth {A : Type} (l : list A) :
  l <> [] -> last_opt l = nth_error l (length l - 1).
Proof.
  intros Hl. unfold last_opt. destruct l as [|a r]; [contradiction|].
  pose proof (nth_error_rev 0 (a :: r)) as E.
  rewrite (proj2 (Nat.ltb_lt 0 (length (a :: r)))) in E by (simpl; lia).
  destruct (rev (a :: r)) as [|y ys]; simpl in E |- *; rewrite E; f_equal; lia.
Qed.

Lemma follow_cursor_from (DS : pydict -> option pydict) (wc : DomainRow -> bool) (db : AppDB)
      (user_id : N) (page_size : Z) :
  1 <= page_size ->
  NoDup (map domain_id (app_domains db)) ->
  (forall d, In d (app_domains db) -> (domain_id d < 2 ^ 128)%N) ->
  (forall d, In d (app_domains db) -> wc d = true ->
             exists s, summary_of DS d = inl s /\ item_id s = JStr (uuid_str (domain_id d))) ->
  forall fuel j cur,
    (length (order_by_id (filter wc (app_domains db))) - j < fuel)%nat ->
    (j <= length (order_by_id (filter wc (app_domains db))))%nat ->
    ((j = 0%nat /\ cur = None) \/
     (exists i x, j = S i /\ nth_error (order_by_id (filter wc (app_domains db))) i = Some x /\
                  cur = Some (uuid_str (domain_id x)))) ->
    exists items,
      follow_cursor DS wc fuel db user_id page_size cur = Some items /\
      map item_id items =
      map (fun d => JStr (uuid_str (domain_id d))) (skipn j (order_by_id (filter wc (app_domains db)))).
Proof.
  intros Hps Hnd Hid Hsum fuel. induction fuel as [|f IH]; intros j cur Hf Hj Hc; [lia|].
  destruct (list_domains_at DS wc db user_id page_size j cur Hnd Hid Hc) as [total E].
  cbn [follow_cursor]. rewrite E.
  set (S0 := order_by_id (filter wc (app_domains db))) in *.
  set (e := clamp_page_size _ page_size 50).
  assert (He : 1 <= e) by apply list_page_size_pos, Hps.
  set (dom := firstn (Z.to_nat e) (skipn j S0)).
  assert (Hdom : forall d, In d dom -> exists s, summary_of DS d = inl s /\
                                                item_id s = JStr (uuid_str (domain_id d))).
  { intros d Hd. apply in_firstn_in, in_skipn_in in Hd.
    apply (Permutation_in _ (order_by_id_perm _)) in Hd. apply filter_In in Hd as [Hd Hw].
    apply Hsum; assumption. }
  destruct (map_res_ids DS dom Hdom) as [data [Ed Id]].
  assert (Hlen : length dom = Nat.min (Z.to_nat e) (length S0 - j)).
  { unfold dom. rewrite length_firstn, length_skipn. reflexivity. }
  unfold page_response. rewrite Ed.
  destruct (Z.of_nat (length dom) =? e) eqn:Eq.
  - apply Z.eqb_eq in Eq.
    assert (Hl : length dom = Z.to_nat e) by lia.
    assert (Hne : dom <> []) by (intros H0; rewrite H0 in Hl; simpl in Hl; lia).
    rewrite (last_opt_nth dom Hne).
    assert (En : nth_error dom (length dom - 1) = nth_error S0 (j + (length dom - 1))).
    { unfold dom at 1. rewrite nth_error_firstn.
      rewrite (proj2 (Nat.ltb_lt _ _)) by lia. apply nth_error_skipn. }
    rewrite En.
    destruct (nth_error S0 (j + (length dom - 1))) as [x|] eqn:Ex.
    2:{ apply nth_error_None in Ex. lia. }
    cbn [option_map].
    simpl dict_get.
    destruct (IH (S (j + (length dom - 1))) (Some (uuid_str (domain_id x)))) as [more [Em Im]].
    + lia.
    + lia.
    + right. exists (j + (length dom - 1))%nat, x. split; [reflexivity|]. split; [exact Ex | reflexivity].
    + rewrite Em. exists (data ++ more)%list. split; [reflexivity|].
      rewrite map_app, Id, Im, <- map_app. f_equal.
      replace (S (j + (length dom - 1))) with (Z.to_nat e + j)%nat by lia.
      rewrite <- skipn_skipn. unfold dom. apply firstn_skipn.
  - assert (Hall : dom = skipn j S0).
    { unfold dom. apply firstn_all2. rewrite length_skipn.
      apply Z.eqb_neq in Eq. lia. }
    simpl dict_get. exists data. split; [reflexivity|]. rewrite Id, Hall. reflexivity.
Qed.

(** [list_domains]: a client that starts without a cursor and passes each
    [next_cursor] back as [after_cursor] receives every domain that matches
    the filters exactly once, in ascending [domain_id] order, within one
    request more than there are rows (ids unique and 128-bit, every
    matching row's summary valid and keeping its [domain_id]). *)
Theorem list_domains_cursor_walk (DS : pydict -> option pydict) (wc : DomainRow -> bool)
        (db : AppDB) (user_id : N) (page_size : Z) :
  1 <= page_size <= 500 ->
  NoDup (map domain_id (app_domains db)) ->
  (forall d, In d (app_domains db) -> (domain_id d < 2 ^ 128)%N) ->
  (forall d, In d (app_domains db) -> wc d = true ->
             exists s, summary_of DS d = inl s /\ item_id s = JStr (uuid_str (domain_id d))) ->
  exists items,
    follow_cursor DS wc (S (length (app_domains db))) db user_id page_size None = Some items /\
    map item_id items =
      map (fun d => JStr (uuid_str (domain_id d))) (order_by_id (filter wc (app_domains db))) /\
    StronglySorted id_lt (order_by_id (filter wc (app_domains db))) /\
    (forall d, In d (order_by_id (filter wc (app_domains db))) <->
               In d (app_domains db) /\ wc d = true).
Proof.
  intros Hps Hnd Hid Hsum.
  assert (HL : (length (order_by_id (filter wc (app_domains db))) <= length (app_domains db))%nat).
  { rewrite (Permutation_length (order_by_id_perm _)). apply filter_length_le. }
  destruct (follow_cursor_from DS wc db user_id page_size ltac:(lia) Hnd Hid Hsum
              (S (length (app_domains db))) 0 None ltac:(lia) ltac:(lia) (or_introl (conj eq_refl eq_refl)))
    as [items [E I]].
  exists items. split; [exact E|]. split; [exact I|]. split.
  - apply order_by_id_sorted. apply nodup_map_filter. exact Hnd.
  - intros d. rewrite <- filter_In. split; apply Permutation_in;
      [apply order_by_id_perm | apply Permutation_sym, order_by_id_perm].
Qed.

Lemma list_domains_cursor_walk_witness :
  (1 <= 2 <= 500 /\
   NoDup (map domain_id (app_domains three_domains_db)) /\
   (forall d, In d (app_domains three_domains_db) -> (domain_id d < 2 ^ 128)%N)) /\
  exists items,
    follow_cursor summary_as_is (fun _ => true) 4 three_domains_db 0 2 None = Some items /\
    map item_id items = [JStr "00000000-0000-0000-0000-000000000001";
                         JStr "00000000-0000-0000-0000-000000000002";
                         JStr "00000000-0000-0000-0000-000000000003"].
Proof.
  assert (Hnd : NoDup (map domain_id (app_domains three_domains_db))).
  { simpl. repeat constructor; simpl; intuition discriminate. }
  assert (Hid : forall d, In d (app_domains three_domains_db) -> (domain_id d < 2 ^ 128)%N).
  { intros d Hd. simpl in Hd. repeat destruct Hd as [<-|Hd]; try contradiction; simpl; lia. }
  split; [split; [lia | split; assumption]|].
  assert (Hs : forall d, In d (app_domains three_domains_db) -> (fun _ => true) d = true ->
                         exists s, summary_of summary_as_is d = inl s /\
                                   item_id s = JStr (uuid_str (domain_id d))).
  { intros d Hd _. simpl in Hd.
    repeat destruct Hd as [<-|Hd]; try contradiction; eexists; split; reflexivity. }
  destruct (list_domains_cursor_walk summary_as_is (fun _ => true) three_domains_db 0 2
              ltac:(lia) Hnd Hid Hs) as [items [E [I _]]].
  exists items. split; [exact E|]. rewrite I. reflexivity.
Defined.

Lemma list_domains_first (DS : pydict -> option pydict) (wc : DomainRow -> bool) (db : AppDB)
      (user_id : N) (page_size : Z) :
  list_domains DS wc db user_id 1 page_size None =
  page_response DS
    (clamp_page_size (make_gate (match get_caller_workspace db user_id with
                                 | Some w => ws_tier w | None => "free" end)) page_size 50)
    (Z.of_nat (length (filter wc (app_domains db)))) 1
    (firstn (Z.to_nat (clamp_page_size (make_gate (match get_caller_workspace db user_id with
                                 | Some w => ws_tier w | None => "free" end)) page_size 50))
            (order_by_id (filter wc (app_domains db)))).
Proof.
  unfold list_domains, page_response. cbv zeta.
  rewrite Z.sub_diag, Z.mul_0_l. reflexivity.
Qed.

Lemma extract_summary_cis (d : DomainRow) (f : pydict) :
  extract_summary_fields d = Some f ->
  or_empty_get (dict_get (domain_public d) "intent_layer") "commercial_intent_score"
  = Some (dict_get f "commercial_intent_score").
Proof.
  unfold extract_summary_fields. cbv zeta.
  destruct (or_empty_get _ "domain_rating"); [|discriminate].
  destruct (or_empty_get _ "organic_traffic_estimate"); [|discriminate].
  destruct (or_empty_get _ "commercial_intent_score"); [|discriminate].
  destruct (or_empty_get _ "platform"); [|discriminate].
  destruct (or_empty_get _ "category_primary"); [|discriminate].
  destruct (or_empty_get _ "value"); [|discriminate].
  intros E. injection E as <-. reflexivity.
Qed.

Lemma validate_fields_lookup (fs : list (string * bool)) (m r : pydict) (k : string) :
  validate_fields fs m = Some r ->
  dict_lookup r k =
  if existsb (String.eqb k) (map fst fs)
  then Some (match dict_lookup m k with Some v => v | None => JNull end)
  else None.
Proof.
  revert r. induction fs as [|[f req] fs IH]; intros r H; cbn [validate_fields] in H.
  - injection H as <-. reflexivity.
  - cbn [map fst existsb].
    destruct (dict_lookup m f) as [v|] eqn:Ef.
    + destruct (validate_fields fs m) as [r'|] eqn:Er; [|discriminate].
      injection H as <-. cbn [dict_lookup].
      destruct (String.eqb_spec k f) as [->|Hne]; [rewrite Ef; reflexivity|].
      cbn [orb]. apply IH. reflexivity.
    + destruct req; [discriminate|].
      destruct (validate_fields fs m) as [r'|] eqn:Er; [|discriminate].
      injection H as <-. cbn [dict_lookup].
      destruct (String.eqb_spec k f) as [->|Hne]; [rewrite Ef; reflexivity|].
      cbn [orb]. apply IH. reflexivity.
Qed.

(** [list_domains] and [get_domain]: for a caller whose tier resolves to
    free, the list view's first summary carries the first matching row's
    [intent_layer.commercial_intent_score], while the body [get_domain]
    returns for that row has [intent_layer] as [None]; [DomainPublic]
    declares no [intent_layer_gated] field, so the body carries no such
    flag either. *)
Theorem list_view_exposes_intent_score (DS : pydict -> option pydict) (wc : DomainRow -> bool)
        (db : AppDB) (user_id : N) (page_size : Z) (d : DomainRow) (o : pydict) (n : Z) :
  1 <= page_size ->
  effective_tier (match get_caller_workspace db user_id with
                  | Some w => ws_tier w | None => "free" end) = "free" ->
  nth_error (order_by_id (filter wc (app_domains db))) 0 = Some d ->
  dict_get (domain_public d) "intent_layer" = JObj o ->
  dict_get o "commercial_intent_score" = JNum n ->
  (forall f s, DS f = Some s ->
               dict_get s "commercial_intent_score" = dict_get f "commercial_intent_score") ->
  (forall body, list_domains DS wc db user_id 1 page_size None = Resp200 body ->
     exists s rest, dict_get body "data" = JList (JObj s :: rest) /\
                    dict_get s "commercial_intent_score" = JNum n) /\
  (forall m db', get_domain db user_id (domain_id d) = (Resp200 m, db') ->
     dict_lookup m "intent_layer" = Some JNull /\
     dict_lookup m "intent_layer_gated" = None).
Proof.
  intros Hps Hfree Hd Hi Hn HDS. split.
  - intros body Hb. rewrite list_domains_first in Hb.
    pose proof (list_page_size_pos (match get_caller_workspace db user_id with
                                    | Some w => ws_tier w | None => "free" end) page_size Hps) as He.
    destruct (order_by_id (filter wc (app_domains db))) as [|d0 rest] eqn:ES; [discriminate|].
    simpl in Hd. injection Hd as ->.
    destruct (Z.to_nat (clamp_page_size _ page_size 50)) as [|k] eqn:Ek; [lia|].
    unfold page_response in Hb. cbn [firstn] in Hb.
    lazymatch type of Hb with
    | match ?c with None => _ | Some _ => _ end = _ => destruct c as [nc|]; [|discriminate]
    end.
    cbn [map_res] in Hb.
    destruct (summary_of DS d) as [s0|exc] eqn:Es; [|discriminate].
    destruct (map_res (summary_of DS) (firstn k rest)) as [data|exc]; [|discriminate].
    injection Hb as <-.
    unfold summary_of in Es.
    destruct (extract_summary_fields d) as [f|] eqn:Ef; [|discriminate].
    destruct (DS f) as [s|] eqn:Edf; [|discriminate].
    injection Es as <-.
    exists s, data. split; [reflexivity|].
    rewrite (HDS f s Edf).
    pose proof (extract_summary_cis d f Ef) as Ec.
    rewrite Hi in Ec. unfold or_empty_get in Ec.
    destruct o as [|kv o']; [simpl in Hn; discriminate|].
    cbn [truthy length Nat.eqb negb] in Ec. injection Ec as <-. exact Hn.
  - intros m db' Hg. unfold get_domain, lookup_route in Hg. cbv zeta in Hg.
    destruct (match get_caller_workspace db user_id with
              | Some w => check_lookup_quota _ _ | None => Pass end); [|discriminate].
    destruct (find _ (app_domains db)) as [dom|]; [|discriminate].
    destruct (mask_domain_by_tier (domain_public dom) _) as [r|] eqn:Em; [|discriminate].
    destruct (DomainPublic_validate r) as [m'|] eqn:Ev; [|discriminate].
    injection Hg as <- _.
    unfold DomainPublic_validate in Ev.
    rewrite !(validate_fields_lookup _ _ _ _ Ev). cbn [DomainPublic_fields map fst existsb].
    split; [|reflexivity].
    assert (Hin : In ("intent_layer", [("free", None); ("starter", Some ["commercial_intent_score"]);
                      ("professional", None); ("business", None); ("enterprise", None)])
                     FIELD_GATING) by (simpl; tauto).
    destruct (mask_decompose _ _ r _ _ Em Hin) as (r1 & r2 & Hstep & _ & E1 & E2).
    rewrite E1.
    rewrite Hfree in Hstep. unfold gate_group in Hstep.
    assert (Ht : (String.eqb "free" "free" && str_mem "intent_layer" HIDDEN_FOR_FREE)%bool = true)
      by reflexivity.
    rewrite Ht in Hstep. injection Hstep as <-.
    rewrite !dict_lookup_set. reflexivity.
Qed.

Lemma list_view_exposes_intent_score_witness :
  (1 <= 2 /\
   effective_tier (match get_caller_workspace three_domains_db 0 with
                   | Some w => ws_tier w | None => "free" end) = "free" /\
   nth_error (order_by_id (filter (fun _ => true) (app_domains three_domains_db))) 0
   = Some (mk_domain_row 1 "a.co.uk" (JObj [("commercial_intent_score", JNum 8)]))) /\
  (exists body s rest,
     list_domains summary_as_is (fun _ => true) three_domains_db 0 1 2 None = Resp200 body /\
     dict_get body "data" = JList (JObj s :: rest) /\
     dict_get s "commercial_intent_score" = JNum 8) /\
  (exists m db', get_domain three_domains_db 0 1 = (Resp200 m, db') /\
     dict_lookup m "intent_layer" = Some JNull).
Proof.
  assert (HDS : forall f s, summary_as_is f = Some s ->
                dict_get s "commercial_intent_score" = dict_get f "commercial_intent_score")
    by (intros f s E; injection E as <-; reflexivity).
  destruct (list_view_exposes_intent_score summary_as_is (fun _ => true) three_domains_db 0 2
              (mk_domain_row 1 "a.co.uk" (JObj [("commercial_intent_score", JNum 8)]))
              [("commercial_intent_score", JNum 8)] 8
              ltac:(lia) eq_refl eq_refl eq_refl eq_refl HDS)
    as [Hl Hg].
  split; [split; [lia | split; reflexivity]|]. split.
  - destruct (Hl _ eq_refl) as [s [rest [E1 E2]]].
    eexists; exists s, rest. split; [reflexivity|]. split; assumption.
  - eexists; eexists. split; [reflexivity|]. apply (Hg _ _ eq_refl).
Defined.

Lemma NoDup_snoc {A : Type} (l : list A) (x : A) :
  NoDup l -> ~ In x l -> NoDup (l ++ [x])%list.
Proof.
  intros Hl Hx. apply (Permutation_NoDup (Permutation_cons_append l x)). constructor; assumption.
Qed.

Lemma import_loop_inv (new_id : nat -> N) (fs lu : nat -> string) (db_rows : list DomainRow)
      (items : list pydict) (st : import_state) :
  import_inv db_rows st ->
  let '(st', err) := import_loop new_id fs lu db_rows items st in
  import_inv db_rows st' /\
  (exists more, imp_pending st' = (imp_pending st ++ more)%list) /\
  (err = None -> imp_created st' + imp_skipped st' =
                 imp_created st + imp_skipped st + Z.of_nat (length items)).
Proof.
  revert st. induction items as [|item rest IH]; intros st Hinv; simpl.
  - split; [exact Hinv|]. split; [exists []; rewrite app_nil_r; reflexivity|]. intros _. lia.
  - destruct (import_name item) as [raw|].
    2:{ split; [exact Hinv|]. split; [exists []; rewrite app_nil_r; reflexivity|]. discriminate. }
    assert (Hskip : forall st1 : import_state,
               imp_pending st1 = imp_pending st -> imp_tasks st1 = imp_tasks st ->
               imp_created st1 = imp_created st -> imp_queued st1 = imp_queued st ->
               imp_skipped st1 = imp_skipped st + 1 ->
               let '(st', err) := import_loop new_id fs lu db_rows rest st1 in
               import_inv db_rows st' /\
               (exists more, imp_pending st' = (imp_pending st ++ more)%list) /\
               (err = None -> imp_created st' + imp_skipped st' =
                              imp_created st + imp_skipped st + Z.of_nat (length (item :: rest)))).
    { intros st1 E1 E2 E3 E4 E5.
      assert (Hinv1 : import_inv db_rows st1).
      { unfold import_inv in *. rewrite E1, E2, E3, E4. exact Hinv. }
      specialize (IH st1 Hinv1).
      destruct (import_loop new_id fs lu db_rows rest st1) as [st' err].
      destruct IH as [Hi [[more Hm] Hc]]. split; [exact Hi|]. split.
      - exists more. rewrite Hm, E1. reflexivity.
      - intros He. specialize (Hc He). rewrite E3, E5 in Hc. simpl length. lia. }
    destruct (String.eqb raw ""); [apply Hskip; reflexivity|].
    destruct (negb (forallb row_fits (imp_pending st))).
    { split; [exact Hinv|]. split; [exists []; rewrite app_nil_r; reflexivity|]. discriminate. }
    destruct (existsb (fun d => String.eqb (domain_name d) raw) (db_rows ++ imp_pending st)) eqn:Ex;
      [apply Hskip; reflexivity|].
    set (st1 := {| imp_pending := (imp_pending st ++ [import_row new_id fs lu (length (imp_pending st)) raw item])%list;
                   imp_created := imp_created st + 1; imp_queued := imp_queued st + 1;
                   imp_skipped := imp_skipped st; imp_tasks := (imp_tasks st ++ [raw])%list |}).
    assert (Hnew : ~ In raw (map domain_name (db_rows ++ imp_pending st))).
    { intros Hin. apply in_map_iff in Hin as [d [Ed Hd]].
      assert (existsb (fun d => String.eqb (domain_name d) raw) (db_rows ++ imp_pending st) = true)
        as Ht by (apply existsb_exists; exists d; split; [exact Hd | apply String.eqb_eq; exact Ed]).
      congruence. }
    rewrite map_app in Hnew.
    destruct Hinv as (Hnames & Hnd & Hfresh & Hcr & Hq & Hst).
    assert (Hinv1 : import_inv db_rows st1).
    { unfold import_inv, st1; cbn [imp_pending imp_tasks imp_created imp_queued].
      split; [rewrite map_app, Hnames; reflexivity|].
      split; [apply NoDup_snoc; [exact Hnd|]; rewrite <- Hnames; intros H; apply Hnew, in_or_app; right; exact H|].
      split; [intros x Hx; apply in_app_or in Hx as [Hx|[<-|[]]];
              [apply Hfresh; exact Hx | intros H; apply Hnew, in_or_app; left; exact H]|].
      split; [rewrite length_app; simpl; lia|].
      split; [lia|].
      intros r Hr. apply in_app_or in Hr as [Hr|[<-|[]]]; [apply Hst; exact Hr | reflexivity]. }
    specialize (IH st1 Hinv1).
    destruct (import_loop new_id fs lu db_rows rest st1) as [st' err].
    destruct IH as [Hi [[more Hm] Hc]]. split; [exact Hi|]. split.
    + exists (import_row new_id fs lu (length (imp_pending st)) raw item :: more).
      rewrite Hm. unfold st1; cbn [imp_pending]. rewrite <- app_assoc. reflexivity.
    + intros He. specialize (Hc He). unfold st1 in Hc; cbn [imp_created imp_skipped] in Hc.
      simpl length. lia.
Qed.

(** [import_domains]: the enrichment tasks queued are for distinct names,
    none of them a domain already stored. On success exactly the rows for
    those names are appended to the table, each with status ["pending"],
    and [created] = [queued_for_enrichment] = their number, with
    [created + skipped_existing] = the payload's length. On an exception
    nothing is stored, whatever was queued before it. *)
Theorem import_domains_outcome (new_id : nat -> N) (fs lu : nat -> string)
        (payload : list pydict) (db : AppDB) :
  let '(resp, db', tasks) := import_domains new_id fs lu payload db in
  NoDup tasks /\
  (forall x, In x tasks -> ~ In x (map domain_name (app_domains db))) /\
  match resp with
  | Resp200 body =>
      app_workspaces db' = app_workspaces db /\
      exists new,
        app_domains db' = (app_domains db ++ new)%list /\
        map domain_name new = tasks /\
        (forall r, In r new -> dict_get (domain_public r) "status" = JStr "pending") /\
        dict_get body "created" = JNum (Z.of_nat (length new)) /\
        dict_get body "queued_for_enrichment" = JNum (Z.of_nat (length new)) /\
        exists sk, dict_get body "skipped_existing" = JNum sk /\
                   Z.of_nat (length new) + sk = Z.of_nat (length payload)
  | _ => db' = db
  end.
Proof.
  unfold import_domains.
  assert (H0 : import_inv (app_domains db) import_start).
  { unfold import_inv; simpl. repeat split; try constructor; try contradiction. }
  pose proof (import_loop_inv new_id fs lu (app_domains db) payload import_start H0) as H.
  destruct (import_loop new_id fs lu (app_domains db) payload import_start) as [st err].
  destruct H as [(Hnames & Hnd & Hfresh & Hcr & Hq & Hst) [_ Hc]].
  destruct err as [exc|].
  - split; [exact Hnd|]. split; [exact Hfresh | reflexivity].
  - destruct (forallb row_fits (imp_pending st)).
    + split; [exact Hnd|]. split; [exact Hfresh|]. split; [reflexivity|].
      exists (imp_pending st). split; [reflexivity|]. split; [exact Hnames|].
      split; [exact Hst|]. simpl dict_get.
      specialize (Hc eq_refl). simpl in Hc.
      split; [rewrite Hcr; reflexivity|]. split; [rewrite Hq, Hcr; reflexivity|].
      exists (imp_skipped st). split; [reflexivity|]. lia.
    + split; [exact Hnd|]. split; [exact Hfresh | reflexivity].
Qed.

Example import_half_bad_payload :
  import_domains (fun k => N.of_nat (100 + k)) (fun _ => "t0") (fun _ => "t1")
                 half_bad_payload three_domains_db
  = (RespServerError "AttributeError", three_domains_db, ["x.org"]).
Proof. reflexivity. Qed.

Lemma get_owned_workspace_ok (db : WebhookDB) (ws_id user_id : N) (ws : Workspace) :
  get_owned_workspace db ws_id user_id = inr ws ->
  In ws (whdb_workspaces db) /\ workspace_id ws = ws_id /\ owner_id ws = user_id.
Proof.
  unfold get_owned_workspace.
  destruct (find _ _) as [w|] eqn:E; [|discriminate].
  apply find_some in E as [Hin Hid]. apply N.eqb_eq in Hid.
  destruct (N.eqb_spec (owner_id w) user_id) as [Ho|]; simpl; [|discriminate].
  intros H. injection H as <-. auto.
Qed.

Lemma get_owned_webhook_ok (db : WebhookDB) (wh_id ws_id : N) (e : WebhookEndpoint) :
  get_owned_webhook db wh_id ws_id = inr e ->
  In e (whdb_endpoints db) /\ webhook_id e = wh_id /\ wh_workspace_id e = ws_id.
Proof.
  unfold get_owned_webhook.
  destruct (find _ _) as [x|] eqn:E; [|discriminate].
  apply find_some in E as [Hin Hid]. apply N.eqb_eq in Hid.
  destruct (N.eqb_spec (wh_workspace_id x) ws_id) as [Ho|]; simpl; [|discriminate].
  intros H. injection H as <-. auto.
Qed.

Lemma NoDup_map_same {A B : Type} (f : A -> B) (l : list A) (a b : A) :
  NoDup (map f l) -> In a l -> In b l -> f a = f b -> a = b.
Proof.
  induction l as [|x r IH]; simpl; [contradiction|].
  intros Hnd Ha Hb Hf. inversion Hnd as [|? ? Hn Hr]; subst.
  destruct Ha as [<-|Ha]; destruct Hb as [<-|Hb]; try reflexivity.
  - exfalso. apply Hn. rewrite Hf. apply in_map. exact Hb.
  - exfalso. apply Hn. rewrite <- Hf. apply in_map. exact Ha.
  - apply IH; assumption.
Qed.

Lemma find_store_endpoint (l : list WebhookEndpoint) (e : WebhookEndpoint) :
  (exists x, In x l /\ webhook_id x = webhook_id e) ->
  find (fun x => N.eqb (webhook_id x) (webhook_id e))
       (map (fun x => if N.eqb (webhook_id x) (webhook_id e) then e else x) l) = Some e.
Proof.
  induction l as [|x r IH]; simpl; intros [y [Hy Hid]]; [contradiction|].
  destruct (N.eqb (webhook_id x) (webhook_id e)) eqn:Ex.
  - simpl. rewrite N.eqb_refl. reflexivity.
  - simpl. rewrite Ex. apply IH. destruct Hy as [<-|Hy].
    + rewrite Hid, N.eqb_refl in Ex. discriminate.
    + exists y. split; assumption.
Qed.

(** [update_webhook] then [deliver_webhook]: a successful update whose
    ["event_types"] is [null] or [[]] stores [[]], which the delivery task
    reads as every event type: from then on, while the endpoint is active,
    a delivery of any event type to it sends its request when httpx
    accepts the stored URL, and raises [InvalidURL] with no request and no
    retry when it does not. *)
Theorem update_clearing_types_subscribes_all (detail : list string -> string)
        (created_at_of : N -> string) (db : WebhookDB) (ws_id wh_id user_id : N)
        (p : webhook_patch) (body : pydict) (db' : WebhookDB) :
  (wh_id < 2 ^ 128)%N ->
  (patch_event_types p = Some None \/ patch_event_types p = Some (Some [])) ->
  update_webhook detail created_at_of db ws_id wh_id user_id p = (RouteOk 200 body, db') ->
  exists e',
    find (fun x => N.eqb (webhook_id x) wh_id) (whdb_endpoints db') = Some e' /\
    event_types e' = Some [] /\ wh_workspace_id e' = ws_id /\
    forall sign SV uok retries delivery_id delivered_at response event_type payload,
      is_active e' = true ->
      (uok (url e') = true ->
       exists req,
         fst (deliver_webhook sign SV uok (whdb_endpoints db') retries delivery_id delivered_at response
                              (uuid_str wh_id) event_type payload) = [req] /\
         req_url req = url e') /\
      (uok (url e') = false ->
       deliver_webhook sign SV uok (whdb_endpoints db') retries delivery_id delivered_at response
                       (uuid_str wh_id) event_type payload = ([], TaskRaise "InvalidURL")).
Proof.
  intros Hid Hp H. unfold update_webhook in H.
  destruct (get_owned_workspace db ws_id user_id) as [r|ws] eqn:Ews.
  { destruct (get_owned_workspace_err _ _ _ _ Ews) as (? & ? & ->). discriminate. }
  destruct (require_webhooks ws) as [r|] eqn:Er.
  { destruct (require_webhooks_err _ _ Er) as (? & ? & ->). discriminate. }
  destruct (get_owned_webhook db wh_id ws_id) as [r|e] eqn:Ew.
  { unfold get_owned_webhook in Ew. destruct (find _ _); [destruct (negb _)|];
      try discriminate; injection Ew as <-; discriminate. }
  destruct (get_owned_webhook_ok _ _ _ _ Ew) as (Hin & He & Hws).
  set (e1 := match patch_is_active p with Some v => set_active e (truthy v) | None => e end) in H.
  assert (Hnt : match patch_event_types p with
                | Some nt => match nt with Some l => l | None => [] end
                | None => [] end = []) by (destruct Hp as [-> | ->]; reflexivity).
  destruct (patch_event_types p) as [nt|]; [|destruct Hp; discriminate].
  rewrite Hnt in H. cbn [validate_event_types filter length Nat.eqb] in H.
  injection H as _ <-.
  assert (Hid2 : webhook_id (set_event_types e1 []) = wh_id).
  { unfold e1; destruct (patch_is_active p); exact He. }
  exists (set_event_types e1 []).
  split.
  - unfold store_endpoint; cbn [whdb_endpoints]. rewrite <- Hid2.
    apply find_store_endpoint. exists e. split; [exact Hin | rewrite Hid2; exact He].
  - split; [reflexivity|]. split; [unfold e1; destruct (patch_is_active p); exact Hws|].
    intros sign SV uok retries delivery_id delivered_at response event_type payload Hact.
    unfold deliver_webhook. rewrite (uuid_parse_str _ Hid).
    assert (Hf : find (fun x => N.eqb (webhook_id x) wh_id)
                      (whdb_endpoints (store_endpoint db (set_event_types e1 [])))
                 = Some (set_event_types e1 [])).
    { unfold store_endpoint; cbn [whdb_endpoints]. rewrite <- Hid2.
      apply find_store_endpoint. exists e. split; [exact Hin | rewrite Hid2; exact He]. }
    rewrite Hf, Hact. cbn [negb event_types set_event_types length Nat.eqb andb].
    split; intros Hu; rewrite Hu; cbn [negb]; [|reflexivity].
    destruct response as [code|].
    + destruct (_ && _); eexists; split; reflexivity.
    + eexists; split; reflexivity.
Qed.

Lemma update_clearing_types_subscribes_all_witness :
  ((3 < 2 ^ 128)%N /\
   patch_event_types {| patch_is_active := None; patch_event_types := Some None |} = Some None /\
   update_webhook (fun _ => "unknown") (fun _ => "2026-01-01") downgraded_db 1 3 7
     {| patch_is_active := None; patch_event_types := Some None |}
   = (RouteOk 200 (to_public (set_event_types pro_endpoint []) "2026-01-01"),
      store_endpoint downgraded_db (set_event_types pro_endpoint []))) /\
  exists req,
    fst (deliver_webhook (fun _ _ => "sha256=0") "1.0" (fun _ => true)
           (whdb_endpoints (store_endpoint downgraded_db (set_event_types pro_endpoint [])))
           0 "d0" "t" (HttpStatus 200) (uuid_str 3) "alert.triggered" []) = [req] /\
    req_url req = url pro_endpoint.
Proof.
  assert (H : update_webhook (fun _ => "unknown") (fun _ => "2026-01-01") downgraded_db 1 3 7
                {| patch_is_active := None; patch_event_types := Some None |}
              = (RouteOk 200 (to_public (set_event_types pro_endpoint []) "2026-01-01"),
                 store_endpoint downgraded_db (set_event_types pro_endpoint []))) by reflexivity.
  split; [split; [vm_compute; reflexivity | split; reflexivity]|].
  destruct (update_clearing_types_subscribes_all (fun _ => "unknown") (fun _ => "2026-01-01")
              downgraded_db 1 3 7 {| patch_is_active := None; patch_event_types := Some None |} _ _
              ltac:(vm_compute; reflexivity) (or_introl eq_refl) H)
    as [e' [Hf [_ [_ Hd]]]].
  vm_compute in Hf. injection Hf as <-.
  destruct (Hd (fun _ _ => "sha256=0") "1.0" (fun _ => true) 0 "d0" "t" (HttpStatus 200)
                "alert.triggered" [] eq_refl) as [Hd1 _].
  destruct (Hd1 eq_refl) as [req [E1 E2]].
  exists req. split; [exact E1 | exact E2].
Defined.

(** [update_webhook] and [delete_webhook] never change or remove an
    endpoint that belongs to a workspace the caller does not own (webhook
    ids being unique). *)
Theorem webhook_changes_stay_in_owned_workspaces (detail : list string -> string)
        (created_at_of : N -> string) (db : WebhookDB) (ws_id wh_id user_id : N)
        (p : webhook_patch) (e : WebhookEndpoint) :
  NoDup (map webhook_id (whdb_endpoints db)) ->
  In e (whdb_endpoints db) ->
  (forall w, In w (whdb_workspaces db) -> workspace_id w = wh_workspace_id e -> owner_id w <> user_id) ->
  In e (whdb_endpoints (snd (update_webhook detail created_at_of db ws_id wh_id user_id p))) /\
  In e (whdb_endpoints (snd (delete_webhook db ws_id wh_id user_id))).
Proof.
  intros Hnd Hin Hown.
  assert (Hother : forall ws e0, get_owned_workspace db ws_id user_id = inr ws ->
                                 get_owned_webhook db wh_id ws_id = inr e0 ->
                                 N.eqb (webhook_id e) (webhook_id e0) = false).
  { intros ws e0 Hws He0.
    destruct (get_owned_workspace_ok _ _ _ _ Hws) as (Hw & Hwid & Hwo).
    destruct (get_owned_webhook_ok _ _ _ _ He0) as (He & Heid & Hews).
    destruct (N.eqb_spec (webhook_id e) (webhook_id e0)) as [E|]; [|reflexivity].
    exfalso. assert (e = e0) as <- by (apply (NoDup_map_same webhook_id _ _ _ Hnd Hin He E)).
    apply (Hown ws Hw); [rewrite Hwid; symmetry; exact Hews | exact Hwo]. }
  split.
  - unfold update_webhook.
    destruct (get_owned_workspace db ws_id user_id) as [r|ws] eqn:Ews; [exact Hin|].
    destruct (require_webhooks ws); [exact Hin|].
    destruct (get_owned_webhook db wh_id ws_id) as [r|e0] eqn:Ee0; [exact Hin|].
    pose proof (Hother ws e0 eq_refl eq_refl) as Hne.
    destruct (match patch_event_types p with Some _ => _ | None => _ end) as [r|e2] eqn:E2;
      [exact Hin|].
    assert (Hid2 : webhook_id e2 = webhook_id e0).
    { destruct (patch_event_types p) as [nt|].
      - destruct (validate_event_types _ _); [discriminate|]. injection E2 as <-.
        destruct (patch_is_active p); reflexivity.
      - injection E2 as <-. destruct (patch_is_active p); reflexivity. }
    unfold store_endpoint; cbn [snd whdb_endpoints].
    apply in_map_iff. exists e. rewrite Hid2, Hne. split; [reflexivity | exact Hin].
  - unfold delete_webhook.
    destruct (get_owned_workspace db ws_id user_id) as [r|ws] eqn:Ews; [exact Hin|].
    destruct (get_owned_webhook db wh_id ws_id) as [r|e0] eqn:Ee0; [exact Hin|].
    cbn [snd whdb_endpoints]. apply filter_In. split; [exact Hin|].
    rewrite (Hother ws e0 eq_refl eq_refl). reflexivity.
Qed.

Lemma webhook_changes_stay_in_owned_workspaces_witness :
  (NoDup (map webhook_id (whdb_endpoints downgraded_db)) /\
   In legacy_endpoint (whdb_endpoints downgraded_db)) /\
  In legacy_endpoint
     (whdb_endpoints (snd (update_webhook (fun _ => "unknown") (fun _ => "t") downgraded_db
                             2 5 8 {| patch_is_active := Some (JBool false);
                                      patch_event_types := None |}))) /\
  In legacy_endpoint (whdb_endpoints (snd (delete_webhook downgraded_db 2 5 8))).
Proof.
  assert (Hnd : NoDup (map webhook_id (whdb_endpoints downgraded_db))).
  { simpl. repeat constructor; simpl; intuition discriminate. }
  assert (Hin : In legacy_endpoint (whdb_endpoints downgraded_db)) by (simpl; tauto).
  split; [split; assumption|].
  apply (webhook_changes_stay_in_owned_workspaces _ _ downgraded_db 2 5 8 _ legacy_endpoint Hnd Hin).
  intros w Hw _. simpl in Hw. repeat destruct Hw as [<-|Hw]; try contradiction; simpl; lia.
Defined.

(** A workspace whose tier lacks [can_use_webhooks] (after a downgrade)
    cannot read, update or test its endpoints, each refused with the 403
    of [require_feature] and nothing changed or queued, yet
    [delete_webhook] still deletes them. *)
Theorem downgraded_owner_can_only_delete (detail : list string -> string)
        (created_at_of : N -> string) (db : WebhookDB) (ws_id wh_id user_id : N)
        (p : webhook_patch) (ws : Workspace) (e : WebhookEndpoint) (r : route_response) :
  get_owned_workspace db ws_id user_id = inr ws ->
  require_webhooks ws = Some r ->
  get_owned_webhook db wh_id ws_id = inr e ->
  (exists d, r = RouteHTTPException 403 d) /\
  get_webhook created_at_of db ws_id wh_id user_id = r /\
  update_webhook detail created_at_of db ws_id wh_id user_id p = (r, db) /\
  test_webhook db ws_id wh_id user_id = (r, []) /\
  delete_webhook db ws_id wh_id user_id =
    (RouteOk 204 [],
     {| whdb_workspaces := whdb_workspaces db;
        whdb_endpoints := filter (fun x => negb (N.eqb (webhook_id x) wh_id)) (whdb_endpoints db) |}).
Proof.
  intros Hws Hr He.
  destruct (get_owned_webhook_ok _ _ _ _ He) as (_ & Hid & _).
  split.
  - unfold require_webhooks, require_feature in Hr.
    destruct (negb _); [|discriminate]. injection Hr as <-. eexists; reflexivity.
  - unfold get_webhook, update_webhook, test_webhook, delete_webhook.
    rewrite Hws, Hr, He, Hid. repeat split.
Qed.

Lemma downgraded_owner_can_only_delete_witness :
  (get_owned_workspace downgraded_db 2 7 = inr downgraded_ws /\
   (exists r, require_webhooks downgraded_ws = Some r) /\
   get_owned_webhook downgraded_db 5 2 = inr legacy_endpoint) /\
  delete_webhook downgraded_db 2 5 7 =
    (RouteOk 204 [], {| whdb_workspaces := whdb_workspaces downgraded_db;
                        whdb_endpoints := [pro_endpoint] |}) /\
  exists d, update_webhook (fun _ => "unknown") (fun _ => "t") downgraded_db 2 5 7
              {| patch_is_active := Some (JBool false); patch_event_types := None |}
            = (RouteHTTPException 403 d, downgraded_db).
Proof.
  assert (Hws : get_owned_workspace downgraded_db 2 7 = inr downgraded_ws) by reflexivity.
  assert (He : get_owned_webhook downgraded_db 5 2 = inr legacy_endpoint) by reflexivity.
  destruct (require_webhooks downgraded_ws) as [r|] eqn:Hr; [|discriminate].
  destruct (downgraded_owner_can_only_delete (fun _ => "unknown") (fun _ => "t") downgraded_db 2 5 7
              {| patch_is_active := Some (JBool false); patch_event_types := None |}
              downgraded_ws legacy_endpoint r Hws Hr He)
    as ([d ->] & _ & Hu & _ & Hd).
  split; [split; [exact Hws | split; [exists (RouteHTTPException 403 d); reflexivity | exact He]]|].
  split; [rewrite Hd; reflexivity|].
  exists d. exact Hu.
Defined.
